(** * Scholarbase API: the route handlers over the in-memory stores

    A shallow embedding of the Express route handlers of the Scholarbase API
    (course listing, enrollment mutation, student profiles).  Every handler
    is a function of the store it reads; a handler that mutates a store
    returns the new store next to its response.  Clock readings
    ([Date.now()], [new Date().toISOString()]) are inputs. *)

From Stdlib Require Import List String Ascii Bool ZArith QArith Lia Lqa.
From Stdlib Require Import Sorted Permutation DecimalString.
Import ListNotations.

Local Open Scope string_scope.
Local Open Scope list_scope.

(** * The JavaScript values and built-ins the handlers rely on *)

Module Js.

(** A JavaScript [number] as the built-in parsers return it. *)
Inductive number : Type :=
| NaN
| NegInf
| Num (q : Q)
| PosInf.

(** [a - b] on numbers. *)
Definition sub (a b : number) : number :=
  match a, b with
  | NaN, _ | _, NaN => NaN
  | Num x, Num y => Num (x - y)
  | PosInf, PosInf | NegInf, NegInf => NaN
  | PosInf, _ | _, NegInf => PosInf
  | NegInf, _ | _, PosInf => NegInf
  end.

(** [a <= b]; every comparison with [NaN] is false. *)
Definition leb (a b : number) : bool :=
  match a, b with
  | NaN, _ | _, NaN => false
  | NegInf, _ | _, PosInf => true
  | Num x, Num y => Qle_bool x y
  | _, _ => false
  end.

(** [a >= b]. *)
Definition geb (a b : number) : bool := leb b a.

(** [n > 0], the only thing [Array.prototype.sort] asks of a comparator's
    result when it decides whether two elements have to be swapped; a
    [NaN] result counts as [+0]. *)
Definition gt0 (n : number) : bool :=
  match n with
  | PosInf => true
  | Num q => match (q ?= 0)%Q with Gt => true | _ => false end
  | _ => false
  end.

(** The result of [parseInt]: an integer, or [None] for [NaN]. *)
Definition int := option Z.

(** [a + b] on the results of [parseInt]. *)
Definition add (a b : int) : int :=
  match a, b with
  | Some x, Some y => Some (x + y)%Z
  | _, _ => None
  end.

(** [Math.floor(a / b) + 1]; [None] stands for a result that is not
    finite ([NaN], or a division by zero), which [res.json] prints as
    [null]. *)
Definition floor_div_succ (a b : int) : int :=
  match a, b with
  | Some x, Some y => if (y =? 0)%Z then None else Some (x / y + 1)%Z
  | _, _ => None
  end.

(** A request-body field after [express.json()]: [JUndefined] for a key
    that is absent from the body, otherwise null, a boolean or a string.
    The documented request schemas type every field as a string; numbers,
    arrays and objects are left out. *)
Inductive value : Type :=
| JUndefined
| JNull
| JBool (b : bool)
| JStr (s : string).

(** ToBoolean. *)
Definition truthy (v : value) : bool :=
  match v with
  | JUndefined | JNull => false
  | JBool b => b
  | JStr s => negb (s =? EmptyString)
  end.

(** [a === b]. *)
Definition strict_eq (a b : value) : bool :=
  match a, b with
  | JUndefined, JUndefined | JNull, JNull => true
  | JBool x, JBool y => Bool.eqb x y
  | JStr x, JStr y => (x =? y)
  | _, _ => false
  end.

(** [a || b]. *)
Definition or (a b : value) : value := if truthy a then a else b.

(** ToString, as a template literal applies it. *)
Definition to_string (v : value) : string :=
  match v with
  | JUndefined => "undefined"
  | JNull => "null"
  | JBool true => "true"
  | JBool false => "false"
  | JStr s => s
  end.

(** ToString of an integer number ([Date.now()] in a template literal). *)
Definition int_to_string (z : Z) : string :=
  DecimalString.NilZero.string_of_int (Z.to_int z).

(** A query-string parameter: [None] when the key is absent
    ([undefined]), otherwise the string that was sent. *)
Definition param := option string.

(** [if (p)] on a query parameter: present and not the empty string. *)
Definition supplied (p : param) : bool :=
  match p with
  | Some s => negb (s =? EmptyString)
  | None => false
  end.

(** [hay.includes(needle)]. *)
Fixpoint includes (hay needle : string) : bool :=
  String.prefix needle hay ||
  match hay with
  | EmptyString => false
  | String _ hay' => includes hay' needle
  end.

Section Arrays.
Context {A : Type}.

(** The relative index of [Array.prototype.slice]: [NaN] is 0, a
    negative index counts from the end, and the result is clamped to
    the array. *)
Definition relative_index (len : Z) (i : int) : Z :=
  match i with
  | None => 0
  | Some z => if (z <? 0)%Z then Z.max (len + z) 0 else Z.min z len
  end%Z.

(** [l.slice(start, end)]. *)
Definition slice (l : list A) (start end_ : int) : list A :=
  let len := Z.of_nat (List.length l) in
  let k := relative_index len start in
  let final := relative_index len end_ in
  firstn (Z.to_nat (final - k)) (skipn (Z.to_nat k) l).

(** [l.findIndex(p)]; [None] stands for [-1]. *)
Fixpoint findIndex (p : A -> bool) (l : list A) : option nat :=
  match l with
  | [] => None
  | x :: l' => if p x then Some 0%nat else option_map S (findIndex p l')
  end.

(** [l.splice(i, 1)] for an index [i] inside the array: the array
    without its element at [i]. *)
Fixpoint splice1 (i : nat) (l : list A) : list A :=
  match l, i with
  | [], _ => []
  | _ :: l', O => l'
  | x :: l', S i' => x :: splice1 i' l'
  end.

(** [l[i] = v] for an index [i] inside the array. *)
Fixpoint assign (i : nat) (v : A) (l : list A) : list A :=
  match l, i with
  | [], _ => []
  | _ :: l', O => v :: l'
  | x :: l', S i' => x :: assign i' v l'
  end.

(** [Array.prototype.sort] with a comparator.  The language requires a
    stable sort, and for a consistent comparator its result is the one
    sorted permutation that keeps equal elements in their order; a
    stable insertion sort computes it.  [x] moves behind [y] exactly
    when [cmp x y > 0]. *)
Fixpoint insert (cmp : A -> A -> number) (x : A) (l : list A) : list A :=
  match l with
  | [] => [x]
  | y :: l' => if gt0 (cmp x y) then y :: insert cmp x l' else x :: l
  end.

Definition sort (cmp : A -> A -> number) (l : list A) : list A :=
  fold_right (insert cmp) [] l.

End Arrays.

(** The built-ins whose result depends on the engine's Unicode tables,
    number grammar and date grammar. *)
Class Runtime : Type := {
  toLowerCase : string -> string;
  parseFloat : string -> number;
  parseInt : string -> int;
  (** [new Date(s).getTime()] *)
  dateGetTime : string -> number
}.

(** ** Strings, sets and thrown errors *)

(** [s.slice(start)] on a string. *)
Definition str_slice_from (s : string) (start : Z) : string :=
  let len := Z.of_nat (String.length s) in
  let from := relative_index len (Some start) in
  String.substring (Z.to_nat from) (Z.to_nat (len - from)) s.

(** How the body of a handler ends: with a value, or with the
    [TypeError] of a method call on a value that has no such method. *)
Inductive completion (A : Type) : Type :=
| Normal (a : A)
| TypeError.
Arguments Normal {A} _.
Arguments TypeError {A}.

Definition bind {A B} (c : completion A) (k : A -> completion B)
  : completion B :=
  match c with
  | Normal a => k a
  | TypeError => TypeError
  end.

(** [v.slice(start)] on a stored value: only a string has the method. *)
Definition slice_method (v : value) (start : Z) : completion string :=
  match v with
  | JStr s => Normal (str_slice_from s start)
  | _ => TypeError
  end.

(** [v.toLowerCase()] on a stored value. *)
Definition toLowerCase_method {rt : Runtime} (v : value) : completion string :=
  match v with
  | JStr s => Normal (toLowerCase s)
  | _ => TypeError
  end.

Section Callbacks.
Context {A B : Type}.

(** [l.filter(p)] with a callback that may throw: the first throw ends
    the call. *)
Fixpoint filter_throwing (p : A -> completion bool) (l : list A)
  : completion (list A) :=
  match l with
  | [] => Normal []
  | x :: l' =>
      bind (p x) (fun keep =>
      bind (filter_throwing p l') (fun rest =>
      Normal (if keep then x :: rest else rest)))
  end.

(** [l.map(f)] with a callback that may throw. *)
Fixpoint map_throwing (f : A -> completion B) (l : list A)
  : completion (list B) :=
  match l with
  | [] => Normal []
  | x :: l' =>
      bind (f x) (fun y =>
      bind (map_throwing f l') (fun rest => Normal (y :: rest)))
  end.

(** [new Set(l)], as the list of its elements in insertion order:
    [Set.prototype.add] keeps the first of equal values. *)
Definition set_add (same : A -> A -> bool) (elements : list A) (x : A)
  : list A :=
  if existsb (same x) elements then elements else elements ++ [x].

Definition set_of (same : A -> A -> bool) (l : list A) : list A :=
  fold_left (set_add same) l [].

End Callbacks.

End Js.

(** * A reference runtime

    An executable instance of [Js.Runtime] for ASCII text, plain decimal
    literals and ISO-8601 UTC timestamps of the form
    [YYYY-MM-DDTHH:MM:SSZ], which is all the seed data and the examples
    below use. *)

Module Reference.

Definition lower (c : ascii) : ascii :=
  let n := nat_of_ascii c in
  if (65 <=? n)%nat && (n <=? 90)%nat then ascii_of_nat (n + 32) else c.

Fixpoint toLowerCase (s : string) : string :=
  match s with
  | EmptyString => EmptyString
  | String c s' => String (lower c) (toLowerCase s')
  end.

Definition digit (c : ascii) : option Z :=
  let n := nat_of_ascii c in
  if (48 <=? n)%nat && (n <=? 57)%nat then Some (Z.of_nat (n - 48)) else None.

Definition is_space (c : ascii) : bool :=
  let n := nat_of_ascii c in
  (n =? 32)%nat || ((9 <=? n)%nat && (n <=? 13)%nat).

Fixpoint trim_start (s : string) : string :=
  match s with
  | String c s' => if is_space c then trim_start s' else s
  | EmptyString => s
  end.

(** The leading decimal digits of [s]: their value so far, how many
    there are, and what follows them. *)
Fixpoint digits (acc : Z) (n : nat) (s : string) : Z * nat * string :=
  match s with
  | String c s' =>
      match digit c with
      | Some d => digits (10 * acc + d) (S n) s'
      | None => (acc, n, s)
      end
  | EmptyString => (acc, n, s)
  end.

Definition sign (s : string) : bool * string :=
  match s with
  | String "-" s' => (true, s')
  | String "+" s' => (false, s')
  | _ => (false, s)
  end.

Definition parseInt (s : string) : Js.int :=
  let (neg, s1) := sign (trim_start s) in
  match digits 0 0 s1 with
  | (_, O, _) => None
  | (v, _, _) => Some (if neg then - v else v)%Z
  end.

Definition parseFloat (s : string) : Js.number :=
  let (neg, s1) := sign (trim_start s) in
  if String.prefix "Infinity" s1 then (if neg then Js.NegInf else Js.PosInf)
  else
    let '(ip, ni, s2) := digits 0 0 s1 in
    let '(fp, nf, _) :=
      match s2 with
      | String "." s3 => digits 0 0 s3
      | _ => (0%Z, O, s2)
      end in
    match (ni + nf)%nat with
    | O => Js.NaN
    | _ =>
        let q := (inject_Z ip + inject_Z fp / inject_Z (10 ^ Z.of_nat nf))%Q in
        Js.Num (Qred (if neg then - q else q))
    end.

(** Days between 1970-01-01 and the given civil date. *)
Definition days_from_civil (y m d : Z) : Z :=
  (let y' := if m <=? 2 then y - 1 else y in
   let era := y' / 400 in
   let yoe := y' - era * 400 in
   let doy := (153 * (if m <=? 2 then m + 9 else m - 3) + 2) / 5 + d - 1 in
   let doe := yoe * 365 + yoe / 4 - yoe / 100 + doy in
   era * 146097 + doe - 719468)%Z.

(** Exactly [n] decimal digits, then the rest. *)
Fixpoint fixed (n : nat) (acc : Z) (s : string) : option (Z * string) :=
  match n, s with
  | O, _ => Some (acc, s)
  | S n', String c s' =>
      match digit c with
      | Some d => fixed n' (10 * acc + d) s'
      | None => None
      end
  | S _, EmptyString => None
  end.

Definition expect (c : ascii) (s : string) : option string :=
  match s with
  | String c' s' => if Ascii.eqb c c' then Some s' else None
  | EmptyString => None
  end.

Definition bind {A B} (o : option A) (f : A -> option B) : option B :=
  match o with Some a => f a | None => None end.

Definition parse_iso (s : string) : option Z :=
  bind (fixed 4 0 s) (fun '(y, s) =>
  bind (expect "-" s) (fun s =>
  bind (fixed 2 0 s) (fun '(m, s) =>
  bind (expect "-" s) (fun s =>
  bind (fixed 2 0 s) (fun '(d, s) =>
  bind (expect "T" s) (fun s =>
  bind (fixed 2 0 s) (fun '(h, s) =>
  bind (expect ":" s) (fun s =>
  bind (fixed 2 0 s) (fun '(mi, s) =>
  bind (expect ":" s) (fun s =>
  bind (fixed 2 0 s) (fun '(sec, s) =>
  bind (expect "Z" s) (fun s =>
    if (s =? EmptyString) && (1 <=? m)%Z && (m <=? 12)%Z && (1 <=? d)%Z && (d <=? 31)%Z
       && (h <=? 23)%Z && (mi <=? 59)%Z && (sec <=? 59)%Z
    then Some ((((days_from_civil y m d * 24 + h) * 60 + mi) * 60 + sec) * 1000)%Z
    else None)))))))))))).

Definition dateGetTime (s : string) : Js.number :=
  match parse_iso s with
  | Some ms => Js.Num (inject_Z ms)
  | None => Js.NaN
  end.

Definition runtime : Js.Runtime :=
  {| Js.toLowerCase := toLowerCase;
     Js.parseFloat := parseFloat;
     Js.parseInt := parseInt;
     Js.dateGetTime := dateGetTime |}.

End Reference.


(** * HTTP responses *)

Module Http.

(** What a handler sends: the status code and the JSON body. *)
Record response (B : Type) : Type := Response { status : nat; body : B }.
Arguments Response {B} _ _.
Arguments status {B} _.
Arguments body {B} _.

(** A body that is either [{ error: ... }] or the handler's payload. *)
Inductive payload (A : Type) : Type :=
| Error (error : string)
| Json (a : A).
Arguments Error {A} _.
Arguments Json {A} _.

(** [res.json(b)]: status 200. *)
Definition json {B} (b : B) : response B := Response 200 b.

End Http.

(** * Route matching

    Express tries the routes of a router in the order of their
    registration and runs the first one whose path pattern matches the
    path of the request. *)

Module Router.

(** A segment of a path pattern: literal text, or a [:name] parameter. *)
Inductive segment : Type :=
| Fixed (text : string)
| Named (name : string).

(** A pattern matches a path, given as its segments, when they have the
    same number of segments, each literal matches by the router's rule
    for literals and each parameter stands for a non-empty segment. *)
Fixpoint matches (literal : string -> string -> bool) (pattern : list segment)
    (path : list string) : bool :=
  match pattern, path with
  | [], [] => true
  | Fixed text :: pattern', seg :: path' =>
      literal text seg && matches literal pattern' path'
  | Named _ :: pattern', seg :: path' =>
      negb (seg =? EmptyString) && matches literal pattern' path'
  | _, _ => false
  end.

(** The handler of the first route that matches. *)
Definition dispatch {H : Type} (literal : string -> string -> bool)
    (routes : list (list segment * H)) (path : list string) : option H :=
  option_map snd (find (fun route => matches literal (fst route) path) routes).

End Router.

(** * routes/course.ts *)

Module Course.

Record t : Type := Make {
  id : string;
  title : string;
  description : string;
  instructor : string;
  author : string;
  price : Q;
  original_price : Q;
  rating : Q;
  review_count : Q;
  student_count : Q;
  thumbnail : string;
  category : string;
  level : string;
  featured : bool;
  is_published : bool;
  created_at : string;
  duration_hours : Q;
  lesson_count : Q;
  tags : list string
}.

End Course.

Module CourseRoutes.

Definition mockCourses : list Course.t :=
  [ {| Course.id := "course_1";
       Course.title := "Introduction to Web Development";
       Course.description :=
         "Learn the fundamentals of web development with HTML, CSS, and JavaScript";
       Course.instructor := "Dr. Sarah Johnson";
       Course.author := "tutor_1";
       Course.price := 9999 # 100;
       Course.original_price := 14999 # 100;
       Course.rating := 48 # 10;
       Course.review_count := 156;
       Course.student_count := 1250;
       Course.thumbnail := "/placeholder.jpg";
       Course.category := "Programming";
       Course.level := "Beginner";
       Course.featured := true;
       Course.is_published := true;
       Course.created_at := "2024-01-01T00:00:00Z";
       Course.duration_hours := 40;
       Course.lesson_count := 25;
       Course.tags := ["HTML"; "CSS"; "JavaScript"; "Web Development"] |};
    {| Course.id := "course_2";
       Course.title := "Advanced React Development";
       Course.description :=
         "Master React with hooks, context, and advanced patterns";
       Course.instructor := "Prof. Michael Chen";
       Course.author := "tutor_2";
       Course.price := 14999 # 100;
       Course.original_price := 19999 # 100;
       Course.rating := 49 # 10;
       Course.review_count := 89;
       Course.student_count := 890;
       Course.thumbnail := "/placeholder.jpg";
       Course.category := "Programming";
       Course.level := "Advanced";
       Course.featured := true;
       Course.is_published := true;
       Course.created_at := "2024-02-01T00:00:00Z";
       Course.duration_hours := 60;
       Course.lesson_count := 35;
       Course.tags := ["React"; "JavaScript"; "Frontend"; "Hooks"] |} ].

(** [req.query] of [GET /courses]. *)
Module Query.
Record t : Type := Make {
  search : Js.param;
  category : Js.param;
  level : Js.param;
  featured : Js.param;
  priceMin : Js.param;
  priceMax : Js.param;
  sortBy : Js.param;
  limit : Js.param;
  offset : Js.param
}.

(** A request without a query string. *)
Definition empty : t :=
  Make None None None None None None None None None.
End Query.

(** The body of the answer of [GET /courses]. *)
Module Listing.
Record t : Type := Make {
  courses : list Course.t;
  total : nat;
  page : Js.int;
  limit : Js.int
}.
End Listing.

(** The body of a successful answer of [GET /courses/category/:category]. *)
Module CategoryListing.
Record t : Type := Make {
  courses : list Course.t;
  category : string;
  total : nat
}.
End CategoryListing.

(** The body of the answers of [GET /courses/featured] and
    [GET /courses/:id/similar]. *)
Module Courses.
Record t : Type := Make { courses : list Course.t }.
End Courses.

(** The body of the answer of [GET /courses/categories]. *)
Module Categories.
Record t : Type := Make { categories : list string }.
End Categories.

(** The body of a successful answer of [GET /courses/search]. *)
Module SearchListing.
Record t : Type := Make {
  courses : list Course.t;
  query : string;
  total : nat;
  page : Js.int
}.
End SearchListing.

Section Handlers.
Context {rt : Js.Runtime}.

(** The callback of the [search] filter. *)
Definition search_hit (searchLower : string) (course : Course.t) : bool :=
  Js.includes (Js.toLowerCase (Course.title course)) searchLower ||
  Js.includes (Js.toLowerCase (Course.instructor course)) searchLower ||
  Js.includes (Js.toLowerCase (Course.description course)) searchLower.

(** "Apply filters": six optional filters, one after the other. *)
Definition apply_filters (q : Query.t) (courses : list Course.t)
  : list Course.t :=
  let filteredCourses := courses in
  let filteredCourses :=
    match Query.search q with
    | Some search =>
        if Js.supplied (Some search)
        then let searchLower := Js.toLowerCase search in
             filter (search_hit searchLower) filteredCourses
        else filteredCourses
    | None => filteredCourses
    end in
  let filteredCourses :=
    match Query.category q with
    | Some category =>
        if Js.supplied (Some category)
        then filter (fun course => Course.category course =? category)
                    filteredCourses
        else filteredCourses
    | None => filteredCourses
    end in
  let filteredCourses :=
    match Query.level q with
    | Some level =>
        if Js.supplied (Some level)
        then filter (fun course => Course.level course =? level)
                    filteredCourses
        else filteredCourses
    | None => filteredCourses
    end in
  let filteredCourses :=
    match Query.featured q with
    | Some featured =>
        filter (fun course =>
                  Bool.eqb (Course.featured course) (featured =? "true"))
               filteredCourses
    | None => filteredCourses
    end in
  let filteredCourses :=
    match Query.priceMin q with
    | Some priceMin =>
        if Js.supplied (Some priceMin)
        then filter (fun course =>
                       Js.geb (Js.Num (Course.price course))
                              (Js.parseFloat priceMin))
                    filteredCourses
        else filteredCourses
    | None => filteredCourses
    end in
  match Query.priceMax q with
  | Some priceMax =>
      if Js.supplied (Some priceMax)
      then filter (fun course =>
                     Js.leb (Js.Num (Course.price course))
                            (Js.parseFloat priceMax))
                  filteredCourses
      else filteredCourses
  | None => filteredCourses
  end.

(** The comparators of the [sortBy] switch. *)
Definition by_price_low (a b : Course.t) : Js.number :=
  Js.sub (Js.Num (Course.price a)) (Js.Num (Course.price b)).

Definition by_price_high (a b : Course.t) : Js.number :=
  Js.sub (Js.Num (Course.price b)) (Js.Num (Course.price a)).

Definition by_rating (a b : Course.t) : Js.number :=
  Js.sub (Js.Num (Course.rating b)) (Js.Num (Course.rating a)).

Definition by_newest (a b : Course.t) : Js.number :=
  Js.sub (Js.dateGetTime (Course.created_at b))
         (Js.dateGetTime (Course.created_at a)).

Definition by_popular (a b : Course.t) : Js.number :=
  Js.sub (Js.Num (Course.student_count b)) (Js.Num (Course.student_count a)).

(** "Apply sorting": nothing happens unless [sortBy] is truthy. *)
Definition apply_sorting (sortBy : Js.param) (filteredCourses : list Course.t)
  : list Course.t :=
  match sortBy with
  | Some key =>
      if Js.supplied (Some key) then
        if key =? "price-low" then Js.sort by_price_low filteredCourses
        else if key =? "price-high" then Js.sort by_price_high filteredCourses
        else if key =? "rating" then Js.sort by_rating filteredCourses
        else if key =? "newest" then Js.sort by_newest filteredCourses
        else Js.sort by_popular filteredCourses
      else filteredCourses
  | None => filteredCourses
  end.

(** [parseInt(p.toString())] of a query parameter with a numeric
    default: the default is what [parseInt] reads back from its own
    decimal notation. *)
Definition int_param (p : Js.param) (default : Z) : Js.int :=
  match p with
  | Some s => Js.parseInt s
  | None => Some default
  end.

(** [router.get("/")]: GET /courses. *)
Definition get_index (store : list Course.t) (q : Query.t)
  : Http.response Listing.t :=
  let filteredCourses := apply_filters q store in
  let filteredCourses := apply_sorting (Query.sortBy q) filteredCourses in
  let startIndex := int_param (Query.offset q) 0 in
  let limitNum := int_param (Query.limit q) 20 in
  let paginatedCourses :=
    Js.slice filteredCourses startIndex (Js.add startIndex limitNum) in
  Http.json
    {| Listing.courses := paginatedCourses;
       Listing.total := List.length filteredCourses;
       Listing.page := Js.floor_div_succ startIndex limitNum;
       Listing.limit := limitNum |}.

(** [router.get("/category/:category")]: GET /courses/category/:category. *)
Definition get_category (store : list Course.t) (category : string)
    (limit : Js.param)
  : Http.response (Http.payload CategoryListing.t) :=
  let categoryExists :=
    existsb (fun course => Course.category course =? category) store in
  if negb categoryExists
  then Http.Response 404 (Http.Error "Category not found")
  else
    let coursesByCategory :=
      filter (fun course => Course.category course =? category) store in
    let coursesByCategory :=
      match limit with
      | Some l =>
          if Js.supplied (Some l)
          then Js.slice coursesByCategory (Some 0%Z) (Js.parseInt l)
          else coursesByCategory
      | None => coursesByCategory
      end in
    Http.json
      (Http.Json
         {| CategoryListing.courses := coursesByCategory;
            CategoryListing.category := category;
            CategoryListing.total := List.length coursesByCategory |}).

(** [router.get("/featured")]: GET /courses/featured. *)
Definition get_featured (store : list Course.t) (limit : Js.param)
  : Http.response Courses.t :=
  let featuredCourses :=
    Js.slice (filter (fun course => Course.featured course) store)
             (Some 0%Z) (int_param limit 8) in
  Http.json {| Courses.courses := featuredCourses |}.

(** [router.get("/categories")]: GET /courses/categories. *)
Definition get_categories (store : list Course.t) : Http.response Categories.t :=
  let categories :=
    Js.set_of String.eqb (map (fun course => Course.category course) store) in
  Http.json {| Categories.categories := categories |}.

(** The callback of the filter of [GET /courses/search], which looks at
    the tags as well. *)
Definition search_hit_with_tags (searchLower : string) (course : Course.t)
  : bool :=
  Js.includes (Js.toLowerCase (Course.title course)) searchLower ||
  Js.includes (Js.toLowerCase (Course.instructor course)) searchLower ||
  Js.includes (Js.toLowerCase (Course.description course)) searchLower ||
  existsb (fun tag => Js.includes (Js.toLowerCase tag) searchLower)
          (Course.tags course).

(** [router.get("/search")]: GET /courses/search. *)
Definition get_search (store : list Course.t) (q limit offset : Js.param)
  : Http.response (Http.payload SearchListing.t) :=
  match q with
  | Some query =>
      if Js.supplied (Some query) then
        let searchLower := Js.toLowerCase query in
        let searchResults := filter (search_hit_with_tags searchLower) store in
        let startIndex := int_param offset 0 in
        let limitNum := int_param limit 20 in
        let paginatedResults :=
          Js.slice searchResults startIndex (Js.add startIndex limitNum) in
        Http.json
          (Http.Json
             {| SearchListing.courses := paginatedResults;
                SearchListing.query := query;
                SearchListing.total := List.length searchResults;
                SearchListing.page := Js.floor_div_succ startIndex limitNum |})
      else Http.Response 400 (Http.Error "Search query is required")
  | None => Http.Response 400 (Http.Error "Search query is required")
  end.

(** [router.get("/:id")]: GET /courses/:id. *)
Definition get_by_id (store : list Course.t) (id : string)
  : Http.response (Http.payload Course.t) :=
  match find (fun course => Course.id course =? id) store with
  | None => Http.Response 404 (Http.Error "Course not found")
  | Some course => Http.json (Http.Json course)
  end.

(** [router.get("/:id/similar")]: GET /courses/:id/similar. *)
Definition get_similar (store : list Course.t) (id : string) (limit : Js.param)
  : Http.response (Http.payload Courses.t) :=
  match find (fun course => Course.id course =? id) store with
  | None => Http.Response 404 (Http.Error "Course not found")
  | Some course =>
      let similarCourses :=
        Js.slice
          (filter (fun c =>
                     negb (Course.id c =? id) &&
                     ((Course.category c =? Course.category course)
                      || (Course.level c =? Course.level course)))
                  store)
          (Some 0%Z) (int_param limit 4) in
      Http.json (Http.Json {| Courses.courses := similarCourses |})
  end.

End Handlers.

End CourseRoutes.

(** * routes/enrollment.ts *)

Module Enrollment.

(** [student_id], [course_id] and [tutor_id] are stored as the request
    sent them. *)
Record t : Type := Make {
  id : string;
  created_at : string;
  student_id : Js.value;
  course_id : Js.value;
  tutor_id : Js.value
}.

End Enrollment.

Module EnrollmentRoutes.

Definition mockEnrollments : list Enrollment.t :=
  [ {| Enrollment.id := "enrollment_1";
       Enrollment.created_at := "2024-01-15T10:00:00Z";
       Enrollment.student_id := Js.JStr "user_123";
       Enrollment.course_id := Js.JStr "course_1";
       Enrollment.tutor_id := Js.JStr "tutor_1" |};
    {| Enrollment.id := "enrollment_2";
       Enrollment.created_at := "2024-01-20T15:30:00Z";
       Enrollment.student_id := Js.JStr "user_456";
       Enrollment.course_id := Js.JStr "course_2";
       Enrollment.tutor_id := Js.JStr "tutor_2" |} ].

(** [req.body] of [POST /enrollments]. *)
Module EnrollmentRequest.
Record t : Type := Make {
  student_id : Js.value;
  course_id : Js.value;
  tutor_id : Js.value
}.
End EnrollmentRequest.

(** The two clock readings of [POST /enrollments]: [Date.now()] and
    [new Date().toISOString()]. *)
Module Clock.
Record t : Type := Make { now : Z; toISOString : string }.
End Clock.

Module Created.
Record t : Type := Make { enrollment : Enrollment.t; message : string }.
End Created.

Module Removed.
Record t : Type := Make { message : string; enrollment_id : string }.
End Removed.

Module Unenrolled.
Record t : Type := Make {
  message : string;
  student_id : string;
  course_id : Js.value
}.
End Unenrolled.

(** The mock course a listing attaches to an enrollment. *)
Module CourseInfo.
Record t : Type := Make {
  id : Js.value;
  title : string;
  thumbnail : string;
  instructor : string;
  category : string;
  level : string
}.
End CourseInfo.

(** The mock student a listing attaches to an enrollment. *)
Module StudentInfo.
Record t : Type := Make {
  id : Js.value;
  First_name : string;
  Last_name : string;
  email : string;
  display_name : string
}.
End StudentInfo.

(** An element of a listing: the enrollment, with a [course] or a
    [student] key when the request asked for it. *)
Module Listed.
Record t : Type := Make {
  enrollment : Enrollment.t;
  course : option CourseInfo.t;
  student : option StudentInfo.t
}.
End Listed.

Module StudentListing.
Record t : Type := Make {
  enrollments : list Listed.t;
  student_id : string;
  total : nat
}.
End StudentListing.

Module CourseListing.
Record t : Type := Make {
  enrollments : list Listed.t;
  course_id : string;
  total : nat
}.
End CourseListing.

Module Check.
Record t : Type := Make {
  is_enrolled : bool;
  enrollment : option Enrollment.t;
  student_id : string;
  course_id : string
}.
End Check.

(** The body of a successful answer of [GET /enrollments/:enrollmentId]. *)
Module Details.
Record student_t : Type := MakeStudent {
  student_id : Js.value;
  First_name : string;
  Last_name : string;
  email : string
}.
Record course_t : Type := MakeCourse {
  course_id : Js.value;
  title : string;
  instructor : string
}.
Record t : Type := Make {
  enrollment : Enrollment.t;
  student : student_t;
  course : course_t
}.
End Details.

Module Count.
Record t : Type := Make { course_id : string; enrollment_count : nat }.
End Count.

Module Stats.
Record t : Type := Make {
  total_enrollments : nat;
  unique_students : nat;
  unique_courses : nat;
  recent_enrollments : list Enrollment.t
}.
End Stats.

(** The callback that looks an enrollment up by its (student, course)
    pair. *)
Definition same_pair (student_id course_id : Js.value) (e : Enrollment.t)
  : bool :=
  Js.strict_eq (Enrollment.student_id e) student_id &&
  Js.strict_eq (Enrollment.course_id e) course_id.

(** [router.post("/")]: POST /enrollments.  The second component is
    [mockEnrollments] after the call. *)
Definition post_index (store : list Enrollment.t) (clock : Clock.t)
    (body : EnrollmentRequest.t)
  : Http.response (Http.payload Created.t) * list Enrollment.t :=
  let student_id := EnrollmentRequest.student_id body in
  let course_id := EnrollmentRequest.course_id body in
  let tutor_id := EnrollmentRequest.tutor_id body in
  if negb (Js.truthy student_id) || negb (Js.truthy course_id)
  then (Http.Response 400 (Http.Error "student_id and course_id are required"),
        store)
  else
    match find (same_pair student_id course_id) store with
    | Some existingEnrollment =>
        (Http.Response 409
           (Http.Error "Student is already enrolled in this course"),
         store)
    | None =>
        let newEnrollment :=
          {| Enrollment.id := "enrollment_" ++ Js.int_to_string (Clock.now clock);
             Enrollment.created_at := Clock.toISOString clock;
             Enrollment.student_id := student_id;
             Enrollment.course_id := course_id;
             Enrollment.tutor_id := Js.or tutor_id Js.JNull |} in
        (Http.Response 201
           (Http.Json
              {| Created.enrollment := newEnrollment;
                 Created.message := "Enrollment created successfully" |}),
         store ++ [newEnrollment])
    end.

(** [router.delete("/:enrollmentId")]: DELETE /enrollments/:enrollmentId. *)
Definition delete_by_id (store : list Enrollment.t) (enrollmentId : string)
  : Http.response (Http.payload Removed.t) * list Enrollment.t :=
  match Js.findIndex (fun e => Enrollment.id e =? enrollmentId) store with
  | None => (Http.Response 404 (Http.Error "Enrollment not found"), store)
  | Some enrollmentIndex =>
      (Http.json
         (Http.Json
            {| Removed.message := "Enrollment removed successfully";
               Removed.enrollment_id := enrollmentId |}),
       Js.splice1 enrollmentIndex store)
  end.

(** [router.post("/student/:studentId/unenroll")]:
    POST /enrollments/student/:studentId/unenroll. *)
Definition post_unenroll (store : list Enrollment.t) (studentId : string)
    (course_id : Js.value)
  : Http.response (Http.payload Unenrolled.t) * list Enrollment.t :=
  if negb (Js.truthy course_id)
  then (Http.Response 400 (Http.Error "course_id is required"), store)
  else
    match Js.findIndex (same_pair (Js.JStr studentId) course_id) store with
    | None =>
        (Http.Response 404
           (Http.Error "Enrollment not found for this student and course"),
         store)
    | Some enrollmentIndex =>
        (Http.json
           (Http.Json
              {| Unenrolled.message := "Unenrolled successfully";
                 Unenrolled.student_id := studentId;
                 Unenrolled.course_id := course_id |}),
         Js.splice1 enrollmentIndex store)
    end.

(** [p === 'true'] on a query parameter. *)
Definition is_true (p : Js.param) : bool :=
  match p with
  | Some v => v =? "true"
  | None => false
  end.

(** [course_id === 'course_1' ? a : b], the choice behind every mock
    course attribute. *)
Definition course_1_or {A} (course_id : Js.value) (a b : A) : A :=
  if Js.strict_eq course_id (Js.JStr "course_1") then a else b.

(** [`student${student_id.slice(-3)}@example.com`]. *)
Definition mock_email (student_id : Js.value) : Js.completion string :=
  Js.bind (Js.slice_method student_id (-3))
          (fun tail => Js.Normal ("student" ++ tail ++ "@example.com")%string).

(** [router.get("/student/:studentId")]: GET /enrollments/student/:studentId. *)
Definition get_by_student (store : list Enrollment.t) (studentId : string)
    (include_courses : Js.param)
  : Http.response StudentListing.t :=
  let studentEnrollments :=
    filter (fun e => Js.strict_eq (Enrollment.student_id e) (Js.JStr studentId))
           store in
  let responseEnrollments :=
    if is_true include_courses
    then map (fun enrollment =>
                let course_id := Enrollment.course_id enrollment in
                {| Listed.enrollment := enrollment;
                   Listed.course :=
                     Some
                       {| CourseInfo.id := course_id;
                          CourseInfo.title :=
                            course_1_or course_id
                              "Introduction to Web Development"
                              "Advanced React Development";
                          CourseInfo.thumbnail := "/placeholder.jpg";
                          CourseInfo.instructor :=
                            course_1_or course_id
                              "Dr. Sarah Johnson" "Prof. Michael Chen";
                          CourseInfo.category := "Programming";
                          CourseInfo.level :=
                            course_1_or course_id "Beginner" "Advanced" |};
                   Listed.student := None |})
             studentEnrollments
    else map (fun enrollment => Listed.Make enrollment None None)
             studentEnrollments in
  Http.json
    {| StudentListing.enrollments := responseEnrollments;
       StudentListing.student_id := studentId;
       StudentListing.total := List.length studentEnrollments |}.

(** [router.get("/course/:courseId")]: GET /enrollments/course/:courseId. *)
Definition get_by_course (store : list Enrollment.t) (courseId : string)
    (include_students : Js.param)
  : Js.completion (Http.response CourseListing.t) :=
  let courseEnrollments :=
    filter (fun e => Js.strict_eq (Enrollment.course_id e) (Js.JStr courseId))
           store in
  Js.bind
    (if is_true include_students
     then Js.map_throwing
            (fun enrollment =>
               Js.bind (mock_email (Enrollment.student_id enrollment))
                 (fun email =>
                    Js.Normal
                      {| Listed.enrollment := enrollment;
                         Listed.course := None;
                         Listed.student :=
                           Some
                             {| StudentInfo.id := Enrollment.student_id enrollment;
                                StudentInfo.First_name := "John";
                                StudentInfo.Last_name := "Doe";
                                StudentInfo.email := email;
                                StudentInfo.display_name := "John Doe" |} |}))
            courseEnrollments
     else Js.Normal
            (map (fun enrollment => Listed.Make enrollment None None)
                 courseEnrollments))
    (fun responseEnrollments =>
       Js.Normal
         (Http.json
            {| CourseListing.enrollments := responseEnrollments;
               CourseListing.course_id := courseId;
               CourseListing.total := List.length courseEnrollments |})).

(** [router.get("/check")]: GET /enrollments/check. *)
Definition get_check (store : list Enrollment.t) (student_id course_id : Js.param)
  : Http.response (Http.payload Check.t) :=
  match student_id, course_id with
  | Some student, Some course =>
      if negb (Js.supplied (Some student)) || negb (Js.supplied (Some course))
      then Http.Response 400
             (Http.Error "student_id and course_id are required")
      else
        let enrollment :=
          find (same_pair (Js.JStr student) (Js.JStr course)) store in
        Http.json
          (Http.Json
             {| Check.is_enrolled :=
                  match enrollment with Some _ => true | None => false end;
                Check.enrollment := enrollment;
                Check.student_id := student;
                Check.course_id := course |})
  | _, _ =>
      Http.Response 400 (Http.Error "student_id and course_id are required")
  end.

(** [router.get("/:enrollmentId")]: GET /enrollments/:enrollmentId. *)
Definition get_by_id (store : list Enrollment.t) (enrollmentId : string)
  : Js.completion (Http.response (Http.payload Details.t)) :=
  match find (fun e => Enrollment.id e =? enrollmentId) store with
  | None => Js.Normal (Http.Response 404 (Http.Error "Enrollment not found"))
  | Some enrollment =>
      Js.bind (mock_email (Enrollment.student_id enrollment))
        (fun email =>
           let mockStudent :=
             {| Details.student_id := Enrollment.student_id enrollment;
                Details.First_name := "John";
                Details.Last_name := "Doe";
                Details.email := email |} in
           let course_id := Enrollment.course_id enrollment in
           let mockCourse :=
             {| Details.course_id := course_id;
                Details.title :=
                  course_1_or course_id "Introduction to Web Development"
                              "Advanced React Development";
                Details.instructor :=
                  course_1_or course_id "Dr. Sarah Johnson"
                              "Prof. Michael Chen" |} in
           Js.Normal
             (Http.json
                (Http.Json
                   {| Details.enrollment := enrollment;
                      Details.student := mockStudent;
                      Details.course := mockCourse |})))
  end.

(** [router.get("/course/:courseId/count")]:
    GET /enrollments/course/:courseId/count. *)
Definition get_course_count (store : list Enrollment.t) (courseId : string)
  : Http.response Count.t :=
  let count :=
    List.length
      (filter (fun e => Js.strict_eq (Enrollment.course_id e) (Js.JStr courseId))
              store) in
  Http.json {| Count.course_id := courseId; Count.enrollment_count := count |}.

Section Statistics.
Context {rt : Js.Runtime}.

(** The comparator of the statistics handler: newest first. *)
Definition by_created_desc (a b : Enrollment.t) : Js.number :=
  Js.sub (Js.dateGetTime (Enrollment.created_at b))
         (Js.dateGetTime (Enrollment.created_at a)).

(** The handler of [router.get("/stats")].  [sort] works in place, so the
    second component, [mockEnrollments] after the call, is the sorted
    array. *)
Definition get_stats (store : list Enrollment.t)
  : Http.response Stats.t * list Enrollment.t :=
  let totalEnrollments := List.length store in
  let uniqueStudents :=
    List.length
      (Js.set_of Js.strict_eq (map (fun e => Enrollment.student_id e) store)) in
  let uniqueCourses :=
    List.length
      (Js.set_of Js.strict_eq (map (fun e => Enrollment.course_id e) store)) in
  let sorted := Js.sort by_created_desc store in
  let recentEnrollments := Js.slice sorted (Some 0%Z) (Some 10%Z) in
  (Http.json
     {| Stats.total_enrollments := totalEnrollments;
        Stats.unique_students := uniqueStudents;
        Stats.unique_courses := uniqueCourses;
        Stats.recent_enrollments := recentEnrollments |},
   sorted).

End Statistics.

(** The GET routes of the router, in the order of their registration. *)
Inductive get_handler : Type :=
| StudentEnrollments
| CourseEnrollments
| CheckEnrollment
| EnrollmentDetails
| CourseEnrollmentCount
| Statistics.

Definition get_routes : list (list Router.segment * get_handler) :=
  [ ([Router.Fixed "student"; Router.Named "studentId"],
     StudentEnrollments);
    ([Router.Fixed "course"; Router.Named "courseId"],
     CourseEnrollments);
    ([Router.Fixed "check"], CheckEnrollment);
    ([Router.Named "enrollmentId"], EnrollmentDetails);
    ([Router.Fixed "course"; Router.Named "courseId";
      Router.Fixed "count"],
     CourseEnrollmentCount);
    ([Router.Fixed "stats"], Statistics) ].

End EnrollmentRoutes.

(** * routes/user.ts *)

Module User.
Record t : Type := Make { id : string; email : string; created_at : string }.
End User.

Module Student.

(** A student object: one field per key the handlers read or write;
    [JUndefined] for a key the object does not have. *)
Record t : Type := Make {
  id : Js.value;
  First_name : Js.value;
  Last_name : Js.value;
  email : Js.value;
  display_name : Js.value;
  academic_level : Js.value;
  profile_picture : Js.value;
  created_at : Js.value;
  updated_at : Js.value
}.

(** The object without keys, which is also what spreading [undefined]
    gives. *)
Definition empty : t :=
  Make Js.JUndefined Js.JUndefined Js.JUndefined Js.JUndefined Js.JUndefined
       Js.JUndefined Js.JUndefined Js.JUndefined Js.JUndefined.

End Student.

Module UserRoutes.

Definition mockUsers : list User.t :=
  [ {| User.id := "user_123";
       User.email := "john.doe@example.com";
       User.created_at := "2024-01-01T00:00:00Z" |};
    {| User.id := "user_456";
       User.email := "jane.smith@example.com";
       User.created_at := "2024-01-15T00:00:00Z" |} ].

Definition mockStudents : list Student.t :=
  [ {| Student.id := Js.JStr "user_123";
       Student.First_name := Js.JStr "John";
       Student.Last_name := Js.JStr "Doe";
       Student.email := Js.JStr "john.doe@example.com";
       Student.display_name := Js.JStr "John Doe";
       Student.academic_level := Js.JStr "University";
       Student.profile_picture := Js.JNull;
       Student.created_at := Js.JStr "2024-01-01T00:00:00Z";
       Student.updated_at := Js.JUndefined |};
    {| Student.id := Js.JStr "user_456";
       Student.First_name := Js.JStr "Jane";
       Student.Last_name := Js.JStr "Smith";
       Student.email := Js.JStr "jane.smith@example.com";
       Student.display_name := Js.JStr "Jane Smith";
       Student.academic_level := Js.JStr "Graduate";
       Student.profile_picture := Js.JStr "/avatars/jane.jpg";
       Student.created_at := Js.JStr "2024-01-15T00:00:00Z";
       Student.updated_at := Js.JUndefined |} ].

(** The body of a successful answer of [GET /users/profile/:userId];
    [student] is [None] for [null]. *)
Module Profile.
Record t : Type := Make { user : User.t; student : option Student.t }.
End Profile.

(** [req.body] of [PUT /users/profile/:userId]. *)
Module ProfileUpdate.
Record t : Type := Make {
  First_name : Js.value;
  Last_name : Js.value;
  display_name : Js.value;
  academic_level : Js.value;
  profile_picture : Js.value
}.
End ProfileUpdate.

(** [req.body] of [POST /users/create-profile]. *)
Module ProfileRequest.
Record t : Type := Make {
  id : Js.value;
  firstName : Js.value;
  lastName : Js.value;
  email : Js.value;
  displayName : Js.value;
  academicLevel : Js.value;
  profilePicture : Js.value
}.
End ProfileRequest.

Module Saved.
Record t : Type := Make { student : Student.t; message : string }.
End Saved.

(** The [user] of a search result: the stored user, or
    [{ id: student.id, email: student.email }] when there is none. *)
Module UserRef.
Inductive t : Type :=
| Stored (user : User.t)
| Minimal (id email : Js.value).
End UserRef.

Module UserProfile.
Record t : Type := Make { user : UserRef.t; student : Student.t }.
End UserProfile.

(** The body of a successful answer of [GET /users/search]. *)
Module SearchResult.
Record t : Type := Make {
  users : list UserProfile.t;
  total : nat;
  query : string
}.
End SearchResult.

(** [router.get("/profile/:userId")]: GET /users/profile/:userId. *)
Definition get_profile (users : list User.t) (students : list Student.t)
    (userId : string)
  : Http.response (Http.payload Profile.t) :=
  let user := find (fun u => User.id u =? userId) users in
  let student :=
    find (fun s => Js.strict_eq (Student.id s) (Js.JStr userId)) students in
  match user with
  | None => Http.Response 404 (Http.Error "User not found")
  | Some user =>
      Http.json
        (Http.Json {| Profile.user := user; Profile.student := student |})
  end.

(** [...(field && { key: field })] on top of the value [old] the key had:
    a truthy field overwrites it, a falsy one spreads nothing. *)
Definition spread_if_truthy (field old : Js.value) : Js.value :=
  if Js.truthy field then field else old.

(** [...(field !== undefined && { key: field })] on top of [old]. *)
Definition spread_if_defined (field old : Js.value) : Js.value :=
  match field with
  | Js.JUndefined => old
  | _ => field
  end.

(** [router.put("/profile/:userId")]: PUT /users/profile/:userId.
    [now] is [new Date().toISOString()]; the second component is
    [mockStudents] after the call. *)
Definition put_profile (students : list Student.t) (now : string)
    (userId : string) (body : ProfileUpdate.t)
  : Http.response (Http.payload Saved.t) * list Student.t :=
  match Js.findIndex (fun s => Js.strict_eq (Student.id s) (Js.JStr userId))
                     students with
  | None => (Http.Response 404 (Http.Error "User profile not found"), students)
  | Some studentIndex =>
      let old := nth studentIndex students Student.empty in
      let updatedStudent :=
        {| Student.id := Student.id old;
           Student.First_name :=
             spread_if_truthy (ProfileUpdate.First_name body)
                              (Student.First_name old);
           Student.Last_name :=
             spread_if_truthy (ProfileUpdate.Last_name body)
                              (Student.Last_name old);
           Student.email := Student.email old;
           Student.display_name :=
             spread_if_truthy (ProfileUpdate.display_name body)
                              (Student.display_name old);
           Student.academic_level :=
             spread_if_truthy (ProfileUpdate.academic_level body)
                              (Student.academic_level old);
           Student.profile_picture :=
             spread_if_defined (ProfileUpdate.profile_picture body)
                               (Student.profile_picture old);
           Student.created_at := Student.created_at old;
           Student.updated_at := Js.JStr now |} in
      (Http.json
         (Http.Json
            {| Saved.student := updatedStudent;
               Saved.message := "Profile updated successfully" |}),
       Js.assign studentIndex updatedStudent students)
  end.

(** [router.post("/create-profile")]: POST /users/create-profile. *)
Definition post_create_profile (students : list Student.t) (now : string)
    (body : ProfileRequest.t)
  : Http.response (Http.payload Saved.t) * list Student.t :=
  let id := ProfileRequest.id body in
  let firstName := ProfileRequest.firstName body in
  let lastName := ProfileRequest.lastName body in
  let email := ProfileRequest.email body in
  if negb (Js.truthy id) || negb (Js.truthy firstName)
     || negb (Js.truthy lastName) || negb (Js.truthy email)
  then (Http.Response 400
          (Http.Error "id, firstName, lastName, and email are required"),
        students)
  else
    match find (fun s => Js.strict_eq (Student.id s) id) students with
    | Some existingStudent =>
        (Http.Response 400 (Http.Error "Student profile already exists"),
         students)
    | None =>
        let newStudent :=
          {| Student.id := id;
             Student.First_name := firstName;
             Student.Last_name := lastName;
             Student.email := email;
             Student.display_name :=
               Js.or (ProfileRequest.displayName body)
                     (Js.JStr (Js.to_string firstName ++ " "
                               ++ Js.to_string lastName));
             Student.academic_level :=
               Js.or (ProfileRequest.academicLevel body) Js.JNull;
             Student.profile_picture :=
               Js.or (ProfileRequest.profilePicture body) Js.JNull;
             Student.created_at := Js.JStr now;
             Student.updated_at := Js.JUndefined |} in
        (Http.Response 201
           (Http.Json
              {| Saved.student := newStudent;
                 Saved.message := "Student profile created successfully" |}),
         students ++ [newStudent])
    end.

Section Search.
Context {rt : Js.Runtime}.

(** [field.toLowerCase().includes(searchLower)] on a field of a stored
    student. *)
Definition field_includes (field : Js.value) (searchLower : string)
  : Js.completion bool :=
  Js.bind (Js.toLowerCase_method field)
          (fun lower => Js.Normal (Js.includes lower searchLower)).

(** The callback of the filter of [GET /users/search]; [||] and [&&]
    evaluate their right operand only when the left one does not
    decide. *)
Definition search_hit (searchLower : string) (student : Student.t)
  : Js.completion bool :=
  Js.bind (field_includes (Student.First_name student) searchLower) (fun hit =>
  if hit then Js.Normal true else
  Js.bind (field_includes (Student.Last_name student) searchLower) (fun hit =>
  if hit then Js.Normal true else
  Js.bind (field_includes (Student.email student) searchLower) (fun hit =>
  if hit then Js.Normal true else
  if Js.truthy (Student.display_name student)
  then field_includes (Student.display_name student) searchLower
  else Js.Normal false))).

(** [router.get("/search")]: GET /users/search. *)
Definition get_search (users : list User.t) (students : list Student.t)
    (q limit : Js.param)
  : Js.completion (Http.response (Http.payload SearchResult.t)) :=
  match q with
  | Some query =>
      if Js.supplied (Some query) then
        let searchLower := Js.toLowerCase query in
        Js.bind (Js.filter_throwing (search_hit searchLower) students)
          (fun searchResults =>
             let limitedResults :=
               Js.slice searchResults (Some 0%Z)
                        (match limit with
                         | Some l => Js.parseInt l
                         | None => Some 20%Z
                         end) in
             let userProfiles :=
               map (fun student =>
                      let user :=
                        find (fun u => Js.strict_eq (Js.JStr (User.id u))
                                                    (Student.id student))
                             users in
                      {| UserProfile.user :=
                           match user with
                           | Some u => UserRef.Stored u
                           | None =>
                               UserRef.Minimal (Student.id student)
                                               (Student.email student)
                           end;
                         UserProfile.student := student |})
                   limitedResults in
             Js.Normal
               (Http.json
                  (Http.Json
                     {| SearchResult.users := userProfiles;
                        SearchResult.total := List.length searchResults;
                        SearchResult.query := query |})))
      else Js.Normal (Http.Response 400 (Http.Error "Search query is required"))
  | None => Js.Normal (Http.Response 400 (Http.Error "Search query is required"))
  end.

End Search.

End UserRoutes.

(** * index.ts: what happens to an error a handler throws *)

Module App.

Module ServerError.
Record t : Type := Make {
  error : string;
  message : string;
  timestamp : string
}.
End ServerError.

(** The error-handling middleware.  [NODE_ENV] is
    [process.env.NODE_ENV], [err_message] is [err.message] and [now] is
    [new Date().toISOString()]. *)
Definition error_handler (NODE_ENV : option string) (err_message now : string)
  : Http.response ServerError.t :=
  Http.Response 500
    {| ServerError.error := "Internal Server Error";
       ServerError.message :=
         match NODE_ENV with
         | Some env =>
             if env =? "development" then err_message
             else "Something went wrong"
         | None => "Something went wrong"
         end;
       ServerError.timestamp := now |}.

(** What the client of a route gets: the handler's response, or, when
    the handler throws, the response of the error-handling middleware
    Express passes the error to. *)
Definition respond {B} (NODE_ENV : option string) (err_message now : string)
    (c : Js.completion (Http.response B))
  : Http.response (B + ServerError.t) :=
  match c with
  | Js.Normal r => Http.Response (Http.status r) (inl (Http.body r))
  | Js.TypeError =>
      let r := error_handler NODE_ENV err_message now in
      Http.Response (Http.status r) (inr (Http.body r))
  end.

End App.

(** * Invariants of the stores *)

Module Inv.

(** The (student, course) pair of an enrollment. *)
Definition pair_of (e : Enrollment.t) : Js.value * Js.value :=
  (Enrollment.student_id e, Enrollment.course_id e).

(** No two enrollments are for the same (student, course) pair. *)
Definition unique_pairs (store : list Enrollment.t) : Prop :=
  NoDup (map pair_of store).

(** No two student records have the same identifier. *)
Definition unique_ids (students : list Student.t) : Prop :=
  NoDup (map Student.id students).

Definition is_string (v : Js.value) : Prop := exists s, v = Js.JStr s.

(** The fields the user search reads are strings; [display_name] may
    also be absent or falsy. *)
Definition searchable (s : Student.t) : Prop :=
  is_string (Student.First_name s)
  /\ is_string (Student.Last_name s)
  /\ is_string (Student.email s)
  /\ (is_string (Student.display_name s)
      \/ Js.truthy (Student.display_name s) = false).

Section WithRuntime.
Context {rt : Js.Runtime}.

(** The creation time of an enrollment whose [created_at] is a date. *)
Definition dated (e : Enrollment.t) : Prop :=
  exists t, Js.dateGetTime (Enrollment.created_at e) = Js.Num t.

Definition created_time (e : Enrollment.t) : Q :=
  match Js.dateGetTime (Enrollment.created_at e) with
  | Js.Num t => t
  | _ => 0
  end.

(** [a] may come before [b] in a newest-first sequence. *)
Definition newest_first (a b : Enrollment.t) : Prop :=
  (created_time b <= created_time a)%Q.

Definition text_of (v : Js.value) : string :=
  match v with
  | Js.JStr s => s
  | _ => EmptyString
  end.

(** The query is, case-insensitively, a substring of the first name, the
    last name, the email or the display name of the student. *)
Definition name_match (query : string) (s : Student.t) : bool :=
  let q := Js.toLowerCase query in
  Js.includes (Js.toLowerCase (text_of (Student.First_name s))) q
  || Js.includes (Js.toLowerCase (text_of (Student.Last_name s))) q
  || Js.includes (Js.toLowerCase (text_of (Student.email s))) q
  || (Js.truthy (Student.display_name s)
      && Js.includes (Js.toLowerCase (text_of (Student.display_name s))) q).

End WithRuntime.

End Inv.

(** * Sample requests *)

Module Sample.

Definition clock : EnrollmentRoutes.Clock.t :=
  EnrollmentRoutes.Clock.Make 1706745600000 "2024-02-01T00:00:00.000Z".

Definition later : EnrollmentRoutes.Clock.t :=
  EnrollmentRoutes.Clock.Make 1706745600000 "2024-02-01T00:00:00.400Z".

Definition now : string := "2024-03-01T00:00:00.000Z".

(** A listing request with a sort key and a page only. *)
Definition page (sortBy limit offset : Js.param) : CourseRoutes.Query.t :=
  CourseRoutes.Query.Make None None None None None None sortBy limit offset.

(** An enrollment request without a tutor. *)
Definition enroll (student_id course_id : Js.value)
  : EnrollmentRoutes.EnrollmentRequest.t :=
  EnrollmentRoutes.EnrollmentRequest.Make student_id course_id Js.JUndefined.

(** A profile request with the required fields only. *)
Definition profile (id firstName lastName email : Js.value)
  : UserRoutes.ProfileRequest.t :=
  UserRoutes.ProfileRequest.Make id firstName lastName email
    Js.JUndefined Js.JUndefined Js.JUndefined.

(** A profile update of the first name only. *)
Definition rename (First_name : Js.value) : UserRoutes.ProfileUpdate.t :=
  UserRoutes.ProfileUpdate.Make First_name Js.JUndefined Js.JUndefined
    Js.JUndefined Js.JUndefined.

End Sample.

(** * The properties of the listing, in the words of the specification *)

Module Spec.

Section Criteria.
Context {rt : Js.Runtime}.

(** A criterion constrains a course only when its parameter is
    supplied, that is present with a non-empty value. *)
Definition criterion (p : Js.param) (holds : string -> bool) : bool :=
  match p with
  | Some s => if s =? EmptyString then true else holds s
  | None => true
  end.

(** Free-text match: the term is a substring of the title, the
    instructor or the description, case-insensitively. *)
Definition text_match (term : string) (c : Course.t) : bool :=
  let term := Js.toLowerCase term in
  Js.includes (Js.toLowerCase (Course.title c)) term ||
  Js.includes (Js.toLowerCase (Course.instructor c)) term ||
  Js.includes (Js.toLowerCase (Course.description c)) term.

(** The featured criterion is supplied whenever the parameter is
    present; the flag asked for is [true] exactly for the text
    ["true"]. *)
Definition featured_match (p : Js.param) (c : Course.t) : bool :=
  match p with
  | Some flag => Bool.eqb (Course.featured c) (flag =? "true")
  | None => true
  end.

(** The course satisfies all supplied criteria (logical AND): text
    search, exact category, exact level, exact featured flag,
    inclusive price bounds. *)
Definition satisfies
    (search category level featured priceMin priceMax : Js.param)
    (c : Course.t) : bool :=
  criterion search (fun term => text_match term c)
  && criterion category (fun s => Course.category c =? s)
  && criterion level (fun s => Course.level c =? s)
  && featured_match featured c
  && criterion priceMin
       (fun s => Js.leb (Js.parseFloat s) (Js.Num (Course.price c)))
  && criterion priceMax
       (fun s => Js.leb (Js.Num (Course.price c)) (Js.parseFloat s)).

(** The creation time of a course whose [created_at] is a valid date. *)
Definition valid_date (c : Course.t) : Prop :=
  exists t, Js.dateGetTime (Course.created_at c) = Js.Num t.

Definition time_of (c : Course.t) : Q :=
  match Js.dateGetTime (Course.created_at c) with
  | Js.Num t => t
  | _ => 0
  end.

(** The key a value of [sortBy] sorts on; every value that is not one
    of the four named keys sorts on the student count. *)
Definition key_of (sortBy : string) (c : Course.t) : Q :=
  if sortBy =? "price-low" then Course.price c
  else if sortBy =? "price-high" then Course.price c
  else if sortBy =? "rating" then Course.rating c
  else if sortBy =? "newest" then time_of c
  else Course.student_count c.

(** Only [price-low] sorts in ascending order. *)
Definition ascending (sortBy : string) : bool := sortBy =? "price-low".

(** [a] may come before [b] in a sequence that is monotonic in the key
    of [sortBy]. *)
Definition in_order (sortBy : string) (a b : Course.t) : Prop :=
  if ascending sortBy
  then (key_of sortBy a <= key_of sortBy b)%Q
  else (key_of sortBy b <= key_of sortBy a)%Q.

(** [a] and [b] compare equal under the key of [sortBy]. *)
Definition same_key (sortBy : string) (a b : Course.t) : bool :=
  Qeq_bool (key_of sortBy a) (key_of sortBy b).

(** Popularity ordering: descending student count. *)
Definition by_popularity (a b : Course.t) : Prop :=
  (Course.student_count b <= Course.student_count a)%Q.

(** The four sort keys the switch names besides [popular]. *)
Definition recognized (sortBy : string) : bool :=
  (sortBy =? "price-low") || (sortBy =? "price-high")
  || (sortBy =? "rating") || (sortBy =? "newest").

(** No recognized sort key is supplied: [sortBy] is absent, or holds a
    value that is none of the four. *)
Definition no_recognized_key (sortBy : Js.param) : Prop :=
  match sortBy with
  | Some key => recognized key = false
  | None => True
  end.

(** The states of the course store.  [mockCourses] is a constant that
    no handler assigns to, pushes to or sorts in place (every filter and
    sort of a handler works on a copy), so in every state of the program
    the store is the seed array. *)
Definition course_store_state (store : list Course.t) : Prop :=
  store = CourseRoutes.mockCourses.

(** The key of [sortBy] with the sign that turns its order into an
    ascending one. *)
Definition signed_key (sortBy : string) (c : Course.t) : Q :=
  if ascending sortBy then key_of sortBy c else (- key_of sortBy c)%Q.

(** The courses on which the comparator of [sortBy] is defined. *)
Definition comparable (sortBy : string) (c : Course.t) : Prop :=
  sortBy = "newest" -> valid_date c.

End Criteria.

(** The outcome of a deletion that found its record: the first matching
    record is gone, every other record stays in place. *)
Definition removes_first (matches : Enrollment.t -> Prop)
    (store store' : list Enrollment.t) : Prop :=
  exists l1 e l2,
    store = l1 ++ e :: l2 /\ matches e /\
    (forall e', In e' l1 -> ~ matches e') /\
    store' = l1 ++ l2 /\
    S (List.length store') = List.length store.

(** The values a truthy-check merge ignores: an absent key and the falsy
    values a JSON body can carry here. *)
Definition ignored : list Js.value :=
  [Js.JUndefined; Js.JNull; Js.JBool false; Js.JStr EmptyString].

(** Partial-update semantics of one field of the profile: an ignored
    request value leaves the stored value, any other value replaces it. *)
Definition merged (field old new : Js.value) : Prop :=
  (In field ignored -> new = old) /\ (~ In field ignored -> new = field).

End Spec.

(** * Facts about the array built-ins *)

Section ArrayFacts.
Context {A : Type}.

Lemma findIndex_None (p : A -> bool) (l : list A) :
  Js.findIndex p l = None <-> (forall x, In x l -> p x = false).
Proof.
  induction l as [|y l IH]; simpl.
  - split; [intros _ x [] | reflexivity].
  - destruct (p y) eqn:Hy.
    + split; [discriminate|].
      intros H. rewrite (H y) in Hy by now left. discriminate.
    + destruct (Js.findIndex p l) eqn:Hf; simpl.
      * split; [discriminate|].
        intros H.
        assert (Hn : forall x, In x l -> p x = false)
          by (intros x Hx; apply H; now right).
        apply IH in Hn. discriminate.
      * split; [|reflexivity].
        intros _ x [<-|Hx]; [assumption|]. now apply IH.
Qed.

(** What a found index says about the array, and what [l[i]],
    [l.splice(i, 1)] and [l[i] = v] do there. *)
Lemma findIndex_Some (p : A -> bool) (l : list A) (i : nat) :
  Js.findIndex p l = Some i ->
  exists l1 x l2,
    l = l1 ++ x :: l2 /\ List.length l1 = i /\ p x = true /\
    (forall y, In y l1 -> p y = false) /\
    Js.splice1 i l = l1 ++ l2 /\
    (forall d, nth i l d = x) /\
    (forall v, Js.assign i v l = l1 ++ v :: l2).
Proof.
  revert i. induction l as [|y l IH]; simpl; intros i H; [discriminate|].
  destruct (p y) eqn:Hy.
  - injection H as <-. exists [], y, l. simpl.
    repeat split; auto. intros ? [].
  - destruct (Js.findIndex p l) as [j|] eqn:Hf; simpl in H; [|discriminate].
    injection H as <-.
    destruct (IH j eq_refl) as (l1 & x & l2 & -> & Hlen & Hx & Hl1 & Hs & Hn & Ha).
    exists (y :: l1), x, l2. simpl. repeat split; auto.
    + intros z [<-|Hz]; auto.
    + now rewrite Hs.
    + intros v. now rewrite Ha.
Qed.

Lemma findIndex_In (p : A -> bool) (l : list A) (x : A) :
  In x l -> p x = true -> exists i, Js.findIndex p l = Some i.
Proof.
  intros Hin Hp. destruct (Js.findIndex p l) as [i|] eqn:Hf; [now exists i|].
  rewrite findIndex_None in Hf. rewrite (Hf x Hin) in Hp. discriminate.
Qed.

Lemma find_None_iff (p : A -> bool) (l : list A) :
  find p l = None <-> (forall x, In x l -> p x = false).
Proof.
  split; [apply find_none|].
  intros H. destruct (find p l) as [x|] eqn:Hf; [|reflexivity].
  apply find_some in Hf as [Hin Hp]. rewrite (H x Hin) in Hp. discriminate.
Qed.

Lemma slice_nil (s e : Js.int) : Js.slice (@nil A) s e = [].
Proof. unfold Js.slice. now rewrite skipn_nil, firstn_nil. Qed.

Lemma slice_window (l : list A) (s e : Js.int) :
  exists k n, Js.slice l s e = firstn n (skipn k l).
Proof. unfold Js.slice. eauto. Qed.

Lemma length_slice_prefix (l : list A) (n : Z) :
  (0 <= n)%Z ->
  List.length (Js.slice l (Some 0%Z) (Some n)) = Nat.min (Z.to_nat n) (List.length l).
Proof.
  intros Hn. unfold Js.slice, Js.relative_index.
  replace (0 <? 0)%Z with false by reflexivity.
  destruct (n <? 0)%Z eqn:Hlt; [apply Z.ltb_lt in Hlt; lia|].
  rewrite (Z.min_l 0) by lia. cbn [Z.to_nat]. rewrite skipn_0, length_firstn.
  lia.
Qed.

Section Sorted.
Variable R : A -> A -> Prop.

Lemma StronglySorted_skipn (k : nat) (l : list A) :
  StronglySorted R l -> StronglySorted R (skipn k l).
Proof.
  revert l. induction k as [|k IH]; intros l H; [assumption|].
  destruct l as [|x l]; [assumption|]. simpl.
  apply IH. now apply StronglySorted_inv in H.
Qed.

Lemma StronglySorted_firstn (n : nat) (l : list A) :
  StronglySorted R l -> StronglySorted R (firstn n l).
Proof.
  revert l. induction n as [|n IH]; intros l H; [constructor|].
  destruct l as [|x l]; [constructor|]. simpl.
  apply StronglySorted_inv in H as [Hl Hx].
  constructor; [now apply IH|].
  rewrite Forall_forall in *. intros y Hy. apply Hx.
  rewrite <- (firstn_skipn n l). apply in_or_app. now left.
Qed.

Lemma StronglySorted_slice (l : list A) (s e : Js.int) :
  StronglySorted R l -> StronglySorted R (Js.slice l s e).
Proof.
  intros H. unfold Js.slice.
  now apply StronglySorted_firstn, StronglySorted_skipn.
Qed.
End Sorted.

Lemma insert_perm (cmp : A -> A -> Js.number) (x : A) (l : list A) :
  Permutation (Js.insert cmp x l) (x :: l).
Proof.
  induction l as [|y l IH]; simpl; [reflexivity|].
  destruct (Js.gt0 (cmp x y)); [|reflexivity].
  rewrite IH. apply perm_swap.
Qed.

Lemma sort_perm (cmp : A -> A -> Js.number) (l : list A) :
  Permutation (Js.sort cmp l) l.
Proof.
  induction l as [|x l IH]; simpl; [reflexivity|].
  unfold Js.sort in IH. rewrite insert_perm. now constructor.
Qed.

Lemma sort_length (cmp : A -> A -> Js.number) (l : list A) :
  List.length (Js.sort cmp l) = List.length l.
Proof. apply Permutation_length, sort_perm. Qed.

(** A comparator that is consistent with a rational key on the elements
    that satisfy [P]: its result is positive exactly when the second
    argument has the smaller key. *)
Section Consistent.
Variable cmp : A -> A -> Js.number.
Variable key : A -> Q.
Variable P : A -> Prop.
Hypothesis cmp_key :
  forall a b, P a -> P b -> (Js.gt0 (cmp a b) = true <-> (key b < key a)%Q).

Let le (a b : A) : Prop := (key a <= key b)%Q.

Lemma insert_sorted (x : A) (l : list A) :
  P x -> Forall P l ->
  StronglySorted le l -> StronglySorted le (Js.insert cmp x l).
Proof.
  intros Px. induction l as [|y l IH]; simpl; intros HP Hs.
  - repeat constructor.
  - apply Forall_cons_iff in HP as [Py HP].
    apply StronglySorted_inv in Hs as [Hs Hy].
    destruct (Js.gt0 (cmp x y)) eqn:Hc.
    + apply cmp_key in Hc; try assumption.
      constructor; [now apply IH|].
      apply (Permutation_Forall (Permutation_sym (insert_perm cmp x l))).
      constructor; [unfold le; lra | assumption].
    + assert (Hxy : (key x <= key y)%Q).
      { destruct (Qlt_le_dec (key y) (key x)) as [Hlt|Hle]; [|assumption].
        apply cmp_key in Hlt; try assumption. congruence. }
      constructor; [now constructor|].
      constructor; [assumption|].
      eapply Forall_impl; [|exact Hy].
      intros z Hz. unfold le in *. lra.
Qed.

Lemma sort_sorted (l : list A) :
  Forall P l -> StronglySorted le (Js.sort cmp l).
Proof.
  induction l as [|x l IH]; simpl; intros HP; [constructor|].
  apply Forall_cons_iff in HP as [Px HP].
  apply insert_sorted; auto.
  apply (Permutation_Forall (Permutation_sym (sort_perm cmp l))), HP.
Qed.

(** Stability: a selection of elements that all have the same key
    comes out of the sort in the order it went in. *)
Variable sel : A -> bool.
Hypothesis sel_key :
  forall a b, sel a = true -> sel b = true -> (key a == key b)%Q.

Lemma insert_stable (x : A) (l : list A) :
  P x -> Forall P l ->
  filter sel (Js.insert cmp x l) = filter sel (x :: l).
Proof.
  intros Px. induction l as [|y l IH]; intros HP; [reflexivity|].
  apply Forall_cons_iff in HP as [Py HP].
  cbn [Js.insert]. destruct (Js.gt0 (cmp x y)) eqn:Hc; [|reflexivity].
  apply cmp_key in Hc; try assumption.
  specialize (IH HP). cbn [filter] in *. rewrite IH.
  destruct (sel x) eqn:Sx, (sel y) eqn:Sy; try reflexivity.
  pose proof (sel_key x y Sx Sy). lra.
Qed.

Lemma sort_stable (l : list A) :
  Forall P l -> filter sel (Js.sort cmp l) = filter sel l.
Proof.
  induction l as [|x l IH]; intros HP; [reflexivity|].
  apply Forall_cons_iff in HP as [Px HP].
  cbn [Js.sort fold_right]. fold (Js.sort cmp l).
  rewrite insert_stable; auto.
  - cbn [filter]. now rewrite IH.
  - apply (Permutation_Forall (Permutation_sym (sort_perm cmp l))), HP.
Qed.
End Consistent.

End ArrayFacts.

(** * GET /courses *)

Section CourseListing.
Context {rt : Js.Runtime}.
Import CourseRoutes.

Lemma filter_true {A} (l : list A) : filter (fun _ => true) l = l.
Proof. induction l as [|x l IH]; simpl; congruence. Qed.

Lemma filter_both {A} (f g : A -> bool) (l : list A) :
  filter g (filter f l) = filter (fun x => f x && g x) l.
Proof.
  induction l as [|x l IH]; simpl; [reflexivity|].
  destruct (f x); simpl; [destruct (g x)|]; now rewrite IH.
Qed.

(** One optional filter of the handler is the filter of one criterion. *)
Lemma optional_filter (p : Js.param) (holds : string -> Course.t -> bool)
    (l : list Course.t) :
  match p with
  | Some s => if Js.supplied (Some s) then filter (holds s) l else l
  | None => l
  end = filter (fun c => Spec.criterion p (fun s => holds s c)) l.
Proof.
  destruct p as [s|]; simpl; [|now rewrite filter_true].
  destruct (s =? EmptyString); simpl; [now rewrite filter_true | reflexivity].
Qed.

Lemma featured_filter (p : Js.param) (l : list Course.t) :
  match p with
  | Some featured =>
      filter (fun course =>
                Bool.eqb (Course.featured course) (featured =? "true")) l
  | None => l
  end = filter (Spec.featured_match p) l.
Proof. destruct p; simpl; [reflexivity | now rewrite filter_true]. Qed.

(** The six filters in sequence select the courses that satisfy all
    supplied criteria. *)
Lemma apply_filters_satisfies (q : Query.t) (store : list Course.t) :
  apply_filters q store =
  filter (Spec.satisfies (Query.search q) (Query.category q) (Query.level q)
            (Query.featured q) (Query.priceMin q) (Query.priceMax q))
         store.
Proof.
  unfold apply_filters. cbv zeta.
  rewrite (optional_filter (Query.priceMax q)
             (fun s c => Js.leb (Js.Num (Course.price c)) (Js.parseFloat s))).
  rewrite (optional_filter (Query.priceMin q)
             (fun s c => Js.geb (Js.Num (Course.price c)) (Js.parseFloat s))).
  rewrite featured_filter.
  rewrite (optional_filter (Query.level q) (fun s c => Course.level c =? s)).
  rewrite (optional_filter (Query.category q)
             (fun s c => Course.category c =? s)).
  rewrite (optional_filter (Query.search q)
             (fun s => search_hit (Js.toLowerCase s))).
  rewrite !filter_both. apply filter_ext. intros c.
  unfold Spec.satisfies. now rewrite !andb_assoc.
Qed.

Lemma apply_sorting_perm (sortBy : Js.param) (l : list Course.t) :
  Permutation (apply_sorting sortBy l) l.
Proof.
  unfold apply_sorting. destruct sortBy as [key|]; [|reflexivity].
  destruct (Js.supplied (Some key)); [|reflexivity].
  repeat match goal with |- context [if ?b then _ else _] => destruct b end;
    apply sort_perm.
Qed.

(** C1. GET /courses: whatever filters, sort key, limit and offset the
    request carries, [total] is the number of courses of the store that
    satisfy all supplied filter criteria; the limit and the offset have
    no part in it. *)
Theorem C1_total_counts_the_matching_courses
    (store : list Course.t)
    (search category level featured priceMin priceMax sortBy : Js.param)
    (limit offset : Js.param) :
  let response :=
    get_index store
      (Query.Make search category level featured priceMin priceMax sortBy
                  limit offset) in
  Listing.total (Http.body response) =
    List.length
      (filter (Spec.satisfies search category level featured priceMin priceMax)
              store)
  /\ forall limit' offset' : Js.param,
       Listing.total
         (Http.body
            (get_index store
               (Query.Make search category level featured priceMin priceMax
                           sortBy limit' offset')))
       = Listing.total (Http.body response).
Proof.
  assert (H : forall l o,
    Listing.total
      (Http.body
         (get_index store
            (Query.Make search category level featured priceMin priceMax
                        sortBy l o))) =
    List.length
      (filter (Spec.satisfies search category level featured priceMin priceMax)
              store)).
  { intros l o. unfold get_index. cbn [Http.body Http.json Listing.total].
    rewrite (Permutation_length (apply_sorting_perm _ _)).
    now rewrite apply_filters_satisfies. }
  intros response. subst response. split; [apply H|].
  intros l' o'. now rewrite !H.
Qed.

(** ** Sorting *)

Lemma gt0_sub (x y : Q) :
  Js.gt0 (Js.sub (Js.Num x) (Js.Num y)) = true <-> (y < x)%Q.
Proof.
  cbn [Js.sub Js.gt0]. destruct (Qcompare_spec (x - y) 0) as [H|H|H];
    split; intros H'; try discriminate; try reflexivity; lra.
Qed.

Lemma in_order_signed (sortBy : string) (a b : Course.t) :
  (Spec.signed_key sortBy a <= Spec.signed_key sortBy b)%Q <-> Spec.in_order sortBy a b.
Proof.
  unfold Spec.signed_key, Spec.in_order.
  destruct (Spec.ascending sortBy); [reflexivity | split; lra].
Qed.

(** With a truthy [sortBy] the handler sorts, and the comparator it picks
    is consistent with the key of [sortBy]. *)
Lemma apply_sorting_sorts (key : string) (l : list Course.t) :
  key <> EmptyString ->
  exists cmp,
    apply_sorting (Some key) l = Js.sort cmp l /\
    forall a b, Spec.comparable key a -> Spec.comparable key b ->
      (Js.gt0 (cmp a b) = true <-> (Spec.signed_key key b < Spec.signed_key key a)%Q).
Proof.
  intros Hkey. unfold apply_sorting, Js.supplied.
  apply String.eqb_neq in Hkey. rewrite Hkey. cbn [negb].
  unfold Spec.signed_key, Spec.ascending, Spec.key_of, Spec.comparable.
  destruct (key =? "price-low") eqn:E1.
  { exists by_price_low. split; [reflexivity|]. intros a b _ _.
    unfold by_price_low. rewrite gt0_sub. reflexivity. }
  destruct (key =? "price-high") eqn:E2.
  { exists by_price_high. split; [reflexivity|]. intros a b _ _.
    unfold by_price_high. rewrite gt0_sub. split; lra. }
  destruct (key =? "rating") eqn:E3.
  { exists by_rating. split; [reflexivity|]. intros a b _ _.
    unfold by_rating. rewrite gt0_sub. split; lra. }
  destruct (key =? "newest") eqn:E4.
  { exists by_newest. split; [reflexivity|]. intros a b Ha Hb.
    apply String.eqb_eq in E4.
    destruct (Ha E4) as [ta Hta], (Hb E4) as [tb Htb].
    unfold by_newest, Spec.time_of. rewrite Hta, Htb, gt0_sub. split; lra. }
  exists by_popular. split; [reflexivity|]. intros a b _ _.
  unfold by_popular. rewrite gt0_sub. split; lra.
Qed.

Lemma Forall_filter {A} (P : A -> Prop) (f : A -> bool) (l : list A) :
  Forall P l -> Forall P (filter f l).
Proof.
  rewrite !Forall_forall. intros H x Hx. apply filter_In in Hx as [Hx _]. auto.
Qed.

Lemma comparable_filtered (key : string) (q : Query.t) (store : list Course.t) :
  (key = "newest" -> Forall Spec.valid_date store) ->
  Forall (Spec.comparable key) (apply_filters q store).
Proof.
  intros H. rewrite apply_filters_satisfies. apply Forall_filter.
  unfold Spec.comparable. rewrite Forall_forall. intros c Hc E.
  specialize (H E). rewrite Forall_forall in H. auto.
Qed.

(** What the sorting step does for a truthy [sortBy]: a permutation that
    is monotonic in the key and keeps courses with equal keys in their
    order. *)
Lemma apply_sorting_monotonic (key : string) (l : list Course.t) :
  key <> EmptyString -> Forall (Spec.comparable key) l ->
  StronglySorted (Spec.in_order key) (apply_sorting (Some key) l)
  /\ forall c0, filter (Spec.same_key key c0) (apply_sorting (Some key) l)
                = filter (Spec.same_key key c0) l.
Proof.
  intros Hkey HP.
  destruct (apply_sorting_sorts key l Hkey) as (cmp & -> & Hcmp).
  split.
  - pose proof (sort_sorted cmp (Spec.signed_key key) (Spec.comparable key) Hcmp l HP) as H.
    revert H. generalize (Js.sort cmp l). intros l' H.
    induction H as [|a l' Hs IH Ha]; constructor; [assumption|].
    eapply Forall_impl; [|exact Ha]. intros b. apply in_order_signed.
  - intros c0.
    apply (sort_stable cmp (Spec.signed_key key) (Spec.comparable key) Hcmp); [|assumption].
    intros a b Ha Hb. unfold Spec.same_key in *.
    apply Qeq_bool_iff in Ha, Hb. unfold Spec.signed_key.
    destruct (Spec.ascending key); lra.
Qed.

(** C5. GET /courses with a sort key: the returned courses are monotonic
    in that key (non-decreasing price for [price-low], non-increasing
    price for [price-high]); they are a window of the sorted sequence,
    which is a permutation of the filtered courses in which courses that
    compare equal keep their relative order.  For [newest] the stored
    [created_at] values have to be dates. *)
Theorem C5_sorted_listing_is_monotonic_and_stable
    (store : list Course.t) (q : Query.t) (key : string) :
  Query.sortBy q = Some key -> key <> EmptyString ->
  (key = "newest" -> Forall Spec.valid_date store) ->
  let filtered := apply_filters q store in
  let sorted := apply_sorting (Some key) filtered in
  let returned := Listing.courses (Http.body (get_index store q)) in
  StronglySorted (Spec.in_order key) returned
  /\ (key = "price-low" ->
      StronglySorted (fun a b => (Course.price a <= Course.price b)%Q) returned)
  /\ (key = "price-high" ->
      StronglySorted (fun a b => (Course.price b <= Course.price a)%Q) returned)
  /\ (exists k n, returned = firstn n (skipn k sorted))
  /\ Permutation sorted filtered
  /\ StronglySorted (Spec.in_order key) sorted
  /\ forall c0, filter (Spec.same_key key c0) sorted
                = filter (Spec.same_key key c0) filtered.
Proof.
  intros Hq Hkey Hdates filtered sorted returned.
  destruct (apply_sorting_monotonic key filtered Hkey
              (comparable_filtered key q store Hdates)) as [Hsorted Hstable].
  assert (Hret : StronglySorted (Spec.in_order key) returned).
  { subst returned. unfold get_index. cbn [Http.body Http.json Listing.courses].
    rewrite Hq. now apply StronglySorted_slice. }
  repeat split; try assumption.
  - intros ->. exact Hret.
  - intros ->. exact Hret.
  - subst returned. unfold get_index. cbn [Http.body Http.json Listing.courses].
    rewrite Hq. apply slice_window.
  - apply apply_sorting_perm.
Qed.

(** A truthy [sortBy] that is none of [price-low], [price-high],
    [rating], [newest] makes the handler sort by descending student
    count, whatever the store. *)
Lemma unknown_key_sorts_by_popularity
    (store : list Course.t) (q : Query.t) (key : string) :
  Query.sortBy q = Some key -> key <> EmptyString ->
  Spec.recognized key = false ->
  StronglySorted Spec.by_popularity
    (Listing.courses (Http.body (get_index store q))).
Proof.
  intros Hq Hkey Hrec. unfold get_index.
  cbn [Http.body Http.json Listing.courses].
  rewrite Hq. apply StronglySorted_slice.
  assert (HP : Forall (Spec.comparable key) (apply_filters q store)).
  { apply comparable_filtered. intros ->. discriminate. }
  destruct (apply_sorting_monotonic key _ Hkey HP) as [Hsorted _].
  revert Hsorted. generalize (apply_sorting (Some key) (apply_filters q store)).
  intros l H. unfold Spec.recognized in Hrec.
  apply orb_false_iff in Hrec as [Hrec E4].
  apply orb_false_iff in Hrec as [Hrec E3].
  apply orb_false_iff in Hrec as [E1 E2].
  induction H as [|a l Hs IH Ha]; constructor; [assumption|].
  eapply Forall_impl; [|exact Ha]. intros b.
  unfold Spec.in_order, Spec.ascending, Spec.key_of, Spec.by_popularity.
  now rewrite E1, E2, E3, E4.
Qed.

(** Without a truthy [sortBy] the handler sorts nothing: the answer is a
    window of the filtered courses in store order. *)
Lemma store_order_kept_without_sortBy (store : list Course.t) (q : Query.t) :
  Js.supplied (Query.sortBy q) = false ->
  Listing.courses (Http.body (get_index store q))
  = Js.slice (apply_filters q store)
             (int_param (Query.offset q) 0)
             (Js.add (int_param (Query.offset q) 0)
                     (int_param (Query.limit q) 20)).
Proof.
  intros Hs. unfold get_index. cbn [Http.body Http.json Listing.courses].
  unfold apply_sorting. destruct (Query.sortBy q) as [key|]; [|reflexivity].
  now rewrite Hs.
Qed.

Lemma StronglySorted_filter {A} (R : A -> A -> Prop) (f : A -> bool)
    (l : list A) :
  StronglySorted R l -> StronglySorted R (filter f l).
Proof.
  intros H. induction H as [|a l Hs IH Ha]; [constructor|]. simpl.
  destruct (f a); [|assumption]. constructor; [assumption|].
  now apply Forall_filter.
Qed.

(** The seed array lists its courses by descending student count. *)
Lemma course_store_in_popularity_order (store : list Course.t) :
  Spec.course_store_state store -> StronglySorted Spec.by_popularity store.
Proof.
  intros ->. unfold mockCourses. repeat constructor.
  unfold Spec.by_popularity. cbn. unfold Qle. cbn. lia.
Qed.

(** On a store that is in popularity order, a request without a
    recognized sort key gets its courses in popularity order: an unknown
    key sorts them, and without a truthy key they keep the order of the
    store. *)
Lemma popularity_order_without_recognized_key
    (store : list Course.t) (q : Query.t) :
  StronglySorted Spec.by_popularity store ->
  Spec.no_recognized_key (Query.sortBy q) ->
  StronglySorted Spec.by_popularity
    (Listing.courses (Http.body (get_index store q))).
Proof.
  intros Hstore Hkey.
  destruct (Js.supplied (Query.sortBy q)) eqn:Hs.
  - destruct (Query.sortBy q) as [key|] eqn:Hq; [|discriminate].
    apply (unknown_key_sorts_by_popularity store q key Hq); [|exact Hkey].
    intros ->. discriminate.
  - rewrite (store_order_kept_without_sortBy store q Hs).
    apply StronglySorted_slice. rewrite apply_filters_satisfies.
    now apply StronglySorted_filter.
Qed.

(** C4. GET /courses, in every state of the course store and for every
    request: when no recognized sort key ([price-low], [price-high],
    [rating], [newest]) is supplied, be [sortBy] absent or an unknown
    value, the returned courses are ordered by descending student
    count. *)
Theorem C4_no_recognized_sort_key_gives_popularity_order
    (store : list Course.t) (q : Query.t) :
  Spec.course_store_state store ->
  Spec.no_recognized_key (Query.sortBy q) ->
  StronglySorted Spec.by_popularity
    (Listing.courses (Http.body (get_index store q))).
Proof.
  intros Hstate Hkey.
  apply popularity_order_without_recognized_key; [|exact Hkey].
  now apply course_store_in_popularity_order.
Qed.

End CourseListing.

(** ** GET /courses on concrete stores *)

Example seed_level_beginner :
  Http.body
    (CourseRoutes.get_index (rt := Reference.runtime) CourseRoutes.mockCourses
       (CourseRoutes.Query.Make None None (Some "Beginner") None None None None
                                None None))
  = {| CourseRoutes.Listing.courses := firstn 1 CourseRoutes.mockCourses;
       CourseRoutes.Listing.total := 1;
       CourseRoutes.Listing.page := Some 1%Z;
       CourseRoutes.Listing.limit := Some 20%Z |}.
Proof. reflexivity. Qed.

Example seed_price_high :
  CourseRoutes.Listing.courses
    (Http.body
       (CourseRoutes.get_index (rt := Reference.runtime) CourseRoutes.mockCourses
          (CourseRoutes.Query.Make None None None None None None
                                   (Some "price-high") None None)))
  = rev CourseRoutes.mockCourses.
Proof. reflexivity. Qed.

Example seed_search_and_price_window :
  CourseRoutes.Listing.courses
    (Http.body
       (CourseRoutes.get_index (rt := Reference.runtime) CourseRoutes.mockCourses
          (CourseRoutes.Query.Make (Some "REACT") None None (Some "true")
                                   (Some "100") (Some "149.99")
                                   (Some "newest") (Some "5") (Some "0"))))
  = skipn 1 CourseRoutes.mockCourses.
Proof. reflexivity. Qed.

(** C5 at the seed store, sorted by descending price. *)
Lemma C5_witness_price_high :
  StronglySorted (Spec.in_order (rt := Reference.runtime) "price-high")
    (CourseRoutes.Listing.courses
       (Http.body
          (CourseRoutes.get_index (rt := Reference.runtime)
             CourseRoutes.mockCourses
             (CourseRoutes.Query.Make None None None None None None
                                      (Some "price-high") None None)))).
Proof.
  apply (C5_sorted_listing_is_monotonic_and_stable (rt := Reference.runtime)
           CourseRoutes.mockCourses
           (CourseRoutes.Query.Make None None None None None None
                                    (Some "price-high") None None)
           "price-high").
  - reflexivity.
  - discriminate.
  - discriminate.
Defined.

(** C4 at the course store, for a request without a query string and
    for one with an unknown sort key. *)
Lemma C4_witness_course_store :
  StronglySorted Spec.by_popularity
    (CourseRoutes.Listing.courses
       (Http.body
          (CourseRoutes.get_index (rt := Reference.runtime)
             CourseRoutes.mockCourses CourseRoutes.Query.empty)))
  /\ StronglySorted Spec.by_popularity
       (CourseRoutes.Listing.courses
          (Http.body
             (CourseRoutes.get_index (rt := Reference.runtime)
                CourseRoutes.mockCourses
                (CourseRoutes.Query.Make None None None None None None
                                         (Some "trending") None None)))).
Proof.
  split.
  - apply (C4_no_recognized_sort_key_gives_popularity_order
             (rt := Reference.runtime) CourseRoutes.mockCourses
             CourseRoutes.Query.empty).
    + reflexivity.
    + exact I.
  - apply (C4_no_recognized_sort_key_gives_popularity_order
             (rt := Reference.runtime) CourseRoutes.mockCourses
             (CourseRoutes.Query.Make None None None None None None
                                      (Some "trending") None None)).
    + reflexivity.
    + reflexivity.
Defined.

(** * GET /courses/category/:category *)

Section CourseCategory.
Context {rt : Js.Runtime}.
Import CourseRoutes.

Lemma filter_none {A} (f : A -> bool) (l : list A) :
  (forall x, In x l -> f x = false) -> filter f l = [].
Proof.
  induction l as [|x l IH]; intros H; [reflexivity|]. simpl.
  rewrite (H x) by now left. apply IH. intros y Hy. apply H. now right.
Qed.

Lemma existsb_false {A} (f : A -> bool) (l : list A) :
  (forall x, In x l -> f x = false) -> existsb f l = false.
Proof.
  intros H. destruct (existsb f l) eqn:E; [|reflexivity].
  apply existsb_exists in E as (x & Hx & Hf). rewrite (H x Hx) in Hf.
  discriminate.
Qed.

(** C7. A category that no stored course has: the path endpoint answers
    404, the listing endpoint given the same string as its [category]
    parameter answers 200 with no courses and [total] 0.  A path
    parameter is never the empty string. *)
Theorem C7_absent_category_not_found_versus_empty_list
    (store : list Course.t) (category : string) :
  category <> EmptyString ->
  (forall c, In c store -> Course.category c <> category) ->
  (forall limit : Js.param,
     get_category store category limit
     = Http.Response 404 (Http.Error "Category not found"))
  /\ (forall q : Query.t,
        Query.category q = Some category ->
        Http.status (get_index store q) = 200%nat
        /\ Listing.courses (Http.body (get_index store q)) = []
        /\ Listing.total (Http.body (get_index store q)) = 0%nat).
Proof.
  intros Hne Habsent.
  assert (Hno : forall c, In c store -> (Course.category c =? category) = false).
  { intros c Hc. apply String.eqb_neq. now apply Habsent. }
  split.
  - intros limit. unfold get_category. now rewrite (existsb_false _ _ Hno).
  - intros q Hq.
    assert (Hf : apply_filters q store = []).
    { rewrite apply_filters_satisfies. apply filter_none. intros c Hc.
      unfold Spec.satisfies. rewrite Hq. unfold Spec.criterion at 2.
      apply String.eqb_neq in Hne. rewrite Hne, (Hno c Hc).
      now rewrite andb_false_r. }
    assert (Hs : apply_sorting (Query.sortBy q) (apply_filters q store) = []).
    { apply Permutation_nil. symmetry. rewrite <- Hf at 1.
      apply apply_sorting_perm. }
    unfold get_index. cbn [Http.status Http.body Http.json Listing.courses
                            Listing.total].
    rewrite Hs. repeat split. apply slice_nil.
Qed.

(** C9. GET /courses/category/:category for a category that exists and
    with a [limit] parameter: [total] is the number of courses the answer
    carries, that is [min(limit, count)] for a limit that reads as a
    natural number, where [count] is the number of stored courses of the
    category. *)
Theorem C9_category_total_counts_the_returned_courses
    (store : list Course.t) (category limit : string) :
  (exists c, In c store /\ Course.category c = category) ->
  limit <> EmptyString ->
  exists returned,
    get_category store category (Some limit)
    = Http.json
        (Http.Json
           {| CategoryListing.courses := returned;
              CategoryListing.category := category;
              CategoryListing.total := List.length returned |})
    /\ forall n, Js.parseInt limit = Some n -> (0 <= n)%Z ->
         List.length returned
         = Nat.min (Z.to_nat n)
             (List.length
                (filter (fun c => Course.category c =? category) store)).
Proof.
  intros (c & Hc & Hcat) Hlimit. unfold get_category.
  assert (He : existsb (fun course => Course.category course =? category) store
               = true).
  { apply existsb_exists. exists c. split; [assumption|].
    now apply String.eqb_eq. }
  rewrite He. cbn [negb]. unfold Js.supplied.
  apply String.eqb_neq in Hlimit. rewrite Hlimit. cbn [negb].
  eexists. split; [reflexivity|].
  intros n Hn Hpos. rewrite Hn. now apply length_slice_prefix.
Qed.

End CourseCategory.

Lemma C7_witness_seed_store :
  CourseRoutes.get_category (rt := Reference.runtime) CourseRoutes.mockCourses
    "Design" None
  = Http.Response 404 (Http.Error "Category not found")
  /\ CourseRoutes.Listing.total
       (Http.body
          (CourseRoutes.get_index (rt := Reference.runtime)
             CourseRoutes.mockCourses
             (CourseRoutes.Query.Make None (Some "Design") None None None None
                                      None None None)))
     = 0%nat.
Proof.
  assert (H : "Design" <> EmptyString) by discriminate.
  assert (H' : forall c, In c CourseRoutes.mockCourses ->
                         Course.category c <> "Design").
  { intros c [<-|[<-|[]]]; discriminate. }
  destruct (C7_absent_category_not_found_versus_empty_list
              (rt := Reference.runtime) CourseRoutes.mockCourses "Design" H H')
    as [Hpath Hlist].
  split; [apply Hpath|].
  now apply Hlist.
Defined.

Lemma C9_witness_seed_store :
  exists returned,
    CourseRoutes.get_category (rt := Reference.runtime)
      CourseRoutes.mockCourses "Programming" (Some "1")
    = Http.json
        (Http.Json
           {| CourseRoutes.CategoryListing.courses := returned;
              CourseRoutes.CategoryListing.category := "Programming";
              CourseRoutes.CategoryListing.total := List.length returned |})
    /\ List.length returned = 1%nat.
Proof.
  destruct (C9_category_total_counts_the_returned_courses
              (rt := Reference.runtime) CourseRoutes.mockCourses
              "Programming" "1") as (returned & Heq & Hlen).
  - eexists. split; [left; reflexivity | reflexivity].
  - discriminate.
  - exists returned. split; [exact Heq|].
    apply (Hlen 1%Z); [reflexivity | lia].
Defined.

(** * Enrollment mutation *)

Lemma strict_eq_iff (a b : Js.value) : Js.strict_eq a b = true <-> a = b.
Proof.
  destruct a as [| |x|x], b as [| |y|y]; simpl;
    try (split; [reflexivity + discriminate | reflexivity + discriminate]).
  - rewrite Bool.eqb_true_iff. split; [now intros -> | now intros [= ->]].
  - rewrite String.eqb_eq. split; [now intros -> | now intros [= ->]].
Qed.

Lemma same_pair_iff (student_id course_id : Js.value) (e : Enrollment.t) :
  EnrollmentRoutes.same_pair student_id course_id e = true <->
  Enrollment.student_id e = student_id /\ Enrollment.course_id e = course_id.
Proof.
  unfold EnrollmentRoutes.same_pair.
  now rewrite andb_true_iff, !strict_eq_iff.
Qed.

Lemma same_pair_absent (student_id course_id : Js.value)
    (store : list Enrollment.t) :
  (forall e, In e store ->
     ~ (Enrollment.student_id e = student_id
        /\ Enrollment.course_id e = course_id)) ->
  forall e, In e store ->
    EnrollmentRoutes.same_pair student_id course_id e = false.
Proof.
  intros H e He. apply not_true_is_false. rewrite same_pair_iff. now apply H.
Qed.

Section EnrollmentMutation.
Import EnrollmentRoutes.

(** C2. POST /enrollments with both identifiers: when the store has no
    enrollment for the pair, the answer is 201 with an enrollment whose
    identifier is generated from the clock, and that one record is
    appended; when it has one, the answer is 409 and the store is
    unchanged.  So the same request sent again after a success is a
    conflict and adds nothing. *)
Theorem C2_enrollment_is_created_once
    (store : list Enrollment.t) (clock : Clock.t) (body : EnrollmentRequest.t) :
  Js.truthy (EnrollmentRequest.student_id body) = true ->
  Js.truthy (EnrollmentRequest.course_id body) = true ->
  let student_id := EnrollmentRequest.student_id body in
  let course_id := EnrollmentRequest.course_id body in
  ((forall e, In e store ->
      ~ (Enrollment.student_id e = student_id
         /\ Enrollment.course_id e = course_id)) ->
   exists e,
     post_index store clock body
     = (Http.Response 201
          (Http.Json
             {| Created.enrollment := e;
                Created.message := "Enrollment created successfully" |}),
        store ++ [e])
     /\ Enrollment.id e
        = ("enrollment_" ++ Js.int_to_string (Clock.now clock))%string
     /\ Enrollment.created_at e = Clock.toISOString clock
     /\ Enrollment.student_id e = student_id
     /\ Enrollment.course_id e = course_id
     /\ forall clock',
          post_index (store ++ [e]) clock' body
          = (Http.Response 409
               (Http.Error "Student is already enrolled in this course"),
             store ++ [e]))
  /\ ((exists e, In e store /\ Enrollment.student_id e = student_id
                 /\ Enrollment.course_id e = course_id) ->
      post_index store clock body
      = (Http.Response 409
           (Http.Error "Student is already enrolled in this course"),
         store)).
Proof.
  intros Hs Hc student_id course_id. subst student_id course_id.
  set (student_id := EnrollmentRequest.student_id body) in *.
  set (course_id := EnrollmentRequest.course_id body) in *.
  assert (Hconflict : forall st ck,
    (exists e, In e st /\ Enrollment.student_id e = student_id
               /\ Enrollment.course_id e = course_id) ->
    post_index st ck body
    = (Http.Response 409
         (Http.Error "Student is already enrolled in this course"), st)).
  { intros st ck (e & He & H1 & H2). unfold post_index.
    fold student_id course_id. rewrite Hs, Hc. cbn [negb orb].
    destruct (find _ st) as [e'|] eqn:Hf; [reflexivity|].
    rewrite find_None_iff in Hf. specialize (Hf e He).
    apply not_true_iff_false in Hf. exfalso. apply Hf.
    now apply same_pair_iff. }
  split; [|apply Hconflict].
  intros Habsent. unfold post_index at 1. fold student_id course_id.
  rewrite Hs, Hc. cbn [negb orb].
  pose proof (same_pair_absent _ _ _ Habsent) as Hno.
  apply find_None_iff in Hno. rewrite Hno.
  eexists. split; [reflexivity|]. cbn.
  repeat split. intros clock'. apply Hconflict.
  eexists. split; [apply in_or_app; right; left; reflexivity|].
  now split.
Qed.

Lemma splice_removes_first (p : Enrollment.t -> bool) (matches : Enrollment.t -> Prop)
    (store : list Enrollment.t) (i : nat) :
  (forall e, p e = true <-> matches e) ->
  Js.findIndex p store = Some i ->
  Spec.removes_first matches store (Js.splice1 i store).
Proof.
  intros Hp Hi.
  destruct (findIndex_Some p store i Hi)
    as (l1 & e & l2 & -> & _ & He & Hl1 & Hsp & _).
  exists l1, e, l2. repeat split; auto.
  - now apply Hp.
  - intros e' He' Hm. apply Hp in Hm. rewrite (Hl1 e' He') in Hm. discriminate.
  - rewrite Hsp, !length_app. simpl. lia.
Qed.

(** C6. Deleting an enrollment, by identifier or by (student, course)
    pair: without a matching record the answer is 404 and the store is
    unchanged; with one, the answer is 200 and exactly one record, the
    first matching one, is removed. *)
Theorem C6_deletion_removes_one_record_or_reports_not_found
    (store : list Enrollment.t) :
  (forall enrollmentId : string,
     ((forall e, In e store -> Enrollment.id e <> enrollmentId) ->
      delete_by_id store enrollmentId
      = (Http.Response 404 (Http.Error "Enrollment not found"), store))
     /\ ((exists e, In e store /\ Enrollment.id e = enrollmentId) ->
         Http.status (fst (delete_by_id store enrollmentId)) = 200%nat
         /\ Spec.removes_first (fun e => Enrollment.id e = enrollmentId)
              store (snd (delete_by_id store enrollmentId))))
  /\ (forall (studentId : string) (course_id : Js.value),
        Js.truthy course_id = true ->
        ((forall e, In e store ->
            ~ (Enrollment.student_id e = Js.JStr studentId
               /\ Enrollment.course_id e = course_id)) ->
         post_unenroll store studentId course_id
         = (Http.Response 404
              (Http.Error "Enrollment not found for this student and course"),
            store))
        /\ ((exists e, In e store /\ Enrollment.student_id e = Js.JStr studentId
                       /\ Enrollment.course_id e = course_id) ->
            Http.status (fst (post_unenroll store studentId course_id)) = 200%nat
            /\ Spec.removes_first
                 (fun e => Enrollment.student_id e = Js.JStr studentId
                           /\ Enrollment.course_id e = course_id)
                 store (snd (post_unenroll store studentId course_id)))).
Proof.
  split.
  - intros enrollmentId. unfold delete_by_id. split.
    + intros Habsent.
      assert (Hn : Js.findIndex (fun e => Enrollment.id e =? enrollmentId) store
                   = None).
      { apply findIndex_None. intros e He. apply String.eqb_neq. now apply Habsent. }
      now rewrite Hn.
    + intros (e & He & Hid).
      destruct (findIndex_In (fun e => Enrollment.id e =? enrollmentId) store e He)
        as [i Hi]; [now apply String.eqb_eq|].
      rewrite Hi. split; [reflexivity|]. cbn [snd].
      apply (splice_removes_first _ _ _ _ (fun e => String.eqb_eq _ _) Hi).
  - intros studentId course_id Hc. unfold post_unenroll. rewrite Hc. cbn [negb].
    split.
    + intros Habsent.
      assert (Hn : Js.findIndex (same_pair (Js.JStr studentId) course_id) store
                   = None).
      { apply findIndex_None. now apply same_pair_absent. }
      now rewrite Hn.
    + intros (e & He & H1 & H2).
      destruct (findIndex_In (same_pair (Js.JStr studentId) course_id) store e He)
        as [i Hi]; [now apply same_pair_iff|].
      rewrite Hi. split; [reflexivity|]. cbn [snd].
      apply (splice_removes_first _ _ _ _ (same_pair_iff _ _) Hi).
Qed.

End EnrollmentMutation.

(** C2 at the seed store: a new pair is created, the seeded pair is a
    conflict. *)
Lemma C2_witness_seed_store :
  (exists e,
     EnrollmentRoutes.post_index EnrollmentRoutes.mockEnrollments
       (EnrollmentRoutes.Clock.Make 1706745600000 "2024-02-01T00:00:00.000Z")
       (EnrollmentRoutes.EnrollmentRequest.Make
          (Js.JStr "user_123") (Js.JStr "course_2") Js.JUndefined)
     = (Http.Response 201
          (Http.Json
             {| EnrollmentRoutes.Created.enrollment := e;
                EnrollmentRoutes.Created.message :=
                  "Enrollment created successfully" |}),
        EnrollmentRoutes.mockEnrollments ++ [e])
     /\ Enrollment.id e = "enrollment_1706745600000")
  /\ EnrollmentRoutes.post_index EnrollmentRoutes.mockEnrollments
       (EnrollmentRoutes.Clock.Make 1706745600000 "2024-02-01T00:00:00.000Z")
       (EnrollmentRoutes.EnrollmentRequest.Make
          (Js.JStr "user_123") (Js.JStr "course_1") Js.JUndefined)
     = (Http.Response 409
          (Http.Error "Student is already enrolled in this course"),
        EnrollmentRoutes.mockEnrollments).
Proof.
  split.
  - destruct (proj1 (C2_enrollment_is_created_once
                       EnrollmentRoutes.mockEnrollments
                       (EnrollmentRoutes.Clock.Make 1706745600000
                                                    "2024-02-01T00:00:00.000Z")
                       (EnrollmentRoutes.EnrollmentRequest.Make
                          (Js.JStr "user_123") (Js.JStr "course_2")
                          Js.JUndefined)
                       eq_refl eq_refl))
      as (e & Heq & Hid & _).
    + intros e [<-|[<-|[]]] [H1 H2]; discriminate.
    + exists e. split; [exact Heq | exact Hid].
  - apply (proj2 (C2_enrollment_is_created_once
                    EnrollmentRoutes.mockEnrollments
                    (EnrollmentRoutes.Clock.Make 1706745600000
                                                 "2024-02-01T00:00:00.000Z")
                    (EnrollmentRoutes.EnrollmentRequest.Make
                       (Js.JStr "user_123") (Js.JStr "course_1")
                       Js.JUndefined)
                    eq_refl eq_refl)).
    eexists. split; [left; reflexivity|]. split; reflexivity.
Defined.

(** C6 at the seed store: an unknown identifier leaves both records, a
    known one leaves the other record. *)
Lemma C6_witness_seed_store :
  EnrollmentRoutes.delete_by_id EnrollmentRoutes.mockEnrollments "enrollment_9"
  = (Http.Response 404 (Http.Error "Enrollment not found"),
     EnrollmentRoutes.mockEnrollments)
  /\ Spec.removes_first (fun e => Enrollment.id e = "enrollment_1")
       EnrollmentRoutes.mockEnrollments
       (snd (EnrollmentRoutes.delete_by_id EnrollmentRoutes.mockEnrollments
               "enrollment_1"))
  /\ Spec.removes_first
       (fun e => Enrollment.student_id e = Js.JStr "user_456"
                 /\ Enrollment.course_id e = Js.JStr "course_2")
       EnrollmentRoutes.mockEnrollments
       (snd (EnrollmentRoutes.post_unenroll EnrollmentRoutes.mockEnrollments
               "user_456" (Js.JStr "course_2"))).
Proof.
  destruct (C6_deletion_removes_one_record_or_reports_not_found
              EnrollmentRoutes.mockEnrollments) as [Hdel Hun].
  split; [|split].
  - apply (proj1 (Hdel "enrollment_9")).
    intros e [<-|[<-|[]]]; discriminate.
  - apply (proj2 (Hdel "enrollment_1")).
    eexists. split; [left; reflexivity | reflexivity].
  - apply (proj2 (Hun "user_456" (Js.JStr "course_2") eq_refl)).
    eexists. split; [right; left; reflexivity|]. split; reflexivity.
Defined.

(** * Student profiles *)

Lemma truthy_false_iff (v : Js.value) :
  Js.truthy v = false <-> In v Spec.ignored.
Proof.
  unfold Spec.ignored. destruct v as [| |[|]|s]; simpl.
  - intuition.
  - intuition.
  - split; [discriminate|]. intros [H|[H|[H|[H|[]]]]]; discriminate.
  - intuition.
  - rewrite negb_false_iff, String.eqb_eq. split.
    + intros ->. auto.
    + intros [H|[H|[H|[[= <-]|[]]]]]; try discriminate. reflexivity.
Qed.

Lemma spread_if_truthy_merged (field old : Js.value) :
  Spec.merged field old (UserRoutes.spread_if_truthy field old).
Proof.
  unfold Spec.merged, UserRoutes.spread_if_truthy.
  destruct (Js.truthy field) eqn:E; split; intros H; try reflexivity.
  - apply truthy_false_iff in H. congruence.
  - apply truthy_false_iff in E. contradiction.
Qed.

Section StudentProfiles.
Import UserRoutes.

(** C3. PUT /users/profile/:userId when a student record with the id
    exists: the first such record is replaced in place and every other
    record stays; [First_name], [Last_name], [display_name] and
    [academic_level] take the request value unless it is absent or falsy
    (null, false, the empty string); [profile_picture] takes the request
    value whenever the key is present, null included; the identifier, the
    email and the creation time stay and [updated_at] is set.  A request
    with [display_name] alone changes [display_name] and [updated_at]
    only. *)
Theorem C3_profile_update_merges_present_fields
    (students : list Student.t) (now userId : string) (body : ProfileUpdate.t) :
  (exists s, In s students /\ Student.id s = Js.JStr userId) ->
  exists l1 old l2 updated,
    students = l1 ++ old :: l2
    /\ Student.id old = Js.JStr userId
    /\ (forall s, In s l1 -> Student.id s <> Js.JStr userId)
    /\ put_profile students now userId body
       = (Http.json
            (Http.Json
               {| Saved.student := updated;
                  Saved.message := "Profile updated successfully" |}),
          l1 ++ updated :: l2)
    /\ Spec.merged (ProfileUpdate.First_name body)
         (Student.First_name old) (Student.First_name updated)
    /\ Spec.merged (ProfileUpdate.Last_name body)
         (Student.Last_name old) (Student.Last_name updated)
    /\ Spec.merged (ProfileUpdate.display_name body)
         (Student.display_name old) (Student.display_name updated)
    /\ Spec.merged (ProfileUpdate.academic_level body)
         (Student.academic_level old) (Student.academic_level updated)
    /\ (ProfileUpdate.profile_picture body = Js.JUndefined ->
        Student.profile_picture updated = Student.profile_picture old)
    /\ (ProfileUpdate.profile_picture body <> Js.JUndefined ->
        Student.profile_picture updated = ProfileUpdate.profile_picture body)
    /\ Student.id updated = Student.id old
    /\ Student.email updated = Student.email old
    /\ Student.created_at updated = Student.created_at old
    /\ Student.updated_at updated = Js.JStr now
    /\ (forall display_name,
          body = ProfileUpdate.Make Js.JUndefined Js.JUndefined display_name
                                    Js.JUndefined Js.JUndefined ->
          ~ In display_name Spec.ignored ->
          updated
          = {| Student.id := Student.id old;
               Student.First_name := Student.First_name old;
               Student.Last_name := Student.Last_name old;
               Student.email := Student.email old;
               Student.display_name := display_name;
               Student.academic_level := Student.academic_level old;
               Student.profile_picture := Student.profile_picture old;
               Student.created_at := Student.created_at old;
               Student.updated_at := Js.JStr now |}).
Proof.
  intros (s & Hs & Hid).
  destruct (findIndex_In
              (fun s => Js.strict_eq (Student.id s) (Js.JStr userId))
              students s Hs) as [i Hi]; [now apply strict_eq_iff|].
  destruct (findIndex_Some _ _ _ Hi)
    as (l1 & old & l2 & Hsplit & _ & Hold & Hl1 & _ & Hnth & Hassign).
  unfold put_profile. rewrite Hi, Hnth, Hassign.
  exists l1, old, l2. eexists. cbn [Student.First_name Student.Last_name
    Student.display_name Student.academic_level Student.profile_picture
    Student.id Student.email Student.created_at Student.updated_at].
  split; [exact Hsplit|].
  split; [now apply strict_eq_iff|].
  split.
  { intros s' Hs' E. apply strict_eq_iff in E. rewrite (Hl1 s' Hs') in E.
    discriminate. }
  split; [reflexivity|]. cbn.
  repeat split; try apply spread_if_truthy_merged.
  - now intros ->.
  - intros H. unfold spread_if_defined.
    destruct (ProfileUpdate.profile_picture body); congruence.
  - intros display_name -> Hv. cbn. unfold spread_if_truthy.
    destruct (Js.truthy display_name) eqn:E; [reflexivity|].
    apply truthy_false_iff in E. contradiction.
Qed.

(** C8 (as the code has it). POST /users/create-profile with the
    identifier of a stored student profile is answered with status 400,
    the status of a validation error, and stores nothing. *)
Theorem C8_duplicate_profile_is_a_bad_request
    (students : list Student.t) (now : string) (body : ProfileRequest.t) :
  (exists s, In s students /\ Student.id s = ProfileRequest.id body) ->
  Http.status (fst (post_create_profile students now body)) = 400%nat
  /\ snd (post_create_profile students now body) = students.
Proof.
  intros (s & Hs & Hid). unfold post_create_profile.
  destruct (negb (Js.truthy (ProfileRequest.id body)) || _ || _ || _);
    [now split|].
  destruct (find _ students) as [existing|] eqn:Hf; [now split|].
  rewrite find_None_iff in Hf. specialize (Hf s Hs). cbn beta in Hf.
  apply not_true_iff_false in Hf. exfalso. apply Hf. now apply strict_eq_iff.
Qed.

(** C10. GET /users/profile/:userId answers 404 exactly when no user has
    the identifier; for a user without a student record it answers 200
    with that user and [student: null]. *)
Theorem C10_profile_not_found_iff_no_user
    (users : list User.t) (students : list Student.t) (userId : string) :
  (Http.status (get_profile users students userId) = 404%nat
   <-> (forall u, In u users -> User.id u <> userId))
  /\ ((exists u, In u users /\ User.id u = userId) ->
      (forall s, In s students -> Student.id s <> Js.JStr userId) ->
      exists u,
        In u users /\ User.id u = userId
        /\ get_profile users students userId
           = Http.Response 200
               (Http.Json {| Profile.user := u; Profile.student := None |})).
Proof.
  unfold get_profile. split.
  - destruct (find (fun u => User.id u =? userId) users) as [u|] eqn:Hf.
    + split; [discriminate|]. intros H.
      apply find_some in Hf as [Hin Heq]. apply String.eqb_eq in Heq.
      now apply H in Hin.
    + split; [|reflexivity]. intros _ u Hu.
      rewrite find_None_iff in Hf. apply String.eqb_neq. now apply Hf.
  - intros (u & Hu & Hid) Hnone.
    destruct (find (fun u => User.id u =? userId) users) as [u'|] eqn:Hf.
    + apply find_some in Hf as [Hin Heq]. apply String.eqb_eq in Heq.
      exists u'. repeat split; try assumption.
      assert (Hs : find (fun s => Js.strict_eq (Student.id s) (Js.JStr userId))
                        students = None).
      { apply find_None_iff. intros s Hs. apply not_true_iff_false.
        rewrite strict_eq_iff. now apply Hnone. }
      now rewrite Hs.
    + rewrite find_None_iff in Hf. specialize (Hf u Hu). cbn beta in Hf.
      apply String.eqb_neq in Hf. contradiction.
Qed.

End StudentProfiles.

(** C3 at the seed store: renaming the second student. *)
Lemma C3_witness_seed_store :
  exists old updated,
    UserRoutes.mockStudents = firstn 1 UserRoutes.mockStudents ++ [old]
    /\ snd (UserRoutes.put_profile UserRoutes.mockStudents
              "2024-03-01T00:00:00.000Z" "user_456"
              (UserRoutes.ProfileUpdate.Make Js.JUndefined Js.JUndefined
                 (Js.JStr "Jay") Js.JUndefined Js.JUndefined))
       = firstn 1 UserRoutes.mockStudents ++ [updated]
    /\ updated
       = {| Student.id := Student.id old;
            Student.First_name := Student.First_name old;
            Student.Last_name := Student.Last_name old;
            Student.email := Student.email old;
            Student.display_name := Js.JStr "Jay";
            Student.academic_level := Student.academic_level old;
            Student.profile_picture := Student.profile_picture old;
            Student.created_at := Student.created_at old;
            Student.updated_at := Js.JStr "2024-03-01T00:00:00.000Z" |}.
Proof.
  destruct (C3_profile_update_merges_present_fields UserRoutes.mockStudents
              "2024-03-01T00:00:00.000Z" "user_456"
              (UserRoutes.ProfileUpdate.Make Js.JUndefined Js.JUndefined
                 (Js.JStr "Jay") Js.JUndefined Js.JUndefined))
    as (l1 & old & l2 & updated & Hsplit & Hid & Hl1 & Hput & Hrest).
  { eexists. split; [right; left; reflexivity | reflexivity]. }
  assert (Hshape : l1 = firstn 1 UserRoutes.mockStudents /\ l2 = []).
  { destruct l1 as [|a [|b l1]].
    - injection Hsplit as <- _. discriminate.
    - injection Hsplit as <- _ <-. now split.
    - injection Hsplit as <- _ Hnil. now destruct l1. }
  destruct Hshape as [-> ->].
  exists old, updated. split; [exact Hsplit|]. split; [now rewrite Hput|].
  apply Hrest; [reflexivity|].
  intros [H|[H|[H|[H|[]]]]]; discriminate.
Defined.

(** C8 as the specification states it fails: the identifier of the first
    seeded student is taken, and the answer has status 400, not 409. *)
Lemma C8_counterexample_duplicate_profile_is_400 :
  (exists s, In s UserRoutes.mockStudents /\ Student.id s = Js.JStr "user_123")
  /\ UserRoutes.post_create_profile UserRoutes.mockStudents
       "2024-03-01T00:00:00.000Z"
       (UserRoutes.ProfileRequest.Make
          (Js.JStr "user_123") (Js.JStr "John") (Js.JStr "Doe")
          (Js.JStr "john.doe@example.com")
          Js.JUndefined Js.JUndefined Js.JUndefined)
     = (Http.Response 400 (Http.Error "Student profile already exists"),
        UserRoutes.mockStudents)
  /\ Http.status
       (fst (UserRoutes.post_create_profile UserRoutes.mockStudents
               "2024-03-01T00:00:00.000Z"
               (UserRoutes.ProfileRequest.Make
                  (Js.JStr "user_123") (Js.JStr "John") (Js.JStr "Doe")
                  (Js.JStr "john.doe@example.com")
                  Js.JUndefined Js.JUndefined Js.JUndefined)))
     <> 409%nat.
Proof.
  split; [|split].
  - eexists. split; [left; reflexivity | reflexivity].
  - reflexivity.
  - discriminate.
Qed.

Lemma C8_witness_seed_store :
  Http.status
    (fst (UserRoutes.post_create_profile UserRoutes.mockStudents
            "2024-03-01T00:00:00.000Z"
            (UserRoutes.ProfileRequest.Make
               (Js.JStr "user_456") (Js.JStr "Jane") (Js.JStr "Smith")
               (Js.JStr "jane.smith@example.com")
               Js.JUndefined Js.JUndefined Js.JUndefined)))
  = 400%nat.
Proof.
  apply (C8_duplicate_profile_is_a_bad_request UserRoutes.mockStudents
           "2024-03-01T00:00:00.000Z"
           (UserRoutes.ProfileRequest.Make
              (Js.JStr "user_456") (Js.JStr "Jane") (Js.JStr "Smith")
              (Js.JStr "jane.smith@example.com")
              Js.JUndefined Js.JUndefined Js.JUndefined)).
  eexists. split; [right; left; reflexivity | reflexivity].
Defined.

(** C10 with the seeded users and only the second student record. *)
Lemma C10_witness_user_without_student :
  exists u,
    In u UserRoutes.mockUsers /\ User.id u = "user_123"
    /\ UserRoutes.get_profile UserRoutes.mockUsers
         (skipn 1 UserRoutes.mockStudents) "user_123"
       = Http.Response 200
           (Http.Json
              {| UserRoutes.Profile.user := u;
                 UserRoutes.Profile.student := None |}).
Proof.
  apply (proj2 (C10_profile_not_found_iff_no_user UserRoutes.mockUsers
                  (skipn 1 UserRoutes.mockStudents) "user_123")).
  - eexists. split; [left; reflexivity | reflexivity].
  - intros s [<-|[]]. discriminate.
Defined.

(** * The reference runtime and the other handlers on the seed data *)

Example reference_toLowerCase :
  Reference.toLowerCase "Advanced React" = "advanced react".
Proof. reflexivity. Qed.

Example reference_parseInt : Reference.parseInt " 42px" = Some 42%Z.
Proof. reflexivity. Qed.

Example reference_parseInt_nan : Reference.parseInt "abc" = None.
Proof. reflexivity. Qed.

Example reference_parseFloat : Reference.parseFloat "99.5" = Js.Num (199 # 2).
Proof. reflexivity. Qed.

Example reference_dateGetTime :
  Reference.dateGetTime "2024-02-01T00:00:00Z"
  = Js.Num (inject_Z 1706745600000).
Proof. reflexivity. Qed.

Example slice_negative_start :
  Js.slice [1; 2; 3; 4; 5]%nat (Some (-2)%Z) None = [].
Proof. reflexivity. Qed.

Example slice_window_2_4 :
  Js.slice [1; 2; 3; 4; 5]%nat (Some 1%Z) (Some 3%Z) = [2; 3]%nat.
Proof. reflexivity. Qed.

Example seed_get_profile_unknown_user :
  UserRoutes.get_profile UserRoutes.mockUsers UserRoutes.mockStudents "user_0"
  = Http.Response 404 (Http.Error "User not found").
Proof. reflexivity. Qed.

Example seed_category_limit_zero :
  CourseRoutes.get_category (rt := Reference.runtime) CourseRoutes.mockCourses
    "Programming" (Some "0")
  = Http.json
      (Http.Json
         {| CourseRoutes.CategoryListing.courses := [];
            CourseRoutes.CategoryListing.category := "Programming";
            CourseRoutes.CategoryListing.total := 0 |}).
Proof. reflexivity. Qed.

Example seed_dates_valid :
  Forall (Spec.valid_date (rt := Reference.runtime)) CourseRoutes.mockCourses.
Proof. repeat constructor; eexists; reflexivity. Qed.

Example seed_newest_first :
  CourseRoutes.Listing.courses
    (Http.body
       (CourseRoutes.get_index (rt := Reference.runtime) CourseRoutes.mockCourses
          (CourseRoutes.Query.Make None None None None None None
                                   (Some "newest") None None)))
  = rev CourseRoutes.mockCourses.
Proof. reflexivity. Qed.

(** * More facts about the array built-ins *)

Section MoreArrayFacts.
Context {A : Type}.

Lemma slice_prefix (l : list A) (e : Js.int) :
  Js.slice l (Some 0%Z) e
  = firstn (Z.to_nat (Js.relative_index (Z.of_nat (List.length l)) e)) l.
Proof.
  unfold Js.slice. cbn [Js.relative_index].
  replace (0 <? 0)%Z with false by reflexivity.
  rewrite Z.min_l by lia. cbn [Z.to_nat]. rewrite skipn_0.
  f_equal. lia.
Qed.

Lemma firstn_incl (n : nat) (l : list A) : incl (firstn n l) l.
Proof.
  intros x Hx. rewrite <- (firstn_skipn n l). apply in_or_app. now left.
Qed.

Lemma skipn_incl (n : nat) (l : list A) : incl (skipn n l) l.
Proof.
  intros x Hx. rewrite <- (firstn_skipn n l). apply in_or_app. now right.
Qed.

Lemma slice_incl (l : list A) (s e : Js.int) : incl (Js.slice l s e) l.
Proof.
  unfold Js.slice. intros x Hx. apply firstn_incl in Hx.
  now apply skipn_incl in Hx.
Qed.

Lemma length_slice_le (l : list A) (s e : Js.int) :
  (List.length (Js.slice l s e) <= List.length l)%nat.
Proof.
  unfold Js.slice. rewrite length_firstn, length_skipn. lia.
Qed.

(** A slice between two natural indices. *)
Lemma slice_natural (l : list A) (a b : Z) :
  (0 <= a)%Z -> (0 <= b)%Z ->
  Js.slice l (Some a) (Some b)
  = firstn (Nat.min (Z.to_nat b) (List.length l)
            - Nat.min (Z.to_nat a) (List.length l))
           (skipn (Nat.min (Z.to_nat a) (List.length l)) l).
Proof.
  intros Ha Hb. unfold Js.slice, Js.relative_index.
  destruct (a <? 0)%Z eqn:Ea; [apply Z.ltb_lt in Ea; lia|].
  destruct (b <? 0)%Z eqn:Eb; [apply Z.ltb_lt in Eb; lia|].
  f_equal; [lia|]. f_equal. lia.
Qed.

Lemma firstn_then_firstn_skipn (x y : nat) (l : list A) :
  firstn x l ++ firstn y (skipn x l) = firstn (x + y) l.
Proof.
  revert l. induction x as [|x IH]; intros l; [reflexivity|].
  destruct l as [|a l]; [simpl; now rewrite firstn_nil|].
  cbn [firstn skipn Nat.add app]. now rewrite IH.
Qed.

(** Consecutive slices tile the array. *)
Lemma slice_tile (l : list A) (s n m : Z) :
  (0 <= s)%Z -> (0 <= n)%Z -> (0 <= m)%Z ->
  Js.slice l (Some s) (Some (s + n)%Z)
  ++ Js.slice l (Some (s + n)%Z) (Some (s + n + m)%Z)
  = Js.slice l (Some s) (Some (s + n + m)%Z).
Proof.
  intros Hs Hn Hm. rewrite !slice_natural by lia.
  set (len := List.length l).
  set (a := Nat.min (Z.to_nat s) len).
  set (b := Nat.min (Z.to_nat (s + n)) len).
  set (c := Nat.min (Z.to_nat (s + n + m)) len).
  assert (Hab : (a <= b)%nat) by (subst a b; lia).
  assert (Hbc : (b <= c)%nat) by (subst b c; lia).
  replace (skipn b l) with (skipn (b - a) (skipn a l))
    by (rewrite skipn_skipn; f_equal; lia).
  rewrite firstn_then_firstn_skipn. f_equal. lia.
Qed.

Lemma findIndex_first (p : A -> bool) (l1 : list A) (x : A) (l2 : list A) :
  (forall y, In y l1 -> p y = false) -> p x = true ->
  Js.findIndex p (l1 ++ x :: l2) = Some (List.length l1).
Proof.
  intros Hl1 Hx. induction l1 as [|y l1 IH]; simpl.
  - now rewrite Hx.
  - rewrite (Hl1 y) by now left. rewrite IH; [reflexivity|].
    intros z Hz. apply Hl1. now right.
Qed.

Lemma splice1_middle (l1 : list A) (x : A) (l2 : list A) :
  Js.splice1 (List.length l1) (l1 ++ x :: l2) = l1 ++ l2.
Proof. induction l1 as [|y l1 IH]; simpl; [reflexivity | now rewrite IH]. Qed.

Lemma assign_middle (l1 : list A) (x v : A) (l2 : list A) :
  Js.assign (List.length l1) v (l1 ++ x :: l2) = l1 ++ v :: l2.
Proof. induction l1 as [|y l1 IH]; simpl; [reflexivity | now rewrite IH]. Qed.

(** ** Sets *)

Section Sets.
Variable same : A -> A -> bool.
Hypothesis same_eq : forall a b, same a b = true <-> a = b.

Lemma existsb_same (x : A) (l : list A) :
  existsb (same x) l = true <-> In x l.
Proof.
  rewrite existsb_exists. split.
  - intros (y & Hy & E). apply same_eq in E. now subst.
  - intros H. exists x. split; [assumption | now apply same_eq].
Qed.

Lemma set_add_spec (acc : list A) (x : A) :
  NoDup acc ->
  NoDup (Js.set_add same acc x)
  /\ (forall y, In y (Js.set_add same acc x) <-> In y acc \/ y = x)
  /\ (List.length (Js.set_add same acc x) <= S (List.length acc))%nat.
Proof.
  intros Hnd. unfold Js.set_add.
  destruct (existsb (same x) acc) eqn:E.
  - apply existsb_same in E. repeat split; auto.
    + intros [H| ->]; assumption.
  - assert (Hx : ~ In x acc).
    { intros H. apply existsb_same in H. congruence. }
    repeat split.
    + apply NoDup_app; auto.
      * repeat constructor. intros [].
      * intros y Hy [<-|[]]. contradiction.
    + intros H. apply in_app_or in H as [H|[<-|[]]]; auto.
    + intros [H| ->]; apply in_or_app; [now left | right; now left].
    + rewrite length_app. simpl. lia.
Qed.

Lemma fold_set_add_spec (l acc : list A) :
  NoDup acc ->
  NoDup (fold_left (Js.set_add same) l acc)
  /\ (forall y, In y (fold_left (Js.set_add same) l acc) <-> In y acc \/ In y l)
  /\ (List.length (fold_left (Js.set_add same) l acc)
      <= List.length acc + List.length l)%nat.
Proof.
  revert acc. induction l as [|x l IH]; intros acc Hnd; simpl.
  - repeat split; auto. intros [H|[]]. assumption. lia.
  - destruct (set_add_spec acc x Hnd) as (Hnd' & Hin' & Hlen').
    destruct (IH _ Hnd') as (H1 & H2 & H3). repeat split; auto.
    + intros H. apply H2 in H as [H|H]; [|auto].
      apply Hin' in H as [H| ->]; auto.
    + intros [H|[<-|H]]; apply H2; auto; left; apply Hin'; auto.
    + lia.
Qed.

(** [new Set(l)] holds every element of [l] once, and has no more
    elements than [l]; it has as many exactly when [l] has no
    repetition. *)
Lemma set_of_spec (l : list A) :
  NoDup (Js.set_of same l)
  /\ (forall y, In y (Js.set_of same l) <-> In y l)
  /\ (List.length (Js.set_of same l) <= List.length l)%nat.
Proof.
  destruct (fold_set_add_spec l [] (NoDup_nil A)) as (H1 & H2 & H3).
  repeat split; auto.
  - intros H. apply H2 in H as [[]|H]. assumption.
  - intros H. apply H2. now right.
Qed.

End Sets.

(** ** Callbacks that may throw *)

Lemma filter_throwing_total (p : A -> Js.completion bool) (f : A -> bool)
    (l : list A) :
  (forall x, In x l -> p x = Js.Normal (f x)) ->
  Js.filter_throwing p l = Js.Normal (filter f l).
Proof.
  induction l as [|x l IH]; intros H; [reflexivity|]. simpl.
  rewrite (H x) by now left. simpl.
  rewrite IH by (intros y Hy; apply H; now right). simpl.
  now destruct (f x).
Qed.

Lemma filter_throwing_throws (p : A -> Js.completion bool) (l : list A) :
  (exists x, In x l /\ p x = Js.TypeError) ->
  Js.filter_throwing p l = Js.TypeError.
Proof.
  intros (x & Hx & Hp). induction l as [|y l IH]; [destruct Hx|]. simpl.
  destruct Hx as [->|Hx].
  - now rewrite Hp.
  - destruct (p y); [|reflexivity]. simpl. now rewrite (IH Hx).
Qed.

Lemma map_throwing_total {B} (f : A -> Js.completion B) (g : A -> B)
    (l : list A) :
  (forall x, In x l -> f x = Js.Normal (g x)) ->
  Js.map_throwing f l = Js.Normal (map g l).
Proof.
  induction l as [|x l IH]; intros H; [reflexivity|]. simpl.
  rewrite (H x) by now left. simpl.
  now rewrite IH by (intros y Hy; apply H; now right).
Qed.

Lemma map_throwing_throws {B} (f : A -> Js.completion B) (l : list A) :
  (exists x, In x l /\ f x = Js.TypeError) ->
  Js.map_throwing f l = Js.TypeError.
Proof.
  intros (x & Hx & Hf). induction l as [|y l IH]; [destruct Hx|]. simpl.
  destruct Hx as [->|Hx].
  - now rewrite Hf.
  - destruct (f y); [|reflexivity]. simpl. now rewrite (IH Hx).
Qed.

End MoreArrayFacts.

(** * The other course routes *)

Lemma filter_length_le {A} (f g : A -> bool) (l : list A) :
  (forall x, In x l -> f x = true -> g x = true) ->
  (List.length (filter f l) <= List.length (filter g l))%nat.
Proof.
  induction l as [|x l IH]; intros H; [reflexivity|]. simpl.
  assert (IH' := IH (fun y Hy => H y (or_intror Hy))).
  destruct (f x) eqn:Ef.
  - rewrite (H x (or_introl eq_refl) Ef). simpl. lia.
  - destruct (g x); simpl; lia.
Qed.

Section MoreCourseRoutes.
Context {rt : Js.Runtime}.
Import CourseRoutes.

(** X1. GET /courses/featured returns featured courses of the store
    only, as a prefix of the featured courses in store order: the first
    8 without a [limit], the first [n] for a limit that reads as a
    natural number, none for a limit that is not a number. *)
Theorem X1_featured_is_a_prefix_of_the_featured_courses
    (store : list Course.t) (limit : Js.param) :
  let featured := filter (fun c => Course.featured c) store in
  let returned := Courses.courses (Http.body (get_featured store limit)) in
  Forall (fun c => Course.featured c = true /\ In c store) returned
  /\ (exists n, returned = firstn n featured)
  /\ (limit = None ->
      List.length returned = Nat.min 8 (List.length featured))
  /\ (forall l n, limit = Some l -> Js.parseInt l = Some n -> (0 <= n)%Z ->
      List.length returned = Nat.min (Z.to_nat n) (List.length featured))
  /\ (forall l, limit = Some l -> Js.parseInt l = None -> returned = []).
Proof.
  intros featured returned. subst returned. unfold get_featured.
  cbn [Http.body Http.json Courses.courses]. fold featured.
  split; [|split; [|split; [|split]]].
  - rewrite slice_prefix. apply Forall_forall. intros c Hc.
    apply firstn_incl in Hc. apply filter_In in Hc. tauto.
  - rewrite slice_prefix. eauto.
  - intros ->. cbn [int_param]. now rewrite length_slice_prefix by lia.
  - intros l n -> Hn Hpos. cbn [int_param]. rewrite Hn.
    now apply length_slice_prefix.
  - intros l -> Hn. cbn [int_param]. rewrite Hn, slice_prefix. reflexivity.
Qed.

(** X2. GET /courses/categories lists every category that some stored
    course has, each once. *)
Theorem X2_categories_are_the_distinct_categories_of_the_store
    (store : list Course.t) :
  let categories := Categories.categories (Http.body (get_categories store)) in
  NoDup categories
  /\ forall category,
       In category categories
       <-> exists c, In c store /\ Course.category c = category.
Proof.
  intros categories. subst categories. unfold get_categories.
  cbn [Http.body Http.json Categories.categories].
  destruct (set_of_spec String.eqb String.eqb_eq
              (map (fun course => Course.category course) store))
    as (Hnd & Hin & _).
  split; [assumption|]. intros category. rewrite Hin, in_map_iff.
  split; intros (c & H1 & H2); exists c; tauto.
Qed.

(** X3. The two category routes agree: GET /courses/category/:category
    succeeds exactly for the categories GET /courses/categories lists,
    and answers 404 for every other one. *)
Theorem X3_category_route_succeeds_exactly_for_listed_categories
    (store : list Course.t) (category : string) (limit : Js.param) :
  let listed :=
    In category (Categories.categories (Http.body (get_categories store))) in
  (Http.status (get_category store category limit) = 200%nat <-> listed)
  /\ (Http.status (get_category store category limit) = 404%nat <-> ~ listed).
Proof.
  intros listed. subst listed. unfold get_categories.
  cbn [Http.body Http.json Categories.categories].
  destruct (set_of_spec String.eqb String.eqb_eq
              (map (fun course => Course.category course) store))
    as (_ & Hin & _).
  rewrite Hin, in_map_iff. unfold get_category.
  destruct (existsb (fun course => Course.category course =? category) store)
    eqn:E; cbn [negb Http.status Http.json].
  - apply existsb_exists in E as (c & Hc & Heq). apply String.eqb_eq in Heq.
    split; split; try discriminate; try reflexivity; eauto.
    intros H. exfalso. apply H. eauto.
  - assert (Hno : ~ exists c, Course.category c = category /\ In c store).
    { intros (c & Heq & Hc).
      assert (Ht : existsb (fun course => Course.category course =? category)
                           store = true).
      { apply existsb_exists. exists c. split; [assumption|].
        now apply String.eqb_eq. }
      congruence. }
    split; split; try discriminate; try reflexivity; try tauto.
Qed.

Lemma search_hit_has_tags_hit (searchLower : string) (c : Course.t) :
  search_hit searchLower c = true -> search_hit_with_tags searchLower c = true.
Proof.
  unfold search_hit, search_hit_with_tags. intros ->. reflexivity.
Qed.

(** X4. GET /courses/search answers 400 exactly when [q] is missing or
    empty.  Otherwise [total] counts the stored courses whose title,
    instructor, description or one of whose tags contains the query,
    whatever the limit and offset, and the search finds every course that
    GET /courses finds with the same text as its [search] parameter. *)
Theorem X4_course_search_finds_what_the_listing_finds
    (store : list Course.t) (q limit offset : Js.param) :
  (Http.status (get_search store q limit offset) = 400%nat
   <-> Js.supplied q = false)
  /\ forall query, q = Some query -> query <> EmptyString ->
       let found :=
         filter (search_hit_with_tags (Js.toLowerCase query)) store in
       exists r,
         get_search store q limit offset = Http.json (Http.Json r)
         /\ SearchListing.total r = List.length found
         /\ incl (SearchListing.courses r) found
         /\ forall listing : Query.t,
              Query.search listing = Some query ->
              incl (Listing.courses (Http.body (get_index store listing)))
                   found
              /\ (Listing.total (Http.body (get_index store listing))
                  <= SearchListing.total r)%nat.
Proof.
  split.
  - unfold get_search. destruct q as [query|]; [|now split].
    destruct (Js.supplied (Some query)); cbn [Http.status Http.json];
      split; (discriminate + reflexivity).
  - intros query -> Hq found. unfold get_search, Js.supplied.
    apply String.eqb_neq in Hq. rewrite Hq. cbn [negb].
    eexists. split; [reflexivity|].
    cbn [SearchListing.total SearchListing.courses]. fold found.
    split; [reflexivity|]. split; [apply slice_incl|].
    intros listing Hs.
    assert (Hsub : forall c, In c store ->
              Spec.satisfies (Query.search listing) (Query.category listing)
                (Query.level listing) (Query.featured listing)
                (Query.priceMin listing) (Query.priceMax listing) c = true ->
              search_hit_with_tags (Js.toLowerCase query) c = true).
    { intros c _ H. unfold Spec.satisfies in H. rewrite Hs in H.
      unfold Spec.criterion at 1 in H. rewrite Hq in H.
      repeat (apply andb_true_iff in H as [H _]).
      now apply search_hit_has_tags_hit. }
    unfold get_index. cbn [Http.body Http.json Listing.courses Listing.total].
    split.
    + intros c Hc. apply slice_incl in Hc.
      apply (Permutation_in _ (apply_sorting_perm _ _)) in Hc.
      rewrite apply_filters_satisfies in Hc. apply filter_In in Hc as [Hin Hc].
      apply filter_In. split; [assumption|]. now apply Hsub.
    + rewrite (Permutation_length (apply_sorting_perm _ _)).
      rewrite apply_filters_satisfies. now apply filter_length_le.
Qed.

(** X5. GET /courses/:id answers 404 exactly when no stored course has
    the identifier; otherwise it returns the first stored course with
    it. *)
Theorem X5_course_by_id_finds_the_first_course_with_the_id
    (store : list Course.t) (id : string) :
  (Http.status (get_by_id store id) = 404%nat
   <-> forall c, In c store -> Course.id c <> id)
  /\ ((exists c, In c store /\ Course.id c = id) ->
      exists l1 c l2,
        store = l1 ++ c :: l2 /\ Course.id c = id
        /\ (forall c', In c' l1 -> Course.id c' <> id)
        /\ get_by_id store id = Http.json (Http.Json c)).
Proof.
  unfold get_by_id. split.
  - destruct (find (fun course => Course.id course =? id) store) as [c|] eqn:Hf.
    + split; [discriminate|]. intros H.
      apply find_some in Hf as [Hin Heq]. apply String.eqb_eq in Heq.
      now apply H in Hin.
    + split; [|reflexivity]. intros _ c Hc.
      rewrite find_None_iff in Hf. apply String.eqb_neq. now apply Hf.
  - intros (c & Hc & Hid).
    assert (Hp : (fun course => Course.id course =? id) c = true)
      by now apply String.eqb_eq.
    destruct (findIndex_In _ store c Hc Hp) as [i Hi].
    destruct (findIndex_Some _ _ _ Hi)
      as (l1 & x & l2 & -> & _ & Hx & Hl1 & _).
    exists l1, x, l2. split; [reflexivity|].
    split; [now apply String.eqb_eq|].
    split; [intros c' Hc'; apply String.eqb_neq; now apply Hl1|].
    assert (Hfind : find (fun course => Course.id course =? id) (l1 ++ x :: l2)
                    = Some x).
    { clear - Hx Hl1. induction l1 as [|y l1 IH]; simpl.
      - now rewrite Hx.
      - rewrite (Hl1 y) by now left. apply IH. intros z Hz. apply Hl1.
        now right. }
    now rewrite Hfind.
Qed.

(** X6. GET /courses/:id/similar answers 404 exactly when GET
    /courses/:id does.  Otherwise every course it returns is a stored
    course with another identifier that shares the category or the level
    of the course found, so the course itself is never listed. *)
Theorem X6_similar_courses_share_category_or_level
    (store : list Course.t) (id : string) (limit : Js.param) :
  (Http.status (get_similar store id limit) = 404%nat
   <-> Http.status (get_by_id store id) = 404%nat)
  /\ forall course, get_by_id store id = Http.json (Http.Json course) ->
       exists r,
         get_similar store id limit = Http.json (Http.Json r)
         /\ Forall (fun c =>
                      In c store /\ Course.id c <> id
                      /\ (Course.category c = Course.category course
                          \/ Course.level c = Course.level course))
                   (Courses.courses r)
         /\ ~ In course (Courses.courses r).
Proof.
  unfold get_similar, get_by_id.
  destruct (find (fun course => Course.id course =? id) store) as [found|] eqn:Hf.
  - split; [split; discriminate|]. intros course [= <-].
    eexists. split; [reflexivity|]. cbn [Courses.courses].
    assert (Hall : Forall (fun c =>
                      In c store /\ Course.id c <> id
                      /\ (Course.category c = Course.category found
                          \/ Course.level c = Course.level found))
                   (Js.slice
                      (filter (fun c =>
                         negb (Course.id c =? id) &&
                         ((Course.category c =? Course.category found)
                          || (Course.level c =? Course.level found))) store)
                      (Some 0%Z) (int_param limit 4))).
    { apply Forall_forall. intros c Hc. apply slice_incl in Hc.
      apply filter_In in Hc as [Hin Hc]. apply andb_true_iff in Hc as [H1 H2].
      apply negb_true_iff, String.eqb_neq in H1.
      apply orb_true_iff in H2. rewrite !String.eqb_eq in H2. tauto. }
    split; [exact Hall|]. intros Hin.
    rewrite Forall_forall in Hall. apply Hall in Hin as (_ & Hne & _).
    apply find_some in Hf as [_ Heq]. apply String.eqb_eq in Heq. contradiction.
  - split; [split; reflexivity|]. intros course H. discriminate.
Qed.

(** X7. GET /courses returns stored courses that satisfy all supplied
    filter criteria, never more of them than [total], and never more
    than the limit when offset and limit read as natural numbers (20
    without a [limit]). *)
Theorem X7_listing_returns_matching_stored_courses_within_the_limit
    (store : list Course.t) (q : Query.t) :
  let r := Http.body (get_index store q) in
  Forall (fun c =>
            In c store
            /\ Spec.satisfies (Query.search q) (Query.category q)
                 (Query.level q) (Query.featured q) (Query.priceMin q)
                 (Query.priceMax q) c = true)
         (Listing.courses r)
  /\ (List.length (Listing.courses r) <= Listing.total r)%nat
  /\ forall s n,
       int_param (Query.offset q) 0 = Some s ->
       int_param (Query.limit q) 20 = Some n ->
       (0 <= s)%Z -> (0 <= n)%Z ->
       (List.length (Listing.courses r) <= Z.to_nat n)%nat.
Proof.
  intros r. subst r. unfold get_index.
  cbn [Http.body Http.json Listing.courses Listing.total].
  split; [|split].
  - apply Forall_forall. intros c Hc. apply slice_incl in Hc.
    apply (Permutation_in _ (apply_sorting_perm _ _)) in Hc.
    rewrite apply_filters_satisfies in Hc. now apply filter_In in Hc.
  - apply length_slice_le.
  - intros s n -> -> Hs Hn. cbn [Js.add].
    rewrite slice_natural, length_firstn, length_skipn by lia. lia.
Qed.

(** X8. Pages of GET /courses tile the result: for the same filters and
    sort key, the page at offset [s] with limit [n] followed by the page
    at offset [s + n] with limit [m] is the page at offset [s] with
    limit [n + m]; nothing is skipped and nothing is repeated. *)
Theorem X8_consecutive_pages_tile_the_listing
    (store : list Course.t)
    (search category level featured priceMin priceMax sortBy : Js.param)
    (o1 l1 o2 l2 l12 : string) (s n m : Z) :
  Js.parseInt o1 = Some s -> Js.parseInt l1 = Some n ->
  Js.parseInt o2 = Some (s + n)%Z -> Js.parseInt l2 = Some m ->
  Js.parseInt l12 = Some (n + m)%Z ->
  (0 <= s)%Z -> (0 <= n)%Z -> (0 <= m)%Z ->
  let page offset limit :=
    Listing.courses
      (Http.body
         (get_index store
            (Query.Make search category level featured priceMin priceMax
                        sortBy (Some limit) (Some offset)))) in
  page o1 l1 ++ page o2 l2 = page o1 l12.
Proof.
  intros Ho1 Hl1 Ho2 Hl2 Hl12 Hs Hn Hm page. subst page. unfold get_index.
  cbn [Http.body Http.json Listing.courses Query.offset Query.limit
       Query.sortBy int_param].
  rewrite Ho1, Hl1, Ho2, Hl2, Hl12. cbn [Js.add].
  rewrite Z.add_assoc. now apply slice_tile.
Qed.

End MoreCourseRoutes.

(** * The other enrollment routes *)

Lemma truthy_JStr (s : string) :
  s <> EmptyString -> Js.truthy (Js.JStr s) = true.
Proof. intros H. simpl. now apply negb_true_iff, String.eqb_neq. Qed.

Lemma find_app_single {A} (p : A -> bool) (l : list A) (x : A) :
  find p l = None -> find p (l ++ [x]) = if p x then Some x else None.
Proof.
  induction l as [|y l IH]; simpl; [reflexivity|].
  destruct (p y); [discriminate | exact IH].
Qed.

Lemma in_pairs (store : list Enrollment.t) (a b : Js.value) :
  In (a, b) (map Inv.pair_of store)
  <-> exists e, In e store /\ Enrollment.student_id e = a
                /\ Enrollment.course_id e = b.
Proof.
  rewrite in_map_iff. unfold Inv.pair_of. split.
  - intros (e & [= H1 H2] & He). eauto.
  - intros (e & He & <- & <-). eauto.
Qed.

Lemma find_same_pair_None (store : list Enrollment.t) (a b : Js.value) :
  find (EnrollmentRoutes.same_pair a b) store = None
  <-> ~ In (a, b) (map Inv.pair_of store).
Proof.
  rewrite find_None_iff, in_pairs. split.
  - intros H (e & He & H1 & H2). specialize (H e He).
    apply not_true_iff_false in H. apply H. now apply same_pair_iff.
  - intros H e He. apply not_true_iff_false. rewrite same_pair_iff.
    intros [H1 H2]. apply H. eauto.
Qed.

Lemma post_index_outcome (store : list Enrollment.t)
    (clock : EnrollmentRoutes.Clock.t)
    (body : EnrollmentRoutes.EnrollmentRequest.t) :
  snd (EnrollmentRoutes.post_index store clock body) = store
  \/ exists e,
       snd (EnrollmentRoutes.post_index store clock body) = store ++ [e]
       /\ ~ In (Inv.pair_of e) (map Inv.pair_of store).
Proof.
  unfold EnrollmentRoutes.post_index.
  destruct (negb _ || negb _); [now left|].
  destruct (find _ store) eqn:Hf; [now left|]. right.
  eexists. split; [reflexivity|]. now apply find_same_pair_None.
Qed.

Lemma splice_outcome {A} (p : A -> bool) (store : list A) :
  match Js.findIndex p store with
  | Some i => exists l1 x l2, store = l1 ++ x :: l2 /\ Js.splice1 i store = l1 ++ l2
  | None => True
  end.
Proof.
  destruct (Js.findIndex p store) as [i|] eqn:Hi; [|exact I].
  destruct (findIndex_Some _ _ _ Hi) as (l1 & x & l2 & H & _ & _ & _ & Hs & _).
  eauto.
Qed.

Lemma unique_pairs_remove (l1 : list Enrollment.t) (x : Enrollment.t)
    (l2 : list Enrollment.t) :
  Inv.unique_pairs (l1 ++ x :: l2) -> Inv.unique_pairs (l1 ++ l2).
Proof.
  unfold Inv.unique_pairs. rewrite !map_app. cbn [map].
  apply NoDup_remove_1.
Qed.

Section MoreEnrollmentRoutes.
Import EnrollmentRoutes.

(** X9. GET /enrollments/check with two non-empty identifiers says
    [is_enrolled: true] exactly when the store has an enrollment for the
    pair, which is exactly when POST /enrollments for the same pair is
    refused with 409; it says [false] exactly when that POST would be
    answered 201. *)
Theorem X9_check_predicts_the_outcome_of_enrolling
    (store : list Enrollment.t) (student course : string)
    (clock : Clock.t) (tutor_id : Js.value) :
  student <> EmptyString -> course <> EmptyString ->
  let enroll :=
    post_index store clock
      (EnrollmentRequest.Make (Js.JStr student) (Js.JStr course) tutor_id) in
  exists chk,
    get_check store (Some student) (Some course) = Http.json (Http.Json chk)
    /\ (Check.is_enrolled chk = true
        <-> exists e, In e store /\ Enrollment.student_id e = Js.JStr student
                      /\ Enrollment.course_id e = Js.JStr course)
    /\ (Check.is_enrolled chk = true <-> Http.status (fst enroll) = 409%nat)
    /\ (Check.is_enrolled chk = false <-> Http.status (fst enroll) = 201%nat)
    /\ (forall e, Check.enrollment chk = Some e ->
          In e store /\ Enrollment.student_id e = Js.JStr student
          /\ Enrollment.course_id e = Js.JStr course).
Proof.
  intros Hs Hc enroll. subst enroll. unfold get_check, post_index, Js.supplied.
  cbn [EnrollmentRequest.student_id EnrollmentRequest.course_id].
  rewrite !truthy_JStr by assumption.
  apply String.eqb_neq in Hs, Hc. rewrite Hs, Hc. cbn [negb orb].
  eexists. split; [reflexivity|]. cbn [Check.is_enrolled Check.enrollment].
  destruct (find (same_pair (Js.JStr student) (Js.JStr course)) store)
    as [e|] eqn:Hf; cbn [fst Http.status].
  - apply find_some in Hf as [Hin Hp]. apply same_pair_iff in Hp.
    split; [split; [intros _; exists e; tauto | reflexivity]|].
    split; [split; reflexivity|].
    split; [split; discriminate|].
    intros e' [= <-]. tauto.
  - split.
    { split; [discriminate|].
      intros (e & He & H1 & H2). rewrite find_None_iff in Hf.
      specialize (Hf e He). apply not_true_iff_false in Hf. exfalso. apply Hf.
      now apply same_pair_iff. }
    split; [split; discriminate|].
    split; [split; reflexivity|].
    intros e. discriminate.
Qed.

(** X10. No handler that mutates the enrollment store ever makes two
    enrollments for the same (student, course) pair: a store without such
    a repetition stays without one through POST /enrollments, DELETE
    /enrollments/:enrollmentId and the unenroll route, whatever the
    request. *)
Theorem X10_mutations_keep_the_pairs_unique (store : list Enrollment.t) :
  Inv.unique_pairs store ->
  (forall clock body, Inv.unique_pairs (snd (post_index store clock body)))
  /\ (forall enrollmentId,
        Inv.unique_pairs (snd (delete_by_id store enrollmentId)))
  /\ (forall studentId course_id,
        Inv.unique_pairs (snd (post_unenroll store studentId course_id))).
Proof.
  intros Hu. split; [|split].
  - intros clock body.
    destruct (post_index_outcome store clock body) as [->|(e & -> & Hnew)];
      [assumption|].
    unfold Inv.unique_pairs. rewrite map_app. cbn [map].
    apply NoDup_app; [assumption | repeat constructor; intros [] |].
    intros p Hp [<-|[]]. contradiction.
  - intros enrollmentId. unfold delete_by_id.
    pose proof (splice_outcome (fun e => Enrollment.id e =? enrollmentId) store)
      as H.
    destruct (Js.findIndex _ store) as [i|]; [|assumption].
    destruct H as (l1 & x & l2 & -> & ->). cbn [snd].
    now apply unique_pairs_remove in Hu.
  - intros studentId course_id. unfold post_unenroll.
    destruct (negb (Js.truthy course_id)); [assumption|].
    pose proof (splice_outcome (same_pair (Js.JStr studentId) course_id) store)
      as H.
    destruct (Js.findIndex _ store) as [i|]; [|assumption].
    destruct H as (l1 & x & l2 & -> & ->). cbn [snd].
    now apply unique_pairs_remove in Hu.
Qed.

(** X11. Enrolling and then unenrolling is a round trip: when POST
    /enrollments creates the enrollment of a student for a course, the
    unenroll route for that student and course answers 200 and leaves
    the store exactly as it was before the enrollment. *)
Theorem X11_unenrolling_undoes_enrolling
    (store : list Enrollment.t) (clock : Clock.t) (student : string)
    (course_id tutor_id : Js.value) :
  student <> EmptyString -> Js.truthy course_id = true ->
  (forall e, In e store ->
     ~ (Enrollment.student_id e = Js.JStr student
        /\ Enrollment.course_id e = course_id)) ->
  let enrolled :=
    post_index store clock
      (EnrollmentRequest.Make (Js.JStr student) course_id tutor_id) in
  Http.status (fst enrolled) = 201%nat
  /\ Http.status (fst (post_unenroll (snd enrolled) student course_id)) = 200%nat
  /\ snd (post_unenroll (snd enrolled) student course_id) = store.
Proof.
  intros Hs Hc Habsent enrolled. subst enrolled. unfold post_index.
  cbn [EnrollmentRequest.student_id EnrollmentRequest.course_id
       EnrollmentRequest.tutor_id].
  rewrite truthy_JStr, Hc by assumption. cbn [negb orb].
  pose proof (same_pair_absent _ _ _ Habsent) as Hno.
  rewrite (proj2 (find_None_iff _ _) Hno). cbn [fst snd Http.status].
  split; [reflexivity|]. unfold post_unenroll. rewrite Hc. cbn [negb].
  rewrite findIndex_first; [| exact Hno | now apply same_pair_iff].
  cbn [fst snd Http.status Http.json]. split; [reflexivity|].
  rewrite splice1_middle. apply app_nil_r.
Qed.

(** X12. The listing of a student follows the store: after POST
    /enrollments has created an enrollment for a student, GET
    /enrollments/student/:studentId reports one enrollment more for that
    student and as many as before for every other student; with or
    without course details it lists [total] enrollments. *)
Theorem X12_enrolling_adds_one_to_the_listing_of_the_student
    (store : list Enrollment.t) (clock : Clock.t) (student : string)
    (course_id tutor_id : Js.value) :
  student <> EmptyString -> Js.truthy course_id = true ->
  (forall e, In e store ->
     ~ (Enrollment.student_id e = Js.JStr student
        /\ Enrollment.course_id e = course_id)) ->
  let store' :=
    snd (post_index store clock
           (EnrollmentRequest.Make (Js.JStr student) course_id tutor_id)) in
  forall (studentId : string) (include_courses : Js.param),
    let before := Http.body (get_by_student store studentId include_courses) in
    let after := Http.body (get_by_student store' studentId include_courses) in
    StudentListing.total after
    = (StudentListing.total before
       + (if (studentId =? student)%string then 1 else 0))%nat
    /\ List.length (StudentListing.enrollments after)
       = StudentListing.total after
    /\ map Listed.enrollment (StudentListing.enrollments after)
       = filter (fun e => Js.strict_eq (Enrollment.student_id e)
                                       (Js.JStr studentId)) store'.
Proof.
  intros Hs Hc Habsent store'. subst store'. unfold post_index.
  cbn [EnrollmentRequest.student_id EnrollmentRequest.course_id
       EnrollmentRequest.tutor_id].
  rewrite truthy_JStr, Hc by assumption. cbn [negb orb].
  pose proof (same_pair_absent _ _ _ Habsent) as Hno.
  rewrite (proj2 (find_None_iff _ _) Hno). cbn [snd].
  intros studentId include_courses. cbv zeta. unfold get_by_student.
  cbn [Http.body Http.json StudentListing.total StudentListing.enrollments].
  split; [|split].
  - rewrite filter_app, length_app. cbn [filter Enrollment.student_id].
    cbn [Js.strict_eq]. rewrite (String.eqb_sym student studentId).
    now destruct (studentId =? student).
  - destruct (is_true include_courses); now rewrite length_map.
  - destruct (is_true include_courses); rewrite map_map; cbn [Listed.enrollment];
      apply map_id.
Qed.

End MoreEnrollmentRoutes.

(** ** Strings *)

Lemma string_length_append (a b : string) :
  String.length (a ++ b)%string = (String.length a + String.length b)%nat.
Proof. induction a as [|c a IH]; simpl; [reflexivity | now rewrite IH]. Qed.

Lemma substring_all (s : string) : String.substring 0 (String.length s) s = s.
Proof. induction s as [|c s IH]; simpl; [reflexivity | now rewrite IH]. Qed.

Lemma substring_suffix (s : string) (k : nat) :
  (k <= String.length s)%nat ->
  exists p,
    s = (p ++ String.substring k (String.length s - k) s)%string
    /\ String.length p = k.
Proof.
  revert k. induction s as [|c s IH]; intros k Hk.
  - exists EmptyString. simpl in Hk. replace k with 0%nat by lia. now split.
  - destruct k as [|k].
    + exists EmptyString. rewrite Nat.sub_0_r, substring_all. now split.
    + simpl in Hk. destruct (IH k) as (p & Hp & Hlen); [lia|].
      exists (String c p). simpl. split; [now rewrite <- Hp | now rewrite Hlen].
Qed.

(** [s.slice(-3)] is the end of [s]: its last three characters, or all
    of [s] when it has fewer. *)
Lemma str_slice_last_three (s : string) :
  exists p,
    s = (p ++ Js.str_slice_from s (-3))%string
    /\ String.length (Js.str_slice_from s (-3))
       = Nat.min 3 (String.length s).
Proof.
  unfold Js.str_slice_from, Js.relative_index.
  replace (-3 <? 0)%Z with true by reflexivity.
  set (len := String.length s).
  replace (Z.to_nat (Z.max (Z.of_nat len + -3) 0)) with (len - 3)%nat by lia.
  replace (Z.to_nat (Z.of_nat len - Z.max (Z.of_nat len + -3) 0))
    with (len - (len - 3))%nat by lia.
  destruct (substring_suffix s (len - 3)) as (p & Hp & Hlen); [lia|].
  fold len in Hp. exists p. split; [assumption|].
  apply (f_equal String.length) in Hp. rewrite string_length_append in Hp.
  fold len in Hp. lia.
Qed.

(** ** The mock attributes and the listing by course *)

Lemma mock_email_throws_iff (v : Js.value) :
  EnrollmentRoutes.mock_email v = Js.TypeError <-> ~ Inv.is_string v.
Proof.
  unfold EnrollmentRoutes.mock_email, Inv.is_string.
  destruct v as [| |b|s]; simpl; split; try reflexivity; try discriminate;
    try (intros _ [s' H]; discriminate).
  intros H. exfalso. apply H. eauto.
Qed.

Lemma map_throwing_Normal {A B} (f : A -> Js.completion B) (l : list A)
    (ys : list B) :
  Js.map_throwing f l = Js.Normal ys ->
  Forall2 (fun x y => f x = Js.Normal y) l ys.
Proof.
  revert ys. induction l as [|x l IH]; simpl; intros ys H.
  - injection H as <-. constructor.
  - destruct (f x) as [y|] eqn:Hx; [|discriminate]. simpl in H.
    destruct (Js.map_throwing f l) as [rest|]; [|discriminate]. simpl in H.
    injection H as <-. constructor; [assumption | now apply IH].
Qed.

Lemma map_throwing_throws_iff {A B} (f : A -> Js.completion B) (l : list A) :
  Js.map_throwing f l = Js.TypeError <-> exists x, In x l /\ f x = Js.TypeError.
Proof.
  split; [|apply map_throwing_throws].
  induction l as [|x l IH]; simpl; [discriminate|].
  destruct (f x) as [y|] eqn:Hx; [|eauto]. simpl.
  destruct (Js.map_throwing f l) as [rest|]; [discriminate|].
  intros _. destruct (IH eq_refl) as (z & Hz & Hf). eauto.
Qed.

Lemma StronglySorted_impl {A} (R R' : A -> A -> Prop) (l : list A) :
  (forall a b, R a b -> R' a b) -> StronglySorted R l -> StronglySorted R' l.
Proof.
  intros H Hs. induction Hs as [|a l Hs IH Ha]; constructor; [assumption|].
  eapply Forall_impl; [|exact Ha]. intros b. apply H.
Qed.

Section EnrollmentReads.
Import EnrollmentRoutes.

(** X13. GET /enrollments/course/:courseId and the count route agree:
    unless student details are requested the listing never fails and
    its [total] and its length are the [enrollment_count] of the count
    route.  With [include_students=true] the handler throws exactly when
    an enrollment of the course has a [student_id] that is not a string;
    when it does not throw, [total] is still the count and every entry
    carries a student with the [student_id] of its enrollment. *)
Theorem X13_course_listing_agrees_with_the_count_or_throws
    (store : list Enrollment.t) (courseId : string) :
  let count :=
    Count.enrollment_count (Http.body (get_course_count store courseId)) in
  (forall include_students, is_true include_students = false ->
     exists r,
       get_by_course store courseId include_students = Js.Normal (Http.json r)
       /\ CourseListing.total r = count
       /\ List.length (CourseListing.enrollments r) = count)
  /\ (get_by_course store courseId (Some "true") = Js.TypeError
      <-> exists e, In e store /\ Enrollment.course_id e = Js.JStr courseId
                    /\ ~ Inv.is_string (Enrollment.student_id e))
  /\ (forall response,
        get_by_course store courseId (Some "true") = Js.Normal response ->
        CourseListing.total (Http.body response) = count
        /\ List.length (CourseListing.enrollments (Http.body response)) = count
        /\ Forall (fun item =>
                     exists info,
                       Listed.student item = Some info
                       /\ StudentInfo.id info
                          = Enrollment.student_id (Listed.enrollment item))
                  (CourseListing.enrollments (Http.body response))).
Proof.
  intros count. subst count. unfold get_course_count, get_by_course.
  cbn [Http.body Http.json Count.enrollment_count].
  set (courseEnrollments :=
         filter (fun e => Js.strict_eq (Enrollment.course_id e)
                                       (Js.JStr courseId)) store).
  split; [|split].
  - intros include_students ->. cbn [Js.bind]. eexists.
    split; [reflexivity|]. cbn [CourseListing.total CourseListing.enrollments].
    split; [reflexivity | apply length_map].
  - replace (is_true (Some "true")) with true by reflexivity.
    set (decorate := fun enrollment : Enrollment.t => _).
    split.
    + intros H.
      destruct (Js.map_throwing decorate courseEnrollments) as [l|] eqn:Hm;
        [discriminate|].
      apply map_throwing_throws_iff in Hm as (e & He & Hthrow).
      apply filter_In in He as [Hin Hc]. apply strict_eq_iff in Hc.
      exists e. split; [assumption|]. split; [assumption|].
      apply mock_email_throws_iff. subst decorate. cbn beta in Hthrow.
      destruct (mock_email (Enrollment.student_id e)); [discriminate|reflexivity].
    + intros (e & Hin & Hc & Hs).
      rewrite (map_throwing_throws decorate courseEnrollments); [reflexivity|].
      exists e. split.
      * apply filter_In. split; [assumption | now apply strict_eq_iff].
      * subst decorate. cbn beta.
        now rewrite (proj2 (mock_email_throws_iff _) Hs).
  - replace (is_true (Some "true")) with true by reflexivity.
    set (decorate := fun enrollment : Enrollment.t => _).
    intros response H.
    destruct (Js.map_throwing decorate courseEnrollments) as [l|] eqn:Hm;
      [|discriminate].
    cbn [Js.bind] in H. injection H as <-.
    cbn [Http.body Http.json CourseListing.total CourseListing.enrollments].
    apply map_throwing_Normal in Hm.
    split; [reflexivity|]. split.
    + symmetry. eapply Forall2_length. exact Hm.
    + clear - Hm. induction Hm as [|e item es items He _ IH]; constructor;
        [|assumption].
      subst decorate. cbn beta in He.
      destruct (mock_email (Enrollment.student_id e)); [|discriminate].
      cbn [Js.bind] in He. injection He as <-. eexists. now split.
Qed.

(** X14. GET /enrollments/:enrollmentId answers 404 when no stored
    enrollment has the identifier.  Otherwise it looks at the first one
    that has it: for a [student_id] that is a string the answer is 200
    with that enrollment and a mock student whose email is ["student"],
    the last three characters of the [student_id] (all of it when it is
    shorter) and ["@example.com"]; for a [student_id] that is not a
    string the handler throws and the client gets status 500. *)
Theorem X14_enrollment_details_or_server_error
    (store : list Enrollment.t) (enrollmentId : string) :
  ((forall e, In e store -> Enrollment.id e <> enrollmentId) ->
   get_by_id store enrollmentId
   = Js.Normal (Http.Response 404 (Http.Error "Enrollment not found")))
  /\ forall l1 e l2,
       store = l1 ++ e :: l2 -> Enrollment.id e = enrollmentId ->
       (forall e', In e' l1 -> Enrollment.id e' <> enrollmentId) ->
       (forall s, Enrollment.student_id e = Js.JStr s ->
          exists d prefix tail,
            get_by_id store enrollmentId = Js.Normal (Http.json (Http.Json d))
            /\ Details.enrollment d = e
            /\ Details.student_id (Details.student d) = Js.JStr s
            /\ Details.course_id (Details.course d) = Enrollment.course_id e
            /\ s = (prefix ++ tail)%string
            /\ String.length tail = Nat.min 3 (String.length s)
            /\ Details.email (Details.student d)
               = ("student" ++ tail ++ "@example.com")%string)
       /\ (~ Inv.is_string (Enrollment.student_id e) ->
           get_by_id store enrollmentId = Js.TypeError
           /\ forall NODE_ENV err_message now,
                Http.status
                  (App.respond NODE_ENV err_message now
                               (get_by_id store enrollmentId))
                = 500%nat).
Proof.
  unfold get_by_id. split.
  - intros Habsent.
    assert (Hn : find (fun e => Enrollment.id e =? enrollmentId) store = None).
    { apply find_None_iff. intros e He. apply String.eqb_neq. now apply Habsent. }
    now rewrite Hn.
  - intros l1 e l2 -> Hid Hl1.
    assert (Hfind : find (fun e => Enrollment.id e =? enrollmentId)
                         (l1 ++ e :: l2) = Some e).
    { clear - Hid Hl1. induction l1 as [|y l1 IH]; simpl.
      - apply String.eqb_eq in Hid. now rewrite Hid.
      - assert (Hy : (Enrollment.id y =? enrollmentId) = false)
          by (apply String.eqb_neq, Hl1; now left).
        rewrite Hy. apply IH. intros z Hz. apply Hl1. now right. }
    rewrite Hfind. split.
    + intros s Hs. rewrite Hs. cbn [mock_email Js.slice_method Js.bind].
      destruct (str_slice_last_three s) as (p & Hp & Hlen).
      eexists. exists p, (Js.str_slice_from s (-3)).
      split; [reflexivity|].
      cbn [Details.enrollment Details.student Details.course
           Details.student_id Details.course_id Details.email].
      repeat split; assumption.
    + intros Hs. rewrite (proj2 (mock_email_throws_iff _) Hs).
      cbn [Js.bind]. split; reflexivity.
Qed.

End EnrollmentReads.

Lemma firstn_min_length {A} (n : nat) (l : list A) :
  firstn (Nat.min n (List.length l)) l = firstn n l.
Proof.
  destruct (Nat.le_gt_cases n (List.length l)) as [H|H].
  - now rewrite Nat.min_l.
  - rewrite Nat.min_r, firstn_all, firstn_all2 by lia. reflexivity.
Qed.

Section EnrollmentStatistics.
Context {rt : Js.Runtime}.
Import EnrollmentRoutes.

Lemma by_created_desc_consistent (a b : Enrollment.t) :
  Inv.dated a -> Inv.dated b ->
  (Js.gt0 (by_created_desc a b) = true
   <-> (- Inv.created_time b < - Inv.created_time a)%Q).
Proof.
  intros [ta Ha] [tb Hb]. unfold by_created_desc, Inv.created_time.
  rewrite Ha, Hb, gt0_sub. split; lra.
Qed.

(** X15. The statistics handler counts the enrollments, the distinct
    student identifiers and the distinct course identifiers of the
    store, and returns the first ten enrollments of the store after its
    sort.  The sort is in place: the store afterwards holds the same
    records, newest first when every [created_at] is a date, and still
    without a repeated (student, course) pair if it had none. *)
Theorem X15_statistics_count_and_reorder_the_store
    (store : list Enrollment.t) :
  let stats := Http.body (fst (get_stats store)) in
  let store' := snd (get_stats store) in
  Stats.total_enrollments stats = List.length store
  /\ (exists ids,
        NoDup ids
        /\ (forall v, In v ids
                      <-> exists e, In e store /\ Enrollment.student_id e = v)
        /\ Stats.unique_students stats = List.length ids)
  /\ (exists ids,
        NoDup ids
        /\ (forall v, In v ids
                      <-> exists e, In e store /\ Enrollment.course_id e = v)
        /\ Stats.unique_courses stats = List.length ids)
  /\ (Stats.unique_students stats <= List.length store)%nat
  /\ (Stats.unique_courses stats <= List.length store)%nat
  /\ Stats.recent_enrollments stats = firstn 10 store'
  /\ Permutation store' store
  /\ (Forall Inv.dated store -> StronglySorted Inv.newest_first store')
  /\ (Inv.unique_pairs store -> Inv.unique_pairs store').
Proof.
  intros stats store'. subst stats store'. unfold get_stats.
  cbn [fst snd Http.body Http.json Stats.total_enrollments
       Stats.unique_students Stats.unique_courses Stats.recent_enrollments].
  destruct (set_of_spec Js.strict_eq strict_eq_iff
              (map (fun e => Enrollment.student_id e) store))
    as (Hnd1 & Hin1 & Hlen1).
  destruct (set_of_spec Js.strict_eq strict_eq_iff
              (map (fun e => Enrollment.course_id e) store))
    as (Hnd2 & Hin2 & Hlen2).
  rewrite length_map in Hlen1, Hlen2.
  split; [reflexivity|].
  split.
  { eexists. split; [exact Hnd1|]. split; [|reflexivity].
    intros v. rewrite Hin1, in_map_iff.
    split; intros (e & H1 & H2); exists e; tauto. }
  split.
  { eexists. split; [exact Hnd2|]. split; [|reflexivity].
    intros v. rewrite Hin2, in_map_iff.
    split; intros (e & H1 & H2); exists e; tauto. }
  split; [assumption|]. split; [assumption|].
  split.
  { rewrite slice_prefix. cbn [Js.relative_index].
    replace (10 <? 0)%Z with false by reflexivity.
    replace (Z.to_nat (Z.min 10 (Z.of_nat (List.length (Js.sort by_created_desc store)))))
      with (Nat.min 10 (List.length (Js.sort by_created_desc store))) by lia.
    apply firstn_min_length. }
  split; [apply sort_perm|].
  split.
  - intros Hd.
    apply (StronglySorted_impl
             (fun a b => (- Inv.created_time a <= - Inv.created_time b)%Q)).
    + intros a b H. unfold Inv.newest_first. lra.
    + apply (sort_sorted by_created_desc (fun e => (- Inv.created_time e)%Q)
               Inv.dated by_created_desc_consistent store Hd).
  - unfold Inv.unique_pairs. intros Hu.
    eapply Permutation_NoDup; [|exact Hu].
    apply Permutation_map, Permutation_sym, sort_perm.
Qed.

End EnrollmentStatistics.

(** * More on student profiles *)

Lemma spread_if_truthy_twice (field old : Js.value) :
  UserRoutes.spread_if_truthy field (UserRoutes.spread_if_truthy field old)
  = UserRoutes.spread_if_truthy field old.
Proof. unfold UserRoutes.spread_if_truthy. now destruct (Js.truthy field). Qed.

Lemma spread_if_defined_twice (field old : Js.value) :
  UserRoutes.spread_if_defined field (UserRoutes.spread_if_defined field old)
  = UserRoutes.spread_if_defined field old.
Proof. now destruct field. Qed.

(** What PUT /users/profile/:userId does to the store, in one equation
    for each of its two outcomes. *)
Lemma put_profile_outcome (students : list Student.t) (now userId : string)
    (body : UserRoutes.ProfileUpdate.t) :
  (snd (UserRoutes.put_profile students now userId body) = students
   /\ Http.status (fst (UserRoutes.put_profile students now userId body))
      = 404%nat
   /\ forall s, In s students -> Student.id s <> Js.JStr userId)
  \/ exists l1 old l2 updated,
       students = l1 ++ old :: l2
       /\ UserRoutes.put_profile students now userId body
          = (Http.json
               (Http.Json
                  {| UserRoutes.Saved.student := updated;
                     UserRoutes.Saved.message := "Profile updated successfully" |}),
             l1 ++ updated :: l2)
       /\ Student.id old = Js.JStr userId
       /\ (forall s, In s l1 -> Student.id s <> Js.JStr userId)
       /\ updated
          = {| Student.id := Student.id old;
               Student.First_name :=
                 UserRoutes.spread_if_truthy
                   (UserRoutes.ProfileUpdate.First_name body)
                   (Student.First_name old);
               Student.Last_name :=
                 UserRoutes.spread_if_truthy
                   (UserRoutes.ProfileUpdate.Last_name body)
                   (Student.Last_name old);
               Student.email := Student.email old;
               Student.display_name :=
                 UserRoutes.spread_if_truthy
                   (UserRoutes.ProfileUpdate.display_name body)
                   (Student.display_name old);
               Student.academic_level :=
                 UserRoutes.spread_if_truthy
                   (UserRoutes.ProfileUpdate.academic_level body)
                   (Student.academic_level old);
               Student.profile_picture :=
                 UserRoutes.spread_if_defined
                   (UserRoutes.ProfileUpdate.profile_picture body)
                   (Student.profile_picture old);
               Student.created_at := Student.created_at old;
               Student.updated_at := Js.JStr now |}.
Proof.
  unfold UserRoutes.put_profile.
  destruct (Js.findIndex _ students) as [i|] eqn:Hi.
  - right. destruct (findIndex_Some _ _ _ Hi)
      as (l1 & old & l2 & Hsplit & _ & Hold & Hl1 & _ & Hnth & Hassign).
    rewrite Hnth, Hassign. exists l1, old, l2. eexists.
    split; [exact Hsplit|]. split; [reflexivity|].
    split; [now apply strict_eq_iff|]. split; [|reflexivity].
    intros s Hs E. apply strict_eq_iff in E. rewrite (Hl1 s Hs) in E.
    discriminate.
  - left. split; [reflexivity|]. split; [reflexivity|].
    intros s Hs E. rewrite findIndex_None in Hi. specialize (Hi s Hs).
    cbn beta in Hi. apply strict_eq_iff in E. congruence.
Qed.

Section MoreStudentProfiles.
Import UserRoutes.

(** X16. POST /users/create-profile with its four required fields and
    an identifier no stored profile has answers 201 and appends one
    record made of the request: the display name is the given one, or
    first and last name joined by a space when none is given; academic
    level and profile picture are null when not given.  The same request
    sent again is answered 400 and stores nothing. *)
Theorem X16_profile_is_created_from_the_request_once
    (students : list Student.t) (now : string) (body : ProfileRequest.t) :
  Js.truthy (ProfileRequest.id body) = true ->
  Js.truthy (ProfileRequest.firstName body) = true ->
  Js.truthy (ProfileRequest.lastName body) = true ->
  Js.truthy (ProfileRequest.email body) = true ->
  (forall s, In s students -> Student.id s <> ProfileRequest.id body) ->
  exists s,
    post_create_profile students now body
    = (Http.Response 201
         (Http.Json
            {| Saved.student := s;
               Saved.message := "Student profile created successfully" |}),
       students ++ [s])
    /\ Student.id s = ProfileRequest.id body
    /\ Student.First_name s = ProfileRequest.firstName body
    /\ Student.Last_name s = ProfileRequest.lastName body
    /\ Student.email s = ProfileRequest.email body
    /\ Student.created_at s = Js.JStr now
    /\ (In (ProfileRequest.displayName body) Spec.ignored ->
        Student.display_name s
        = Js.JStr (Js.to_string (ProfileRequest.firstName body) ++ " "
                   ++ Js.to_string (ProfileRequest.lastName body)))
    /\ (~ In (ProfileRequest.displayName body) Spec.ignored ->
        Student.display_name s = ProfileRequest.displayName body)
    /\ (In (ProfileRequest.academicLevel body) Spec.ignored ->
        Student.academic_level s = Js.JNull)
    /\ (In (ProfileRequest.profilePicture body) Spec.ignored ->
        Student.profile_picture s = Js.JNull)
    /\ forall now',
         post_create_profile (students ++ [s]) now' body
         = (Http.Response 400 (Http.Error "Student profile already exists"),
            students ++ [s]).
Proof.
  intros Hid Hf Hl He Hfresh. unfold post_create_profile at 1.
  rewrite Hid, Hf, Hl, He. cbn [negb orb].
  assert (Hn : find (fun s => Js.strict_eq (Student.id s) (ProfileRequest.id body))
                    students = None).
  { apply find_None_iff. intros s Hs. apply not_true_iff_false.
    rewrite strict_eq_iff. now apply Hfresh. }
  rewrite Hn. eexists. split; [reflexivity|].
  cbn [Student.id Student.First_name Student.Last_name Student.email
       Student.created_at Student.display_name Student.academic_level
       Student.profile_picture].
  repeat (split; [reflexivity|]). unfold Js.or.
  split; [intros H; apply truthy_false_iff in H; now rewrite H|].
  split.
  { intros H. destruct (Js.truthy (ProfileRequest.displayName body)) eqn:E;
      [reflexivity|]. apply truthy_false_iff in E. contradiction. }
  split; [intros H; apply truthy_false_iff in H; now rewrite H|].
  split; [intros H; apply truthy_false_iff in H; now rewrite H|].
  intros now'. unfold post_create_profile. rewrite Hid, Hf, Hl, He.
  cbn [negb orb]. rewrite (find_app_single _ _ _ Hn). cbn [Student.id].
  now rewrite (proj2 (strict_eq_iff _ _) eq_refl).
Qed.

(** X17. Student identifiers are stable: PUT /users/profile/:userId
    never changes the identifier of a record, the order or the number of
    records, whatever the request, and neither it nor POST
    /users/create-profile ever gives two records the same identifier. *)
Theorem X17_profile_mutations_keep_the_identifiers
    (students : list Student.t) :
  (forall now userId body,
     map Student.id (snd (put_profile students now userId body))
     = map Student.id students)
  /\ (Inv.unique_ids students ->
      (forall now userId body,
         Inv.unique_ids (snd (put_profile students now userId body)))
      /\ (forall now body,
            Inv.unique_ids (snd (post_create_profile students now body)))).
Proof.
  assert (Hput : forall now userId body,
            map Student.id (snd (put_profile students now userId body))
            = map Student.id students).
  { intros now userId body.
    destruct (put_profile_outcome students now userId body)
      as [(-> & _)|(l1 & old & l2 & updated & -> & -> & _ & _ & ->)];
      [reflexivity|].
    cbn [snd]. now rewrite !map_app. }
  split; [exact Hput|]. intros Hu. split.
  - intros now userId body. unfold Inv.unique_ids. now rewrite Hput.
  - intros now body. unfold post_create_profile.
    destruct (negb _ || _ || _ || _); [assumption|].
    destruct (find _ students) eqn:Hf; [assumption|]. cbn [snd].
    unfold Inv.unique_ids. rewrite map_app. cbn [map Student.id].
    apply NoDup_app; [assumption | repeat constructor; intros [] |].
    intros v Hv [<-|[]]. apply in_map_iff in Hv as (s & Hs & Hin).
    rewrite find_None_iff in Hf. specialize (Hf s Hin). cbn beta in Hf.
    apply strict_eq_iff in Hs. congruence.
Qed.

(** X18. Repeating a PUT /users/profile/:userId changes nothing but
    the update time: the same request made a second time gets the answer
    and leaves the store that this second request alone would have
    given. *)
Theorem X18_profile_update_is_idempotent
    (students : list Student.t) (now now' userId : string)
    (body : ProfileUpdate.t) :
  put_profile (snd (put_profile students now userId body)) now' userId body
  = put_profile students now' userId body.
Proof.
  destruct (put_profile_outcome students now userId body)
    as [(Hsnd & Hst & Hnone)|(l1 & old & l2 & updated & -> & Heq & Hold & Hl1 & Hupd)].
  - now rewrite Hsnd.
  - rewrite Heq. cbn [snd]. unfold put_profile.
    assert (Hid : Student.id updated = Js.JStr userId) by (now subst updated).
    assert (Hno : forall s, In s l1 ->
              Js.strict_eq (Student.id s) (Js.JStr userId) = false).
    { intros s Hs. apply not_true_iff_false. rewrite strict_eq_iff.
      now apply Hl1. }
    rewrite !findIndex_first; try assumption; try now apply strict_eq_iff.
    rewrite !nth_middle, !assign_middle. subst updated.
    cbn [Student.id Student.First_name Student.Last_name Student.email
         Student.display_name Student.academic_level Student.profile_picture
         Student.created_at].
    now rewrite !spread_if_truthy_twice, spread_if_defined_twice.
Qed.

(** X19. A created profile can be updated at once: after POST
    /users/create-profile has created the profile of a string
    identifier, PUT /users/profile/:userId for that identifier answers
    200 and replaces the created record, which is the last one, leaving
    the records before it as they were. *)
Theorem X19_created_profile_can_be_updated
    (students : list Student.t) (now now' userId : string)
    (body : ProfileRequest.t) (update : ProfileUpdate.t) :
  ProfileRequest.id body = Js.JStr userId -> userId <> EmptyString ->
  Js.truthy (ProfileRequest.firstName body) = true ->
  Js.truthy (ProfileRequest.lastName body) = true ->
  Js.truthy (ProfileRequest.email body) = true ->
  (forall s, In s students -> Student.id s <> Js.JStr userId) ->
  let students' := snd (post_create_profile students now body) in
  exists created updated,
    students' = students ++ [created]
    /\ put_profile students' now' userId update
       = (Http.json
            (Http.Json
               {| Saved.student := updated;
                  Saved.message := "Profile updated successfully" |}),
          students ++ [updated])
    /\ Student.id updated = Js.JStr userId
    /\ Student.email updated = ProfileRequest.email body
    /\ Student.created_at updated = Js.JStr now
    /\ Student.updated_at updated = Js.JStr now'.
Proof.
  intros Hid Hne Hf Hl He Hfresh students'. subst students'.
  unfold post_create_profile. rewrite Hid, Hf, Hl, He, truthy_JStr by assumption.
  cbn [negb orb].
  assert (Hn : find (fun s => Js.strict_eq (Student.id s) (Js.JStr userId))
                    students = None).
  { apply find_None_iff. intros s Hs. apply not_true_iff_false.
    rewrite strict_eq_iff. now apply Hfresh. }
  rewrite Hn. cbn [snd]. eexists. eexists. split; [reflexivity|].
  unfold put_profile.
  rewrite findIndex_first;
    [| intros s Hs; apply not_true_iff_false; rewrite strict_eq_iff;
       now apply Hfresh
     | now apply strict_eq_iff ].
  rewrite nth_middle, assign_middle. split; [reflexivity|].
  cbn [Student.id Student.email Student.created_at Student.updated_at].
  now repeat split.
Qed.

End MoreStudentProfiles.

(** * GET /users/search *)

Section UserSearch.
Context {rt : Js.Runtime}.
Import UserRoutes.

Lemma field_includes_string (s searchLower : string) :
  field_includes (Js.JStr s) searchLower
  = Js.Normal (Js.includes (Js.toLowerCase s) searchLower).
Proof. reflexivity. Qed.

Lemma field_includes_throws (v : Js.value) (searchLower : string) :
  ~ Inv.is_string v -> field_includes v searchLower = Js.TypeError.
Proof.
  intros H. destruct v; try reflexivity. exfalso. apply H.
  unfold Inv.is_string. eauto.
Qed.

(** On a student whose fields have the expected types the callback of
    the search is the case-insensitive match on the four fields. *)
Lemma search_hit_searchable (query : string) (s : Student.t) :
  Inv.searchable s ->
  search_hit (Js.toLowerCase query) s = Js.Normal (Inv.name_match query s).
Proof.
  intros ([a Ha] & [b Hb] & [c Hc] & Hd).
  unfold search_hit, Inv.name_match. rewrite Ha, Hb, Hc.
  rewrite !field_includes_string. cbn [Js.bind Inv.text_of].
  destruct (Js.includes (Js.toLowerCase a) (Js.toLowerCase query));
    [reflexivity|].
  destruct (Js.includes (Js.toLowerCase b) (Js.toLowerCase query));
    [reflexivity|].
  destruct (Js.includes (Js.toLowerCase c) (Js.toLowerCase query));
    [reflexivity|].
  cbn [orb]. destruct Hd as [[d Hd]|Hd].
  - rewrite Hd. destruct (Js.truthy (Js.JStr d)); reflexivity.
  - now rewrite Hd.
Qed.

(** X20. GET /users/search over student records whose names and emails
    are strings never fails: for a non-empty query it answers 200,
    [total] is the number of students whose first name, last name, email
    or display name contains the query case-insensitively, whatever the
    limit, and the listed students are the first of them in store
    order: the first 20 without a [limit], the first [n] for a limit
    that reads as a natural number.  Each comes with the stored user of
    the same identifier, or with its own identifier and email when no
    user has it. *)
Theorem X20_user_search_lists_the_matching_students
    (users : list User.t) (students : list Student.t) (query : string)
    (limit : Js.param) :
  Forall Inv.searchable students -> query <> EmptyString ->
  let found := filter (Inv.name_match query) students in
  exists r,
    get_search users students (Some query) limit
    = Js.Normal (Http.json (Http.Json r))
    /\ SearchResult.total r = List.length found
    /\ SearchResult.query r = query
    /\ (exists n, map UserProfile.student (SearchResult.users r) = firstn n found)
    /\ (limit = None ->
        List.length (SearchResult.users r) = Nat.min 20 (List.length found))
    /\ (forall l n, limit = Some l -> Js.parseInt l = Some n -> (0 <= n)%Z ->
        List.length (SearchResult.users r)
        = Nat.min (Z.to_nat n) (List.length found))
    /\ Forall (fun profile =>
                 match UserProfile.user profile with
                 | UserRef.Stored u =>
                     In u users
                     /\ Js.JStr (User.id u)
                        = Student.id (UserProfile.student profile)
                 | UserRef.Minimal id email =>
                     id = Student.id (UserProfile.student profile)
                     /\ email = Student.email (UserProfile.student profile)
                     /\ forall u, In u users -> Js.JStr (User.id u) <> id
                 end)
              (SearchResult.users r).
Proof.
  intros Hs Hq found. unfold get_search, Js.supplied.
  apply String.eqb_neq in Hq. rewrite Hq. cbn [negb].
  rewrite (filter_throwing_total _ (Inv.name_match query)).
  2:{ intros s Hin. apply search_hit_searchable.
      rewrite Forall_forall in Hs. now apply Hs. }
  cbn [Js.bind]. fold found. eexists. split; [reflexivity|].
  cbn [SearchResult.total SearchResult.query SearchResult.users].
  split; [reflexivity|]. split; [reflexivity|].
  rewrite map_map. cbn [UserProfile.student]. rewrite map_id, length_map.
  split; [rewrite slice_prefix; eauto|].
  split; [intros ->; now rewrite length_slice_prefix by lia|].
  split.
  { intros l n -> Hn Hpos. rewrite Hn. now apply length_slice_prefix. }
  apply Forall_forall. intros profile Hp.
  apply in_map_iff in Hp as (s & <- & _).
  cbn [UserProfile.user UserProfile.student].
  destruct (find (fun u => Js.strict_eq (Js.JStr (User.id u)) (Student.id s))
                 users) as [u|] eqn:Hf.
  - apply find_some in Hf as [Hin Heq]. apply strict_eq_iff in Heq. now split.
  - split; [reflexivity|]. split; [reflexivity|].
    intros u Hu E. rewrite find_None_iff in Hf. specialize (Hf u Hu).
    cbn beta in Hf. apply strict_eq_iff in E. congruence.
Qed.

(** X21. GET /users/search answers 400 exactly when [q] is missing or
    empty.  With a query, one stored student whose [First_name] is not a
    string (a profile may be created or updated with [true]) makes the
    handler throw, and the client gets status 500 for every query. *)
Theorem X21_user_search_fails_on_a_first_name_that_is_not_a_string
    (users : list User.t) (students : list Student.t) (q limit : Js.param)
    (NODE_ENV : option string) (err_message now : string) :
  let status :=
    Http.status
      (App.respond NODE_ENV err_message now (get_search users students q limit)) in
  (status = 400%nat <-> Js.supplied q = false)
  /\ (Js.supplied q = true ->
      (exists s, In s students /\ ~ Inv.is_string (Student.First_name s)) ->
      get_search users students q limit = Js.TypeError /\ status = 500%nat).
Proof.
  intros status. subst status. unfold get_search. split.
  - destruct q as [query|]; [|now split].
    destruct (Js.supplied (Some query)); [|now split].
    destruct (Js.filter_throwing _ students); cbn; split; discriminate.
  - intros Hq (s & Hin & Hs). destruct q as [query|]; [|discriminate].
    rewrite Hq. rewrite filter_throwing_throws; [now split|].
    exists s. split; [assumption|]. unfold search_hit.
    now rewrite (field_includes_throws _ _ Hs).
Qed.

End UserSearch.

(** * Routes that are never reached, identifiers that collide *)

Section EnrollmentRouting.
Import EnrollmentRoutes.

(** X22. The statistics handler of the enrollment router is never run:
    its route is registered after [/:enrollmentId], which matches every
    path of one segment, so GET /enrollments/stats is answered by the
    handler of GET /enrollments/:enrollmentId, whatever rule the router
    uses to compare literal segments. *)
Theorem X22_statistics_route_is_shadowed
    (literal : string -> string -> bool) (path : list string) :
  Forall (fun seg => seg <> EmptyString) path ->
  Router.dispatch literal get_routes path <> Some Statistics
  /\ (forall seg, path = [seg] ->
      Router.dispatch literal get_routes path = Some CheckEnrollment
      \/ Router.dispatch literal get_routes path = Some EnrollmentDetails).
Proof.
  intros Hpath. unfold Router.dispatch, get_routes.
  destruct path as [|seg [|seg2 [|seg3 [|seg4 path]]]].
  - cbn. split; [discriminate | intros seg H; discriminate].
  - apply Forall_inv in Hpath. apply String.eqb_neq in Hpath.
    cbn. rewrite Hpath. cbn.
    destruct (literal "check" seg); cbn; rewrite ?andb_false_r; cbn;
      split; try discriminate; intros s _; auto.
  - cbn. rewrite !andb_false_r, !andb_true_r. cbn.
    split; [|intros seg' H; discriminate].
    destruct (literal "student" seg && negb (seg2 =? EmptyString)); cbn;
      [discriminate|].
    destruct (literal "course" seg && negb (seg2 =? EmptyString)); cbn;
      discriminate.
  - cbn. rewrite !andb_false_r, !andb_true_r. cbn.
    split; [|intros seg' H; discriminate].
    destruct (literal "course" seg
              && (negb (seg2 =? EmptyString) && literal "count" seg3)); cbn;
      discriminate.
  - cbn. rewrite !andb_false_r. cbn.
    split; [discriminate | intros seg' H; discriminate].
Qed.

(** X23. Enrollment identifiers are not unique: two enrollments created
    at the same reading of the clock get the same identifier.  DELETE
    /enrollments/:enrollmentId for it then removes the first of them
    only, and the second still answers to the identifier. *)
Theorem X23_enrollments_created_in_the_same_millisecond_share_their_id
    (store : list Enrollment.t) (clock clock' : Clock.t)
    (body body' : EnrollmentRequest.t) :
  Js.truthy (EnrollmentRequest.student_id body) = true ->
  Js.truthy (EnrollmentRequest.course_id body) = true ->
  Js.truthy (EnrollmentRequest.student_id body') = true ->
  Js.truthy (EnrollmentRequest.course_id body') = true ->
  Clock.now clock' = Clock.now clock ->
  ~ In (EnrollmentRequest.student_id body, EnrollmentRequest.course_id body)
       (map Inv.pair_of store) ->
  ~ In (EnrollmentRequest.student_id body', EnrollmentRequest.course_id body')
       (map Inv.pair_of store) ->
  (EnrollmentRequest.student_id body, EnrollmentRequest.course_id body)
  <> (EnrollmentRequest.student_id body', EnrollmentRequest.course_id body') ->
  (forall e, In e store ->
     Enrollment.id e
     <> ("enrollment_" ++ Js.int_to_string (Clock.now clock))%string) ->
  let store1 := snd (post_index store clock body) in
  let store2 := snd (post_index store1 clock' body') in
  exists e1 e2,
    store2 = store ++ [e1; e2]
    /\ Inv.pair_of e1
       = (EnrollmentRequest.student_id body, EnrollmentRequest.course_id body)
    /\ Inv.pair_of e2
       = (EnrollmentRequest.student_id body', EnrollmentRequest.course_id body')
    /\ Enrollment.id e1 = Enrollment.id e2
    /\ snd (delete_by_id store2 (Enrollment.id e1)) = store ++ [e2]
    /\ Http.status (fst (delete_by_id (store ++ [e2]) (Enrollment.id e1)))
       = 200%nat.
Proof.
  intros Hs Hc Hs' Hc' Hnow Hp Hp' Hne Hfresh store1 store2.
  apply find_same_pair_None in Hp, Hp'.
  assert (H1 : exists e1,
             store1 = store ++ [e1]
             /\ Inv.pair_of e1
                = (EnrollmentRequest.student_id body,
                   EnrollmentRequest.course_id body)
             /\ Enrollment.id e1
                = ("enrollment_" ++ Js.int_to_string (Clock.now clock))%string).
  { subst store1. unfold post_index. rewrite Hs, Hc. cbn [negb orb].
    rewrite Hp. cbn [snd]. eexists. split; [reflexivity|]. now split. }
  destruct H1 as (e1 & E1 & P1 & I1).
  assert (H2 : exists e2,
             store2 = store ++ [e1; e2]
             /\ Inv.pair_of e2
                = (EnrollmentRequest.student_id body',
                   EnrollmentRequest.course_id body')
             /\ Enrollment.id e2
                = ("enrollment_" ++ Js.int_to_string (Clock.now clock'))%string).
  { subst store2. rewrite E1. unfold post_index. rewrite Hs', Hc'.
    cbn [negb orb]. rewrite (find_app_single _ _ _ Hp').
    assert (Hd : same_pair (EnrollmentRequest.student_id body')
                           (EnrollmentRequest.course_id body') e1 = false).
    { apply not_true_iff_false. rewrite same_pair_iff. intros [F1 F2].
      apply Hne. rewrite <- P1. unfold Inv.pair_of. now rewrite F1, F2. }
    rewrite Hd. cbn [snd]. rewrite <- app_assoc. cbn [app].
    eexists. split; [reflexivity|]. now split. }
  destruct H2 as (e2 & E2 & P2 & I2).
  clearbody store1 store2. subst store1 store2.
  exists e1, e2. split; [reflexivity|]. split; [assumption|].
  split; [assumption|].
  assert (Hid : Enrollment.id e1 = Enrollment.id e2)
    by (now rewrite I1, I2, Hnow).
  split; [assumption|].
  assert (Hno : forall e, In e store ->
            (Enrollment.id e =? Enrollment.id e1) = false).
  { intros e He. apply String.eqb_neq. rewrite I1. now apply Hfresh. }
  unfold delete_by_id. split.
  - rewrite findIndex_first; [| exact Hno | apply String.eqb_refl ].
    cbn [snd]. apply splice1_middle.
  - rewrite findIndex_first;
      [reflexivity | exact Hno | rewrite Hid; apply String.eqb_refl ].
Qed.

End EnrollmentRouting.

(** * The properties above on the seed data *)

Lemma X1_witness_seed_store :
  List.length
    (CourseRoutes.Courses.courses
       (Http.body
          (CourseRoutes.get_featured (rt := Reference.runtime)
             CourseRoutes.mockCourses (Some "1"))))
  = 1%nat.
Proof.
  pose proof (X1_featured_is_a_prefix_of_the_featured_courses
                (rt := Reference.runtime) CourseRoutes.mockCourses (Some "1"))
    as H.
  cbv zeta in H. destruct H as (_ & _ & _ & H & _).
  rewrite (H "1" 1%Z); [reflexivity | reflexivity | reflexivity | lia].
Defined.

Lemma X4_witness_seed_store :
  exists r,
    CourseRoutes.get_search (rt := Reference.runtime) CourseRoutes.mockCourses
      (Some "react") None None
    = Http.json (Http.Json r)
    /\ CourseRoutes.SearchListing.total r = 1%nat.
Proof.
  destruct (proj2 (X4_course_search_finds_what_the_listing_finds
                     (rt := Reference.runtime) CourseRoutes.mockCourses
                     (Some "react") None None)
                  "react" eq_refl)
    as (r & Heq & Htotal & _).
  - discriminate.
  - exists r. split; [exact Heq|]. rewrite Htotal. reflexivity.
Defined.

Lemma X5_witness_seed_store :
  exists c,
    Course.id c = "course_2"
    /\ CourseRoutes.get_by_id CourseRoutes.mockCourses "course_2"
       = Http.json (Http.Json c).
Proof.
  destruct (proj2 (X5_course_by_id_finds_the_first_course_with_the_id
                     CourseRoutes.mockCourses "course_2"))
    as (l1 & c & l2 & _ & Hid & _ & Heq).
  - eexists. split; [right; left; reflexivity | reflexivity].
  - exists c. now split.
Defined.

Lemma X6_witness_seed_store :
  exists r,
    CourseRoutes.get_similar (rt := Reference.runtime) CourseRoutes.mockCourses
      "course_1" None
    = Http.json (Http.Json r)
    /\ Forall (fun c => Course.id c <> "course_1")
              (CourseRoutes.Courses.courses r).
Proof.
  destruct (proj2 (X6_similar_courses_share_category_or_level
                     (rt := Reference.runtime) CourseRoutes.mockCourses
                     "course_1" None)
                  _ eq_refl)
    as (r & Heq & Hall & _).
  exists r. split; [exact Heq|].
  eapply Forall_impl; [|exact Hall]. intros c H. apply H.
Defined.

Lemma X7_witness_seed_store :
  (List.length
     (CourseRoutes.Listing.courses
        (Http.body
           (CourseRoutes.get_index (rt := Reference.runtime)
              CourseRoutes.mockCourses
              (Sample.page None (Some "1") None))))
   <= 1)%nat.
Proof.
  pose proof (X7_listing_returns_matching_stored_courses_within_the_limit
                (rt := Reference.runtime) CourseRoutes.mockCourses
                (Sample.page None (Some "1") None)) as H.
  cbv zeta in H. destruct H as (_ & _ & H).
  apply (H 0%Z 1%Z); [reflexivity | reflexivity | lia | lia].
Defined.

Lemma X8_witness_seed_store :
  CourseRoutes.Listing.courses
    (Http.body
       (CourseRoutes.get_index (rt := Reference.runtime) CourseRoutes.mockCourses
          (Sample.page (Some "price-high") (Some "1") (Some "0"))))
  ++ CourseRoutes.Listing.courses
       (Http.body
          (CourseRoutes.get_index (rt := Reference.runtime)
             CourseRoutes.mockCourses
             (Sample.page (Some "price-high") (Some "1") (Some "1"))))
  = CourseRoutes.Listing.courses
      (Http.body
         (CourseRoutes.get_index (rt := Reference.runtime)
            CourseRoutes.mockCourses
            (Sample.page (Some "price-high") (Some "2") (Some "0")))).
Proof.
  apply (X8_consecutive_pages_tile_the_listing (rt := Reference.runtime)
           CourseRoutes.mockCourses None None None None None None
           (Some "price-high") "0" "1" "1" "1" "2" 0%Z 1%Z 1%Z);
    try reflexivity; lia.
Defined.

Lemma X9_witness_seed_store :
  exists chk,
    EnrollmentRoutes.get_check EnrollmentRoutes.mockEnrollments
      (Some "user_123") (Some "course_1")
    = Http.json (Http.Json chk)
    /\ (EnrollmentRoutes.Check.is_enrolled chk = true
        <-> Http.status
              (fst (EnrollmentRoutes.post_index EnrollmentRoutes.mockEnrollments
                      Sample.clock
                      (EnrollmentRoutes.EnrollmentRequest.Make
                         (Js.JStr "user_123") (Js.JStr "course_1")
                         Js.JUndefined)))
            = 409%nat).
Proof.
  destruct (X9_check_predicts_the_outcome_of_enrolling
              EnrollmentRoutes.mockEnrollments "user_123" "course_1"
              Sample.clock Js.JUndefined)
    as (chk & Heq & _ & H & _); try discriminate.
  exists chk. split; [exact Heq | exact H].
Defined.

Lemma seed_pairs_unique : Inv.unique_pairs EnrollmentRoutes.mockEnrollments.
Proof.
  unfold Inv.unique_pairs. cbn. repeat constructor.
  - intros [H|[]]. discriminate.
  - intros [].
Qed.

Lemma X10_witness_seed_store :
  Inv.unique_pairs
    (snd (EnrollmentRoutes.post_index EnrollmentRoutes.mockEnrollments
            Sample.clock
            (Sample.enroll (Js.JStr "user_123") (Js.JStr "course_2")))).
Proof.
  apply (proj1 (X10_mutations_keep_the_pairs_unique
                  EnrollmentRoutes.mockEnrollments seed_pairs_unique)).
Defined.

Lemma X11_witness_seed_store :
  snd (EnrollmentRoutes.post_unenroll
         (snd (EnrollmentRoutes.post_index EnrollmentRoutes.mockEnrollments
                 Sample.clock
                 (EnrollmentRoutes.EnrollmentRequest.Make
                    (Js.JStr "user_123") (Js.JStr "course_2") Js.JUndefined)))
         "user_123" (Js.JStr "course_2"))
  = EnrollmentRoutes.mockEnrollments.
Proof.
  apply (X11_unenrolling_undoes_enrolling EnrollmentRoutes.mockEnrollments
           Sample.clock "user_123" (Js.JStr "course_2") Js.JUndefined).
  - discriminate.
  - reflexivity.
  - intros e [<-|[<-|[]]] [H1 H2]; discriminate.
Defined.

Lemma X12_witness_seed_store :
  EnrollmentRoutes.StudentListing.total
    (Http.body
       (EnrollmentRoutes.get_by_student
          (snd (EnrollmentRoutes.post_index EnrollmentRoutes.mockEnrollments
                  Sample.clock
                  (EnrollmentRoutes.EnrollmentRequest.Make
                     (Js.JStr "user_123") (Js.JStr "course_2") Js.JUndefined)))
          "user_123" (Some "true")))
  = 2%nat.
Proof.
  pose proof (X12_enrolling_adds_one_to_the_listing_of_the_student
                EnrollmentRoutes.mockEnrollments Sample.clock "user_123"
                (Js.JStr "course_2") Js.JUndefined) as H.
  cbv zeta in H.
  rewrite (proj1 (H ltac:(discriminate) eq_refl
                    ltac:(intros e [<-|[<-|[]]] [H1 H2]; discriminate)
                    "user_123" (Some "true"))).
  reflexivity.
Defined.

(** The seed store after an enrollment whose [student_id] is [true]. *)
Lemma X13_witness_student_id_true :
  EnrollmentRoutes.get_by_course
    (snd (EnrollmentRoutes.post_index EnrollmentRoutes.mockEnrollments
            Sample.clock (Sample.enroll (Js.JBool true) (Js.JStr "course_1"))))
    "course_1" (Some "true")
  = Js.TypeError.
Proof.
  apply (proj1 (proj2 (X13_course_listing_agrees_with_the_count_or_throws _ _))).
  eexists. split; [right; right; left; reflexivity|].
  split; [reflexivity|]. intros [s H]. discriminate.
Defined.

Lemma X14_witness_student_id_true :
  Http.status
    (App.respond None "enrollment.student_id.slice is not a function" Sample.now
       (EnrollmentRoutes.get_by_id
          (snd (EnrollmentRoutes.post_index EnrollmentRoutes.mockEnrollments
                  Sample.clock
                  (Sample.enroll (Js.JBool true) (Js.JStr "course_1"))))
          "enrollment_1706745600000"))
  = 500%nat.
Proof.
  eapply (proj2 (X14_enrollment_details_or_server_error _ _)
                EnrollmentRoutes.mockEnrollments _ []).
  - reflexivity.
  - reflexivity.
  - intros e [<-|[<-|[]]]; discriminate.
  - intros [s H]. discriminate.
Defined.

Lemma X15_witness_seed_store :
  StronglySorted (Inv.newest_first (rt := Reference.runtime))
    (snd (EnrollmentRoutes.get_stats (rt := Reference.runtime)
            EnrollmentRoutes.mockEnrollments)).
Proof.
  pose proof (X15_statistics_count_and_reorder_the_store
                (rt := Reference.runtime) EnrollmentRoutes.mockEnrollments) as H.
  cbv zeta in H. destruct H as (_ & _ & _ & _ & _ & _ & _ & H & _).
  apply H. repeat constructor; eexists; reflexivity.
Defined.

Lemma X16_witness_seed_store :
  exists s,
    UserRoutes.post_create_profile UserRoutes.mockStudents Sample.now
      (Sample.profile (Js.JStr "user_789") (Js.JStr "Ada")
                      (Js.JStr "Lovelace") (Js.JStr "ada@example.com"))
    = (Http.Response 201
         (Http.Json
            {| UserRoutes.Saved.student := s;
               UserRoutes.Saved.message :=
                 "Student profile created successfully" |}),
       UserRoutes.mockStudents ++ [s])
    /\ Student.display_name s = Js.JStr "Ada Lovelace".
Proof.
  destruct (X16_profile_is_created_from_the_request_once
              UserRoutes.mockStudents Sample.now
              (Sample.profile (Js.JStr "user_789") (Js.JStr "Ada")
                              (Js.JStr "Lovelace") (Js.JStr "ada@example.com"))
              eq_refl eq_refl eq_refl eq_refl)
    as (s & Heq & _ & _ & _ & _ & _ & Hname & _).
  - intros s [<-|[<-|[]]]; discriminate.
  - exists s. split; [exact Heq|]. apply Hname. now left.
Defined.

Lemma seed_ids_unique : Inv.unique_ids UserRoutes.mockStudents.
Proof.
  unfold Inv.unique_ids. cbn. repeat constructor.
  - intros [H|[]]. discriminate.
  - intros [].
Qed.

Lemma X17_witness_seed_store :
  Inv.unique_ids
    (snd (UserRoutes.post_create_profile UserRoutes.mockStudents Sample.now
            (Sample.profile (Js.JStr "user_789") (Js.JStr "Ada")
                            (Js.JStr "Lovelace") (Js.JStr "ada@example.com")))).
Proof.
  apply (proj2 (X17_profile_mutations_keep_the_identifiers
                  UserRoutes.mockStudents) seed_ids_unique).
Defined.

Lemma X19_witness_seed_store :
  exists created updated,
    snd (UserRoutes.post_create_profile UserRoutes.mockStudents Sample.now
           (Sample.profile (Js.JStr "user_789") (Js.JStr "Ada")
                           (Js.JStr "Lovelace") (Js.JStr "ada@example.com")))
    = UserRoutes.mockStudents ++ [created]
    /\ snd (UserRoutes.put_profile
              (snd (UserRoutes.post_create_profile UserRoutes.mockStudents
                      Sample.now
                      (Sample.profile (Js.JStr "user_789") (Js.JStr "Ada")
                                      (Js.JStr "Lovelace")
                                      (Js.JStr "ada@example.com"))))
              Sample.now "user_789" (Sample.rename (Js.JStr "Augusta")))
       = UserRoutes.mockStudents ++ [updated].
Proof.
  destruct (X19_created_profile_can_be_updated UserRoutes.mockStudents
              Sample.now Sample.now "user_789"
              (Sample.profile (Js.JStr "user_789") (Js.JStr "Ada")
                              (Js.JStr "Lovelace") (Js.JStr "ada@example.com"))
              (Sample.rename (Js.JStr "Augusta")) eq_refl)
    as (created & updated & Hc & Hu & _); try reflexivity; try discriminate.
  - intros s [<-|[<-|[]]]; discriminate.
  - exists created, updated. split; [exact Hc|]. now rewrite Hu.
Defined.

Lemma seed_students_searchable : Forall Inv.searchable UserRoutes.mockStudents.
Proof.
  unfold UserRoutes.mockStudents, Inv.searchable, Inv.is_string.
  repeat (apply Forall_cons || apply Forall_nil); cbn;
    repeat split; eauto.
Qed.

Lemma X20_witness_seed_store :
  exists r,
    UserRoutes.get_search (rt := Reference.runtime) UserRoutes.mockUsers
      UserRoutes.mockStudents (Some "JANE") None
    = Js.Normal (Http.json (Http.Json r))
    /\ UserRoutes.SearchResult.total r = 1%nat.
Proof.
  destruct (X20_user_search_lists_the_matching_students
              (rt := Reference.runtime) UserRoutes.mockUsers
              UserRoutes.mockStudents "JANE" None seed_students_searchable)
    as (r & Heq & Htotal & _).
  - discriminate.
  - exists r. split; [exact Heq|]. rewrite Htotal. reflexivity.
Defined.

(** The seed store after a profile update whose [First_name] is [true]. *)
Lemma X21_witness_first_name_true :
  UserRoutes.get_search (rt := Reference.runtime) UserRoutes.mockUsers
    (snd (UserRoutes.put_profile UserRoutes.mockStudents Sample.now "user_456"
            (Sample.rename (Js.JBool true))))
    (Some "john") None
  = Js.TypeError.
Proof.
  apply (proj2 (X21_user_search_fails_on_a_first_name_that_is_not_a_string
                  (rt := Reference.runtime) UserRoutes.mockUsers
                  (snd (UserRoutes.put_profile UserRoutes.mockStudents
                          Sample.now "user_456" (Sample.rename (Js.JBool true))))
                  (Some "john") None None EmptyString Sample.now)).
  - reflexivity.
  - eexists. split; [right; left; reflexivity|]. intros [s H]. discriminate.
Defined.

Lemma X22_witness_stats_path :
  Router.dispatch String.eqb EnrollmentRoutes.get_routes ["stats"]
  = Some EnrollmentRoutes.EnrollmentDetails.
Proof.
  destruct (proj2 (X22_statistics_route_is_shadowed String.eqb ["stats"]
                     ltac:(repeat constructor; discriminate))
                  "stats" eq_refl) as [H|H].
  - discriminate.
  - exact H.
Defined.

Lemma X23_witness_seed_store :
  exists e1 e2,
    snd (EnrollmentRoutes.post_index
           (snd (EnrollmentRoutes.post_index EnrollmentRoutes.mockEnrollments
                   Sample.clock
                   (Sample.enroll (Js.JStr "user_123") (Js.JStr "course_2"))))
           Sample.later
           (Sample.enroll (Js.JStr "user_456") (Js.JStr "course_1")))
    = EnrollmentRoutes.mockEnrollments ++ [e1; e2]
    /\ Enrollment.id e1 = Enrollment.id e2.
Proof.
  destruct (X23_enrollments_created_in_the_same_millisecond_share_their_id
              EnrollmentRoutes.mockEnrollments Sample.clock Sample.later
              (Sample.enroll (Js.JStr "user_123") (Js.JStr "course_2"))
              (Sample.enroll (Js.JStr "user_456") (Js.JStr "course_1"))
              eq_refl eq_refl eq_refl eq_refl eq_refl)
    as (e1 & e2 & Heq & _ & _ & Hid & _).
  - intros [H|[H|[]]]; discriminate.
  - intros [H|[H|[]]]; discriminate.
  - discriminate.
  - intros e [<-|[<-|[]]]; discriminate.
  - exists e1, e2. now split.
Defined.

(** * What the uniqueness of the pairs is good for *)

(** X24. In a store without a repeated (student, course) pair,
    unenrolling is final: after the unenroll route has removed the
    enrollment of a student for a course, GET /enrollments/check for the
    pair says [is_enrolled: false] and finds no enrollment. *)
Theorem X24_check_is_false_after_unenrolling
    (store : list Enrollment.t) (student course : string) :
  Inv.unique_pairs store ->
  student <> EmptyString -> course <> EmptyString ->
  (exists e, In e store /\ Enrollment.student_id e = Js.JStr student
             /\ Enrollment.course_id e = Js.JStr course) ->
  let unenrolled :=
    EnrollmentRoutes.post_unenroll store student (Js.JStr course) in
  Http.status (fst unenrolled) = 200%nat
  /\ EnrollmentRoutes.get_check (snd unenrolled) (Some student) (Some course)
     = Http.json
         (Http.Json
            {| EnrollmentRoutes.Check.is_enrolled := false;
               EnrollmentRoutes.Check.enrollment := None;
               EnrollmentRoutes.Check.student_id := student;
               EnrollmentRoutes.Check.course_id := course |}).
Proof.
  intros Hu Hs Hc (e & He & H1 & H2) unenrolled. subst unenrolled.
  unfold EnrollmentRoutes.post_unenroll.
  rewrite truthy_JStr by assumption. cbn [negb].
  destruct (findIndex_In
              (EnrollmentRoutes.same_pair (Js.JStr student) (Js.JStr course))
              store e He) as [i Hi]; [now apply same_pair_iff|].
  rewrite Hi. cbn [fst snd Http.status Http.json]. split; [reflexivity|].
  destruct (findIndex_Some _ _ _ Hi)
    as (l1 & x & l2 & -> & _ & Hx & _ & -> & _).
  apply same_pair_iff in Hx as [Hx1 Hx2].
  unfold Inv.unique_pairs in Hu. rewrite map_app in Hu. cbn [map] in Hu.
  apply NoDup_remove_2 in Hu. rewrite <- map_app in Hu.
  unfold Inv.pair_of at 1 in Hu. rewrite Hx1, Hx2 in Hu.
  apply find_same_pair_None in Hu.
  unfold EnrollmentRoutes.get_check, Js.supplied.
  apply String.eqb_neq in Hs, Hc. rewrite Hs, Hc. cbn [negb orb].
  now rewrite Hu.
Qed.

Lemma X24_witness_seed_store :
  EnrollmentRoutes.get_check
    (snd (EnrollmentRoutes.post_unenroll EnrollmentRoutes.mockEnrollments
            "user_123" (Js.JStr "course_1")))
    (Some "user_123") (Some "course_1")
  = Http.json
      (Http.Json
         {| EnrollmentRoutes.Check.is_enrolled := false;
            EnrollmentRoutes.Check.enrollment := None;
            EnrollmentRoutes.Check.student_id := "user_123";
            EnrollmentRoutes.Check.course_id := "course_1" |}).
Proof.
  apply (X24_check_is_false_after_unenrolling EnrollmentRoutes.mockEnrollments
           "user_123" "course_1" seed_pairs_unique).
  - discriminate.
  - discriminate.
  - eexists. split; [left; reflexivity|]. now split.
Defined.
